(** * Dynamic form workflow: schema compiler, validators and form machines

    A shallow embedding of the form workflow of the repository:
    - the schema compilers ([formJsonToJsonSchema] of the shared module and
      of [interpretedFormMachine.js], [formJsonToValidationSchema] of
      [validators.js]);
    - the validators ([validateFormValues], [validateWithAJV]);
    - the XState machines built by [createFormMachine] in
      [formMachineFactory.js] and in [interpretedFormMachine.js], run by a
      small interpreter for the part of XState the configurations use
      (guards, [assign] actions, entry actions, eventless [always]
      transitions, the events of invoked services);
    - the guard [isValid] of the websocket session machine of the server and
      its two [POST] endpoints;
    - the client machine of [App.jsx].

    JavaScript strings are sequences of UTF-16 code units and numbers are
    IEEE binary64 floats. An object used as a dictionary is the finite map of
    its own properties; what a read finds along the prototype chain, and what
    an assignment to the key [__proto__] does, is written out where the code
    reads or assigns by a computed key. *)

From Stdlib Require Import Floats NArith ZArith Ascii String List Bool.
From stdpp Require Import gmap strings list fin_maps option pretty.

Set Default Proof Using "Type".
Set Warnings "-register-all,-clear-no-such-hyp".
Local Open Scope N_scope.

(** ** JavaScript values *)

(** A string is the list of its UTF-16 code units. *)
Abbreviation jsstring := (list N).

(** The code units of an ASCII literal. *)
Definition js (s : string) : jsstring :=
  (λ a, N_of_ascii a) <$> list_ascii_of_string s.

(** The values the code handles. [VObj] is an object given by a literal or
    by JSON data, with its properties in order; [VFun] is a function, given
    by the text [String] prints for it. *)
Inductive val :=
| VUndefined
| VNull
| VBool (b : bool)
| VNum (x : float)
| VStr (s : jsstring)
| VArr (items : list val)
| VObj (props : list (jsstring * val))
| VFun (source : jsstring).

(** [WhiteSpace] and [LineTerminator] of ECMAScript: what [String.prototype.trim]
    strips and what [\s] matches. *)
Definition is_whitespace (c : N) : bool :=
  bool_decide (c ∈ [9; 10; 11; 12; 13; 32; 160; 5760; 8232; 8233; 8239; 8287;
                    12288; 65279])
  || ((8192 <=? c) && (c <=? 8202)).

Fixpoint trimStart (s : jsstring) : jsstring :=
  match s with
  | c :: s' => if is_whitespace c then trimStart s' else s
  | [] => []
  end.

Definition trimEnd (s : jsstring) : jsstring := rev (trimStart (rev s)).

(** [s.trim()] *)
Definition trim (s : jsstring) : jsstring := trimEnd (trimStart s).

(** [ToBoolean]: what [if (x)], [!x] and [x || y] test. *)
Definition truthy_number (x : float) : bool :=
  negb (PrimFloat.eqb x 0 || PrimFloat.is_nan x).

Definition truthy_string (s : jsstring) : bool :=
  match s with [] => false | _ => true end.

Definition truthy (v : val) : bool :=
  match v with
  | VUndefined | VNull => false
  | VBool b => b
  | VNum x => truthy_number x
  | VStr s => truthy_string s
  | VArr _ | VObj _ | VFun _ => true
  end.

(** [o[k]] on an object literal: the first binding of the key, [undefined]
    when there is none. *)
Fixpoint get_prop (k : jsstring) (props : list (jsstring * val)) : val :=
  match props with
  | [] => VUndefined
  | (k', v) :: rest => if bool_decide (k' = k) then v else get_prop k rest
  end.

(** [v?.k]: [undefined] on [undefined] and [null]; a primitive, an array
    and a function have none of the properties read here ([message],
    [errors]), and no prototype has. *)
Definition opt_chain (v : val) (k : jsstring) : val :=
  match v with
  | VObj props => get_prop k props
  | _ => VUndefined
  end.

(** [v === undefined], [v === null], [v === ''] *)
Definition is_undefined (v : val) : bool :=
  match v with VUndefined => true | _ => false end.
Definition is_null (v : val) : bool :=
  match v with VNull => true | _ => false end.
Definition is_empty_string (v : val) : bool :=
  match v with VStr [] => true | _ => false end.

(** [a || b] *)
Definition or_else (a b : val) : val := if truthy a then a else b.

(** ** Objects as dictionaries

    The objects the code uses as dictionaries are created by [{}] or by an
    object literal with spreads and computed keys, so their prototype is
    [Object.prototype] and a finite map of their own properties describes
    them. Two operations see more than the own properties.

    A read [obj[k]] of a key the object lacks goes on to the prototype:
    [Object.prototype] has the function members below and the accessor
    [__proto__], whose getter returns the prototype itself. *)

(** [String(f)] of a built-in function, as Node prints it. *)
Definition native_function (name : string) : val :=
  VFun (js "function " ++ js name ++ js "() { [native code] }").

(** The function members of [Object.prototype], each with the name of the
    function. *)
Definition Object_prototype : list (jsstring * val) :=
  [ (js "constructor", native_function "Object");
    (js "__defineGetter__", native_function "__defineGetter__");
    (js "__defineSetter__", native_function "__defineSetter__");
    (js "hasOwnProperty", native_function "hasOwnProperty");
    (js "__lookupGetter__", native_function "__lookupGetter__");
    (js "__lookupSetter__", native_function "__lookupSetter__");
    (js "isPrototypeOf", native_function "isPrototypeOf");
    (js "propertyIsEnumerable", native_function "propertyIsEnumerable");
    (js "toString", native_function "toString");
    (js "valueOf", native_function "valueOf");
    (js "toLocaleString", native_function "toLocaleString") ].

Definition proto_key : jsstring := js "__proto__".

(** What an object with the prototype [Object.prototype] inherits under a
    key; [None] for a key the prototype does not define. *)
Definition inherited (k : jsstring) : option val :=
  if bool_decide (k = proto_key) then Some (VObj Object_prototype)
  else (list_to_map Object_prototype : gmap (list N) val) !! k.

(** An assignment [obj[k] = v] to an object that has no property
    [__proto__] of its own and inherits the accessor: the key [__proto__]
    calls the setter, which stores no property (it makes [v] the prototype
    when [v] is an object or [null], and does nothing otherwise); every
    other key becomes, or stays, a property of the object itself, the
    members of [Object.prototype] being writable. *)
Definition set_key {A} (k : jsstring) (v : A) (obj : gmap (list N) A)
  : gmap (list N) A :=
  if bool_decide (k = proto_key) then obj else <[k := v]> obj.

(** What the setter of [__proto__] takes for a prototype. *)
Definition is_object_or_null (v : val) : bool :=
  match v with
  | VNull | VArr _ | VObj _ | VFun _ => true
  | _ => false
  end.

(** ** Regular expressions

    The fragment the validators use: character classes, concatenation and
    [+], matched against the whole string (the patterns are anchored with
    [^] and [$]), by derivatives. *)

Inductive regex :=
| ReNone
| ReEps
| ReClass (p : N → bool)
| ReCat (r1 r2 : regex)
| ReAlt (r1 r2 : regex)
| ReStar (r : regex)
| RePlus (r : regex).

Fixpoint nullable (r : regex) : bool :=
  match r with
  | ReNone => false
  | ReEps => true
  | ReClass _ => false
  | ReCat r1 r2 => nullable r1 && nullable r2
  | ReAlt r1 r2 => nullable r1 || nullable r2
  | ReStar _ => true
  | RePlus r => nullable r
  end.

Fixpoint deriv (c : N) (r : regex) : regex :=
  match r with
  | ReNone | ReEps => ReNone
  | ReClass p => if p c then ReEps else ReNone
  | ReCat r1 r2 =>
      if nullable r1 then ReAlt (ReCat (deriv c r1) r2) (deriv c r2)
      else ReCat (deriv c r1) r2
  | ReAlt r1 r2 => ReAlt (deriv c r1) (deriv c r2)
  | ReStar r => ReCat (deriv c r) (ReStar r)
  | RePlus r => ReCat (deriv c r) (ReStar r)
  end.

(** [/^r$/.test(s)] *)
Definition regex_test (r : regex) (s : jsstring) : bool :=
  nullable (fold_left (λ r c, deriv c r) s r).

(** [[^\s@]] *)
Definition not_space_at (c : N) : bool := negb (is_whitespace c || (c =? 64)).

(** [/^[^\s@]+@[^\s@]+\.[^\s@]+$/] *)
Definition emailRegex : regex :=
  ReCat (RePlus (ReClass not_space_at))
    (ReCat (ReClass (λ c, c =? 64))
       (ReCat (RePlus (ReClass not_space_at))
          (ReCat (ReClass (λ c, c =? 46))
             (RePlus (ReClass not_space_at))))).

(** ** Exceptions

    A call either returns or throws. The only exception the modelled code
    raises itself is the [TypeError] of reading a property of [undefined];
    [Error] is an exception of another class ([Error], [SyntaxError], ...),
    which [ajv.compile] throws on a schema it refuses. *)

Inductive exn := TypeError | Error.

Inductive completion (A : Type) :=
| Normal (a : A)
| Throw (e : exn).
Arguments Normal {A} a.
Arguments Throw {A} e.

#[global] Instance completion_ret : MRet completion := λ A a, Normal a.
#[global] Instance completion_bind : MBind completion := λ A B k c,
  match c with
  | Normal a => k a
  | Throw e => Throw e
  end.
#[global] Instance completion_fmap : FMap completion := λ A B f c,
  match c with
  | Normal a => Normal (f a)
  | Throw e => Throw e
  end.

(** [for (const x of xs) acc = body(acc, x)], stopping at the first throw. *)
Fixpoint for_of {A S} (xs : list A) (body : S → A → completion S) (acc : S)
  : completion S :=
  match xs with
  | [] => Normal acc
  | x :: rest => acc' ← body acc x; for_of rest body acc'
  end.

(** ** Field definitions ([action.formJson]) *)

(** One entry of [field.options]. *)
Record FieldOption := { opt_value : val; opt_label : jsstring }.

(** A field of [formJson]. An optional property that is missing is [None]
    ([VUndefined] for [default], which the code only compares with
    [undefined]). *)
Module Field.
Record t := mk {
  name : jsstring;
  type : jsstring;
  label : option jsstring;
  required : bool;
  minLength : option float;
  maxLength : option float;
  minimum : option float;
  maximum : option float;
  pattern : option jsstring;
  format : option jsstring;
  options : option (list FieldOption);
  default : val;
  placeholder : option jsstring;
  description : option jsstring
}.
End Field.

(** A field with only a name and a type. *)
Definition plain_field (name type : string) : Field.t :=
  Field.mk (js name) (js type) None false None None None None None None None
    VUndefined None None.

(** [switch (t) { case k1: case k2: ... }] *)
Definition case_of (t : jsstring) (cases : list string) : bool :=
  bool_decide (t ∈ js <$> cases).

(** [if (x)] for an optional number, an optional string. *)
Definition truthy_num (x : option float) : bool :=
  from_option truthy_number false x.
Definition truthy_str (x : option jsstring) : bool :=
  from_option truthy_string false x.

(** [x !== undefined] for an optional property. *)
Definition defined {A} (x : option A) : bool := bool_decide (is_Some x).

(** ** JSON Schema objects

    A schema property is the object the compilers build key by key. *)

Abbreviation SchemaProp := (gmap (list N) val).

(** [properties] holds the own properties of the object [properties] of the
    schema. [properties_proto] is the prototype an assignment
    [properties['__proto__'] = prop] gave that object; [None] stands for
    [Object.prototype], the prototype it is created with. *)
Record JsonSchema := {
  schema_title : option jsstring;
  schema_type : jsstring;
  properties : gmap (list N) (gmap (list N) val);
  properties_proto : option SchemaProp;
  schema_required : list jsstring
}.

(** [properties[name] = prop] in the loop of a compiler. The object
    [properties] gets no property [__proto__] of its own, and its chain is a
    property object (with the keys the [switch] writes) or nothing, and then
    [Object.prototype]: the key [__proto__] always reaches the setter, which
    makes [prop] the prototype. *)
Definition set_property (name : jsstring) (prop : SchemaProp) (schema : JsonSchema)
  : JsonSchema :=
  {| schema_title := schema_title schema;
     schema_type := schema_type schema;
     properties := set_key name prop (properties schema);
     properties_proto :=
       if bool_decide (name = proto_key) then Some prop
       else properties_proto schema;
     schema_required := schema_required schema |}.

(** [if (required) required.push(name)] *)
Definition push_required (required : bool) (name : jsstring) (schema : JsonSchema)
  : JsonSchema :=
  {| schema_title := schema_title schema;
     schema_type := schema_type schema;
     properties := properties schema;
     properties_proto := properties_proto schema;
     schema_required :=
       if required then schema_required schema ++ [name]
       else schema_required schema |}.

(** [if (c) prop[k] = v], for an optional [v] that [c] implies present. *)
Definition set_num (c : bool) (k : string) (v : option float) (prop : SchemaProp)
  : SchemaProp :=
  match v with
  | Some x => if c then <[js k := VNum x]> prop else prop
  | None => prop
  end.
Definition set_str (c : bool) (k : string) (v : option jsstring) (prop : SchemaProp)
  : SchemaProp :=
  match v with
  | Some x => if c then <[js k := VStr x]> prop else prop
  | None => prop
  end.

(** [field.options.map(fn)]: a [TypeError] when [options] is missing. *)
Definition options_map {B} (options : option (list FieldOption)) (fn : FieldOption → B)
  : completion (list B) :=
  match options with
  | Some os => Normal (fn <$> os)
  | None => Throw TypeError
  end.

(** *** The shared compiler (shared [formMachine] module) *)

Module Shared.

(** The body of the loop of [formJsonToJsonSchema] up to the [switch]. *)
Definition prop_of_type (field : Field.t) : completion SchemaProp :=
  let prop : SchemaProp := ∅ in
  let t := Field.type field in
  if case_of t ["string"; "text"; "textarea"] then
    let prop := <[js "type" := VStr (js "string")]> prop in
    let prop := set_num (truthy_num (Field.minLength field)) "minLength"
                  (Field.minLength field) prop in
    let prop := set_num (truthy_num (Field.maxLength field)) "maxLength"
                  (Field.maxLength field) prop in
    let prop := set_str (truthy_str (Field.pattern field)) "pattern"
                  (Field.pattern field) prop in
    Normal prop
  else if case_of t ["email"] then
    let prop := <[js "type" := VStr (js "string")]> prop in
    let prop := <[js "format" := VStr (js "email")]> prop in
    Normal prop
  else if case_of t ["number"; "integer"] then
    let prop := <[js "type" := VStr t]> prop in
    let prop := set_num (defined (Field.minimum field)) "minimum"
                  (Field.minimum field) prop in
    let prop := set_num (defined (Field.maximum field)) "maximum"
                  (Field.maximum field) prop in
    Normal prop
  else if case_of t ["select"] then
    let prop := <[js "type" := VStr (js "string")]> prop in
    enum ← options_map (Field.options field) opt_value;
    let prop := <[js "enum" := VArr enum]> prop in
    oneOf ← options_map (Field.options field)
              (λ o, VObj [(js "const", opt_value o);
                          (js "title", VStr (opt_label o))]);
    let prop := <[js "oneOf" := VArr oneOf]> prop in
    Normal prop
  else if case_of t ["boolean"] then
    Normal (<[js "type" := VStr (js "boolean")]> prop)
  else if case_of t ["date"] then
    let prop := <[js "type" := VStr (js "string")]> prop in
    let prop := <[js "format" := VStr (js "date")]> prop in
    Normal prop
  else
    Normal (<[js "type" := VStr (js "string")]> prop).

(** The annotations set after the [switch]. *)
Definition annotate (field : Field.t) (prop : SchemaProp) : SchemaProp :=
  let prop := if negb (is_undefined (Field.default field))
              then <[js "default" := Field.default field]> prop else prop in
  let prop := set_str (truthy_str (Field.label field)) "title"
                (Field.label field) prop in
  let prop := set_str (truthy_str (Field.description field)) "description"
                (Field.description field) prop in
  prop.

Definition add_field (schema : JsonSchema) (field : Field.t)
  : completion JsonSchema :=
  prop ← prop_of_type field;
  let prop := annotate field prop in
  let schema := set_property (Field.name field) prop schema in
  Normal (push_required (Field.required field) (Field.name field) schema).

(** [formJsonToJsonSchema(formJson, title)]; the body never reads [title]. *)
Definition formJsonToJsonSchema (formJson : list Field.t) (title : jsstring)
  : completion JsonSchema :=
  for_of formJson add_field
    {| schema_title := None; schema_type := js "object";
       properties := ∅; properties_proto := None; schema_required := [] |}.

End Shared.

(** ** Conversions of the runtime

    [String(v)] and [Number(v)] of ECMAScript. The two conversions between
    numbers and their decimal notation are parameters: everything below holds
    for any choice of them, in particular for the runtime's own. *)

Section Conversions.
Variable StringToNumber : jsstring → float.
Variable NumberToString : float → jsstring.

(** [arr.join(sep)] on already converted elements. *)
Fixpoint join (sep : jsstring) (parts : list jsstring) : jsstring :=
  match parts with
  | [] => []
  | [p] => p
  | p :: rest => p ++ sep ++ join sep rest
  end.

Fixpoint ToString (v : val) : jsstring :=
  match v with
  | VUndefined => js "undefined"
  | VNull => js "null"
  | VBool true => js "true"
  | VBool false => js "false"
  | VNum x => NumberToString x
  | VStr s => s
  | VArr items =>
      join (js ",")
        ((fix each (l : list val) : list jsstring :=
            match l with
            | [] => []
            | VUndefined :: l' | VNull :: l' => [] :: each l'
            | x :: l' => ToString x :: each l'
            end) items)
  | VObj _ => js "[object Object]"
  | VFun source => source
  end.

Definition ToNumber (v : val) : float :=
  match v with
  | VUndefined => PrimFloat.nan
  | VNull => 0%float
  | VBool true => 1%float
  | VBool false => 0%float
  | VNum x => x
  | VStr s => StringToNumber s
  | VArr _ | VObj _ | VFun _ => StringToNumber (ToString v)
  end.

(** [`${x}`] for an optional number, an optional string. *)
Definition tpl_num (x : option float) : jsstring :=
  from_option NumberToString (js "undefined") x.
Definition tpl_str (x : option jsstring) : jsstring :=
  default (js "undefined") x.

End Conversions.

(** [s.length] as a number. *)
Definition length_number (s : jsstring) : float :=
  PrimFloat.of_uint63 (Uint63.of_Z (Z.of_nat (length s))).

(** [obj[k]] on a dictionary: the property of the object itself, or else
    what [Object.prototype] has under the key. *)
Definition get (obj : gmap (list N) val) (k : jsstring) : val :=
  match obj !! k with
  | Some v => v
  | None => default VUndefined (inherited k)
  end.

(** [label || name] *)
Definition label_or_name (field : Field.t) : jsstring :=
  match Field.label field with
  | Some l => if truthy_string l then l else Field.name field
  | None => Field.name field
  end.

(** ** [interpretedFormMachine.js]: its compiler and the hand-written validator *)

Module Interpreted.

(** [if (def !== undefined) prop.default = v] *)
Definition set_default (def v : val) (prop : SchemaProp) : SchemaProp :=
  if negb (is_undefined def) then <[js "default" := v]> prop else prop.

(** The [switch] of [formJsonToJsonSchema]; a [select] without options gets
    an empty [enum]. *)
Definition prop_of_type (field : Field.t) : SchemaProp :=
  let prop : SchemaProp := ∅ in
  let t := Field.type field in
  let def := Field.default field in
  if case_of t ["string"; "email"; "password"; "textarea"] then
    let prop := <[js "type" := VStr (js "string")]> prop in
    let prop := set_str (truthy_str (Field.format field)) "format"
                  (Field.format field) prop in
    let prop := set_num (truthy_num (Field.minLength field)) "minLength"
                  (Field.minLength field) prop in
    set_default def def prop
  else if case_of t ["number"; "integer"] then
    let prop := <[js "type" := VStr (js "number")]> prop in
    let prop := set_num (defined (Field.minimum field)) "minimum"
                  (Field.minimum field) prop in
    let prop := set_num (defined (Field.maximum field)) "maximum"
                  (Field.maximum field) prop in
    set_default def def prop
  else if case_of t ["select"; "radio"] then
    let prop := <[js "type" := VStr (js "string")]> prop in
    let prop := <[js "enum" :=
                    VArr match Field.options field with
                         | Some options => opt_value <$> options
                         | None => []
                         end]> prop in
    set_default def def prop
  else if case_of t ["boolean"] then
    let prop := <[js "type" := VStr (js "boolean")]> prop in
    set_default def (VBool (truthy def)) prop
  else
    let prop := <[js "type" := VStr (js "string")]> prop in
    set_default def def prop.

(** The hints of [uiSchema[name]]. *)
Definition ui_of_field (field : Field.t) : gmap (list N) val :=
  let ui : gmap (list N) val := ∅ in
  let t := Field.type field in
  let ui := if case_of t ["password"]
            then <[js "ui:widget" := VStr (js "password")]> ui else ui in
  let ui := if case_of t ["textarea"]
            then <[js "ui:widget" := VStr (js "textarea")]> ui else ui in
  let ui := set_str (truthy_str (Field.placeholder field)) "ui:placeholder"
              (Field.placeholder field) ui in
  match Field.options field with
  | Some options =>
      if case_of t ["select"]
      then <[js "ui:options" :=
               VObj [(js "enumOptions",
                      VArr ((λ o, VObj [(js "value", opt_value o);
                                        (js "label", VStr (opt_label o))])
                              <$> options))]]> ui
      else ui
  | None => ui
  end.

(** [action.label] of the example action the module defines. The compiler
    reads the title of the schema from this constant, whatever list it is
    given ([buildSchemas(a)] passes [a.formJson] only). *)
Definition action_label : jsstring := js "Create User".

(** The object [uiSchema]: its own properties and, as for [properties], the
    prototype an assignment to [__proto__] gave it. *)
Record UiSchema := {
  ui_own : gmap (list N) (gmap (list N) val);
  ui_proto : option (gmap (list N) val)
}.

(** One turn of the loop. The hints are written to [uiSchema[name]], read
    back after [uiSchema[name] = {}]: the object just assigned, also for the
    name [__proto__], whose getter returns the prototype just set. *)
Definition add_field (acc : JsonSchema * UiSchema) (field : Field.t)
  : JsonSchema * UiSchema :=
  let '(schema, uiSchema) := acc in
  let name := Field.name field in
  let prop := prop_of_type field in
  let prop := set_str (truthy_str (Field.label field)) "title"
                (Field.label field) prop in
  let schema := set_property name prop schema in
  let schema := push_required (Field.required field) name schema in
  (schema,
   {| ui_own := set_key name (ui_of_field field) (ui_own uiSchema);
      ui_proto := if bool_decide (name = proto_key) then Some (ui_of_field field)
                  else ui_proto uiSchema |}).

(** [formJsonToJsonSchema(formJson)]: the pair of [jsonSchema] and
    [uiSchema]. *)
Definition formJsonToJsonSchema (formJson : list Field.t) : JsonSchema * UiSchema :=
  fold_left add_field formJson
    ({| schema_title :=
          Some (if truthy_string action_label then action_label else js "Form");
        schema_type := js "object";
        properties := ∅; properties_proto := None; schema_required := [] |},
     {| ui_own := ∅; ui_proto := None |}).

Section WithConversions.
Variable StringToNumber : jsstring → float.
Variable NumberToString : float → jsstring.

(** [value === undefined || value === null ||
     (typeof value === 'string' && value.trim() === '')] *)
Definition missing (value : val) : bool :=
  match value with
  | VUndefined | VNull => true
  | VStr s => bool_decide (trim s = [])
  | _ => false
  end.

(** [value !== undefined && value !== null && value !== ''] *)
Definition present (value : val) : bool :=
  negb (is_undefined value) && negb (is_null value) && negb (is_empty_string value).

Definition msg_required (field : Field.t) : jsstring :=
  label_or_name field ++ js " is required".
Definition msg_number (field : Field.t) : jsstring :=
  label_or_name field ++ js " must be a number".
Definition msg_minimum (field : Field.t) : jsstring :=
  label_or_name field ++ js " must be " ++ [8805] ++ js " "
    ++ tpl_num NumberToString (Field.minimum field).
Definition msg_maximum (field : Field.t) : jsstring :=
  label_or_name field ++ js " must be " ++ [8804] ++ js " "
    ++ tpl_num NumberToString (Field.maximum field).
Definition msg_minLength (field : Field.t) : jsstring :=
  label_or_name field ++ js " must have at least "
    ++ tpl_num NumberToString (Field.minLength field) ++ js " characters".
Definition msg_email (field : Field.t) : jsstring :=
  label_or_name field ++ js " must be a valid email".

(** [minimum !== undefined && num < minimum] and its three siblings. *)
Definition below_minimum (field : Field.t) (num : float) : bool :=
  match Field.minimum field with
  | Some m => PrimFloat.ltb num m
  | None => false
  end.
Definition above_maximum (field : Field.t) (num : float) : bool :=
  match Field.maximum field with
  | Some m => PrimFloat.ltb m num
  | None => false
  end.
Definition too_short (field : Field.t) (value : val) : bool :=
  match Field.minLength field with
  | Some m => PrimFloat.ltb (length_number (ToString NumberToString value)) m
  | None => false
  end.
Definition bad_email (field : Field.t) (value : val) : bool :=
  bool_decide (Field.format field = Some (js "email"))
  && negb (regex_test emailRegex (ToString NumberToString value)).

(** One turn of the loop of [validateFormValues]; a [continue] ends the
    turn with the errors it has so far. [formValues] is a dictionary in the
    sense above, read by [get]; [errors] is created by [{}] and written by
    [errors[name] = message] only, which is [set_key]. *)
Definition validate_field (formValues : gmap (list N) val)
    (errors : gmap (list N) (list N)) (field : Field.t) : gmap (list N) (list N) :=
  let name := Field.name field in
  let value := get formValues name in
  if Field.required field && missing value then
    set_key name (msg_required field) errors
  else if present value then
    if case_of (Field.type field) ["number"; "integer"] then
      let num := ToNumber StringToNumber NumberToString value in
      if PrimFloat.is_nan num then
        set_key name (msg_number field) errors
      else
        let errors := if below_minimum field num
                      then set_key name (msg_minimum field) errors else errors in
        let errors := if above_maximum field num
                      then set_key name (msg_maximum field) errors else errors in
        errors
    else
      let errors := if too_short field value
                    then set_key name (msg_minLength field) errors else errors in
      let errors := if bad_email field value
                    then set_key name (msg_email field) errors else errors in
      errors
  else errors.

Definition validateFormValues (formValues : gmap (list N) val)
    (formJson : list Field.t) : gmap (list N) (list N) :=
  fold_left (validate_field formValues) formJson ∅.

(** *** The outcome read as an order of rules

    The rules [validateFormValues] checks, each with the condition and the
    message the code gives it, and the outcome of a validator that records
    for a field the message of the first rule violated in a given order. *)

Inductive rule := RRequired | RType | RFormat | RMinLength | RMinimum | RMaximum.

Definition numeric (field : Field.t) : bool :=
  case_of (Field.type field) ["number"; "integer"].

Definition violates (field : Field.t) (value : val) (r : rule) : bool :=
  match r with
  | RRequired => Field.required field && missing value
  | RType =>
      present value && numeric field
      && PrimFloat.is_nan (ToNumber StringToNumber NumberToString value)
  | RFormat => present value && negb (numeric field) && bad_email field value
  | RMinLength => present value && negb (numeric field) && too_short field value
  | RMinimum =>
      present value && numeric field
      && below_minimum field (ToNumber StringToNumber NumberToString value)
  | RMaximum =>
      present value && numeric field
      && above_maximum field (ToNumber StringToNumber NumberToString value)
  end.

Definition message (field : Field.t) (r : rule) : jsstring :=
  match r with
  | RRequired => msg_required field
  | RType => msg_number field
  | RFormat => msg_email field
  | RMinLength => msg_minLength field
  | RMinimum => msg_minimum field
  | RMaximum => msg_maximum field
  end.

Definition first_violation (order : list rule) (field : Field.t) (value : val)
  : option rule :=
  find (violates field value) order.

(** The message of a field under an order of the rules; [None] when the
    value violates none. *)
Definition outcome_by_order (order : list rule)
    (formValues : gmap (list N) val) (field : Field.t) : option jsstring :=
  message field
    <$> first_violation order field (get formValues (Field.name field)).

(** The order of the specification, required, type, format, minLength,
    minimum, maximum, over the rules this validator has (it has none for
    maxLength, enum, pattern). *)
Definition evaluation_order : list rule :=
  [RRequired; RType; RFormat; RMinLength; RMinimum; RMaximum].

(** The same with the two numeric bounds exchanged. *)
Definition overwrite_order : list rule :=
  [RRequired; RType; RFormat; RMinLength; RMaximum; RMinimum].

End WithConversions.
End Interpreted.

(** ** [validators.js]: the AJV adapter *)

Module Validators.

(** The body of the loop of [formJsonToValidationSchema] up to the end of the
    [switch]. *)
Definition prop_of_field (f : Field.t) : completion SchemaProp :=
  let prop : SchemaProp :=
    {[ js "title" := from_option VStr VUndefined (Field.label f) ]} in
  let t := Field.type f in
  if case_of t ["string"; "email"; "password"] then
    let prop := <[js "type" := VStr (js "string")]> prop in
    let prop := set_str (truthy_str (Field.format f)) "format" (Field.format f) prop in
    let prop := set_num (truthy_num (Field.minLength f)) "minLength"
                  (Field.minLength f) prop in
    let prop := set_num (truthy_num (Field.maxLength f)) "maxLength"
                  (Field.maxLength f) prop in
    let prop := set_str (truthy_str (Field.pattern f)) "pattern" (Field.pattern f) prop in
    Normal prop
  else if case_of t ["number"; "integer"] then
    let prop := <[js "type" := VStr t]> prop in
    let prop := set_num (defined (Field.minimum f)) "minimum" (Field.minimum f) prop in
    let prop := set_num (defined (Field.maximum f)) "maximum" (Field.maximum f) prop in
    Normal prop
  else if case_of t ["select"] then
    let prop := <[js "type" := VStr (js "string")]> prop in
    enum ← options_map (Field.options f) opt_value;
    Normal (<[js "enum" := VArr enum]> prop)
  else if case_of t ["boolean"] then
    Normal (<[js "type" := VStr (js "boolean")]> prop)
  else
    Normal (<[js "type" := VStr (js "string")]> prop).

Definition add_field (schema : JsonSchema) (f : Field.t) : completion JsonSchema :=
  prop ← prop_of_field f;
  let schema := set_property (Field.name f) prop schema in
  Normal (push_required (Field.required f) (Field.name f) schema).

Definition formJsonToValidationSchema (formJson : list Field.t)
  : completion JsonSchema :=
  for_of formJson add_field
    {| schema_title := None; schema_type := js "object";
       properties := ∅; properties_proto := None; schema_required := [] |}.

(** An entry of [validate.errors], with the members of [params] the adapter
    reads. *)
Record AjvError := {
  instancePath : jsstring;
  keyword : jsstring;
  missingProperty : option jsstring;
  limit : option float;
  format : option jsstring;
  message : option jsstring
}.

(** [s.replace(/^\//, '')] *)
Definition strip_slash (s : jsstring) : jsstring :=
  match s with
  | 47 :: rest => rest
  | _ => s
  end.

(** A compiled validator: called on the data, it returns whether the data
    is valid and leaves [validate.errors]. The data is a dictionary, given by
    its own properties. *)
Abbreviation Validate := (gmap (list N) val → bool * option (list AjvError)).

Section WithAjv.
Variable NumberToString : float → jsstring.
(** [ajv.compile(schema)]: the compiled validator, or the exception AJV
    throws on a schema it refuses (an empty [enum], a [pattern] that is no
    regular expression, a [format] it does not know). *)
Variable ajv_compile : JsonSchema → completion Validate.

Definition formatErrorMessage (err : AjvError) (formJson : list Field.t) : jsstring :=
  let fieldDef :=
    find (λ f, bool_decide (Field.name f = strip_slash (instancePath err))) formJson in
  let label :=
    match fieldDef ≫= Field.label with
    | Some l => if truthy_string l then l else instancePath err
    | None => instancePath err
    end in
  let k := keyword err in
  if case_of k ["required"] then
    tpl_str (missingProperty err) ++ js " is required"
  else if case_of k ["minLength"] then
    label ++ js " must have at least " ++ tpl_num NumberToString (limit err)
      ++ js " characters"
  else if case_of k ["format"] then
    label ++ js " must be a valid " ++ tpl_str (format err)
  else if case_of k ["minimum"] then
    label ++ js " must be " ++ [8805] ++ js " " ++ tpl_num NumberToString (limit err)
  else if case_of k ["maximum"] then
    label ++ js " must be " ++ [8804] ++ js " " ++ tpl_num NumberToString (limit err)
  else if case_of k ["enum"] then
    label ++ js " must be one of the allowed values"
  else
    match message err with
    | Some m => if truthy_string m then m else js "Invalid value"
    | None => js "Invalid value"
    end.

(** [err.instancePath.replace(/^\//, '') || err.params?.missingProperty] *)
Definition error_field (err : AjvError) : option jsstring :=
  if truthy_string (strip_slash (instancePath err))
  then Some (strip_slash (instancePath err))
  else missingProperty err.

(** [errors[field]] read as a condition: the message stored under the key,
    or else the member [Object.prototype] has under it, a function or an
    object. *)
Definition has_entry (errors : gmap (list N) (list N)) (field : jsstring) : bool :=
  match errors !! field with
  | Some m => truthy_string m
  | None => from_option truthy false (inherited field)
  end.

(** One turn of the loop over [validate.errors]; [errors] is created by
    [{}] and written by [errors[field] = message] only. *)
Definition record_error (formJson : list Field.t)
    (errors : gmap (list N) (list N)) (err : AjvError) : gmap (list N) (list N) :=
  match error_field err with
  | Some field =>
      if truthy_string field && negb (has_entry errors field)
      then set_key field (formatErrorMessage err formJson) errors
      else errors
  | None => errors
  end.

Definition validateWithAJV (formValues : gmap (list N) val)
    (formJson : list Field.t) : completion (gmap (list N) (list N)) :=
  schema ← formJsonToValidationSchema formJson;
  validate ← ajv_compile schema;
  let '(valid, errors) := (validate : Validate) formValues in
  if valid then Normal ∅
  else Normal (fold_left (record_error formJson) (default [] errors) ∅).

End WithAjv.
End Validators.

(** ** Objects filled with values

    The loops that fill the initial form assign values of any kind, so an
    assignment to [__proto__] can replace the prototype of the object, by
    [null] or by an object, and a later assignment to [__proto__] then finds
    another chain. *)

(** An object under construction: its own properties and its prototype,
    [None] for [Object.prototype]. *)
Record Built := {
  built_own : gmap (list N) val;
  built_proto : option val
}.

(** [{}] *)
Definition empty_object : Built := {| built_own := ∅; built_proto := None |}.

(** Whether an assignment to [__proto__] that finds no such property on the
    object reaches the setter of [Object.prototype] along the chain: not when
    the prototype is [null], and not when the prototype is an object that has
    a property [__proto__] of its own (an object of JSON data can), which the
    assignment finds first. *)
Definition reaches_proto_setter (proto : option val) : bool :=
  match proto with
  | None => true
  | Some VNull => false
  | Some (VObj props) => negb (bool_decide (proto_key ∈ fst <$> props))
  | Some _ => true
  end.

(** [obj[k] = v] *)
Definition assign (k : jsstring) (v : val) (obj : Built) : Built :=
  if bool_decide (k = proto_key)
     && bool_decide (built_own obj !! k = None)
     && reaches_proto_setter (built_proto obj)
  then {| built_own := built_own obj;
          built_proto := if is_object_or_null v then Some v else built_proto obj |}
  else {| built_own := <[k := v]> (built_own obj); built_proto := built_proto obj |}.

(** ** XState

    The part of the interpreter the machines use. A transition is enabled
    when its guard holds; the first enabled one of the current state is
    taken. Its [assign] actions run first, then the [entry] actions of the
    state it enters; without a target nothing is left or entered. Eventless
    [always] transitions of the state reached are taken within the same step,
    with the context the actions produced. An event the state does not handle
    leaves state and context as they are. *)

Section XState.
Context {State Ctx Event : Type}.

Definition Assign := Ctx → Event → completion Ctx.

Record Transition := {
  cond : option (Ctx → Event → bool);
  target : option State;
  actions : list Assign
}.

Record StateNode := {
  entry : list Assign;
  on : Event → list Transition;
  always : list Transition
}.

Variable machine : State → StateNode.

Definition enabled (ctx : Ctx) (ev : Event) (t : Transition) : bool :=
  match cond t with
  | Some guard => guard ctx ev
  | None => true
  end.

Definition run_actions (acts : list Assign) (ctx : Ctx) (ev : Event)
  : completion Ctx :=
  for_of acts (λ c a, a c ev) ctx.

Definition take (t : Transition) (st : State * Ctx) (ev : Event)
  : completion (State * Ctx) :=
  let acts :=
    actions t ++ match target t with
                 | Some s' => entry (machine s')
                 | None => []
                 end in
  ctx' ← run_actions acts (snd st) ev;
  Normal (default (fst st) (target t), ctx').

(** The eventless transitions; [None] when [fuel] of them did not reach a
    state without an enabled one. *)
Fixpoint settle (fuel : nat) (st : State * Ctx) (ev : Event)
  : option (completion (State * Ctx)) :=
  match find (enabled (snd st) ev) (always (machine (fst st))) with
  | None => Some (Normal st)
  | Some t =>
      match fuel with
      | O => None
      | S fuel' =>
          match take t st ev with
          | Normal st' => settle fuel' st' ev
          | Throw e => Some (Throw e)
          end
      end
  end.

(** [service.send(ev)]: the state the service is in afterwards, or the
    exception the call raised. *)
Definition send (fuel : nat) (st : State * Ctx) (ev : Event)
  : option (completion (State * Ctx)) :=
  match find (enabled (snd st) ev) (on (machine (fst st)) ev) with
  | None => Some (Normal st)
  | Some t =>
      match take t st ev with
      | Normal st' => settle fuel st' ev
      | Throw e => Some (Throw e)
      end
  end.

End XState.

Arguments Transition : clear implicits.
Arguments StateNode : clear implicits.

(** ** [formMachineFactory.js] *)

Module FormMachine.

Inductive State := idle | editing | validating | submitting | success.

(** The events of a session; [done_invoke] and [error_platform] are what
    the invoked [submitService] sends when the promise of [submitFn]
    resolves, rejects: they reach the machine in [submitting], where the
    service runs. *)
Inductive Event :=
| OPEN
| PREFILL (data : list (jsstring * val))
| CHANGE (name : jsstring) (value : val)
| SUBMIT
| RESET
| CLOSE
| done_invoke (data : val)
| error_platform (data : val).

Module Ctx.
Record t := mk {
  form : gmap (list N) val;
  errors : gmap (list N) (list N);
  submitting : bool;
  result : val;
  serverError : val
}.
End Ctx.

(** [ev.name], [ev.value], [ev.data] *)
Definition ev_name (ev : Event) : val :=
  match ev with CHANGE name _ => VStr name | _ => VUndefined end.
Definition ev_value (ev : Event) : val :=
  match ev with CHANGE _ value => value | _ => VUndefined end.
Definition ev_data (ev : Event) : val :=
  match ev with
  | PREFILL data => VObj data
  | done_invoke data | error_platform data => data
  | _ => VUndefined
  end.

(** The key [[k]] of a computed property, for the keys an event carries. *)
Definition property_key (k : val) : jsstring :=
  match k with VStr s => s | _ => js "undefined" end.

(** [{ ...obj, ...v }], for what an event carries as [data]: an object
    literal, whose properties are copied over those of [obj], or nothing. *)
Definition spread (obj : gmap (list N) val) (v : val) : gmap (list N) val :=
  match v with
  | VObj props => foldr (λ kv m, <[kv.1 := kv.2]> m) obj props
  | _ => obj
  end.

(** The value the loop of [buildInitialValues] assigns for a field. *)
Definition initial_value (field : Field.t) : val :=
  if negb (is_undefined (Field.default field)) then Field.default field
  else if case_of (Field.type field) ["boolean"] then VBool false else VStr [].

(** [buildInitialValues(formJson)]: the object the loop leaves. *)
Definition buildInitialValues (formJson : list Field.t) : Built :=
  fold_left (λ values field, assign (Field.name field) (initial_value field) values)
    formJson empty_object.

Section createFormMachine.
Variable NumberToString : float → jsstring.
Variable ajv_compile : JsonSchema → completion Validators.Validate.
(** [action.formJson] *)
Variable formJson : list Field.t.

(** [ctx.form] is a dictionary, given by its own properties: the machine
    reads it by spreads and hands it to the validator and to [submitFn]. *)
Definition initialForm : gmap (list N) val := built_own (buildInitialValues formJson).

Definition context : Ctx.t :=
  Ctx.mk initialForm ∅ false VNull VNull.

(** *** Actions *)

Definition assignField : Assign (Ctx:=Ctx.t) (Event:=Event) := λ ctx ev,
  Normal (Ctx.mk (<[property_key (ev_name ev) := ev_value ev]> (Ctx.form ctx))
            (Ctx.errors ctx) (Ctx.submitting ctx) (Ctx.result ctx)
            (Ctx.serverError ctx)).

Definition clearFieldError : Assign (Ctx:=Ctx.t) (Event:=Event) := λ ctx ev,
  let next := Ctx.errors ctx in
  let next := delete (property_key (ev_name ev)) next in
  Normal (Ctx.mk (Ctx.form ctx) next (Ctx.submitting ctx) (Ctx.result ctx)
            (Ctx.serverError ctx)).

Definition runValidation : Assign (Ctx:=Ctx.t) (Event:=Event) := λ ctx ev,
  errors ← Validators.validateWithAJV NumberToString ajv_compile
              (Ctx.form ctx) formJson;
  Normal (Ctx.mk (Ctx.form ctx) errors (Ctx.submitting ctx) (Ctx.result ctx)
            (Ctx.serverError ctx)).

Definition prefillForm : Assign (Ctx:=Ctx.t) (Event:=Event) := λ ctx ev,
  Normal (Ctx.mk (spread (Ctx.form ctx) (ev_data ev)) (Ctx.errors ctx)
            (Ctx.submitting ctx) (Ctx.result ctx) (Ctx.serverError ctx)).

Definition resetForm : Assign (Ctx:=Ctx.t) (Event:=Event) := λ ctx ev,
  Normal (Ctx.mk initialForm ∅ (Ctx.submitting ctx) VNull VNull).

Definition markSubmitting : Assign (Ctx:=Ctx.t) (Event:=Event) := λ ctx ev,
  Normal (Ctx.mk (Ctx.form ctx) (Ctx.errors ctx) true (Ctx.result ctx)
            (Ctx.serverError ctx)).

Definition clearSubmitting : Assign (Ctx:=Ctx.t) (Event:=Event) := λ ctx ev,
  Normal (Ctx.mk (Ctx.form ctx) (Ctx.errors ctx) false (Ctx.result ctx)
            (Ctx.serverError ctx)).

Definition assignResult : Assign (Ctx:=Ctx.t) (Event:=Event) := λ ctx ev,
  Normal (Ctx.mk (Ctx.form ctx) (Ctx.errors ctx) (Ctx.submitting ctx) (ev_data ev)
            (Ctx.serverError ctx)).

Definition assignServerError : Assign (Ctx:=Ctx.t) (Event:=Event) := λ ctx ev,
  Normal (Ctx.mk (Ctx.form ctx) (Ctx.errors ctx) (Ctx.submitting ctx) (Ctx.result ctx)
            (or_else (opt_chain (ev_data ev) (js "message"))
               (VStr (js "Submission failed")))).

Definition clearServerError : Assign (Ctx:=Ctx.t) (Event:=Event) := λ ctx ev,
  Normal (Ctx.mk (Ctx.form ctx) (Ctx.errors ctx) (Ctx.submitting ctx) (Ctx.result ctx)
            VNull).

(** *** Guards *)

(** [Object.keys(ctx.errors).length === 0] *)
Definition isValid (ctx : Ctx.t) (ev : Event) : bool :=
  bool_decide (size (dom (Ctx.errors ctx)) = 0%nat).

(** *** The machine *)

Definition goto (s : State) (acts : list Assign) : Transition State Ctx.t Event :=
  {| cond := None; target := Some s; actions := acts |}.

Definition states (s : State) : StateNode State Ctx.t Event :=
  match s with
  | idle =>
      {| entry := [];
         on := λ ev, match ev with
                     | OPEN => [goto editing []]
                     | PREFILL _ => [goto editing [prefillForm]]
                     | _ => []
                     end;
         always := [] |}
  | editing =>
      {| entry := [clearServerError];
         on := λ ev, match ev with
                     | CHANGE _ _ =>
                         [{| cond := None; target := None;
                             actions := [assignField; clearFieldError] |}]
                     | SUBMIT => [goto validating [runValidation]]
                     | RESET => [goto idle [resetForm]]
                     | _ => []
                     end;
         always := [] |}
  | validating =>
      {| entry := [];
         on := λ _, [];
         always := [ {| cond := Some isValid; target := Some submitting;
                        actions := [] |};
                     goto editing [] ] |}
  | submitting =>
      {| entry := [markSubmitting];
         on := λ ev, match ev with
                     | done_invoke _ => [goto success [assignResult; clearSubmitting]]
                     | error_platform _ =>
                         [goto editing [assignServerError; clearSubmitting]]
                     | _ => []
                     end;
         always := [] |}
  | success =>
      {| entry := [];
         on := λ ev, match ev with
                     | OPEN => [goto editing [resetForm]]
                     | CLOSE => [goto idle []]
                     | _ => []
                     end;
         always := [] |}
  end.

(** The state a started service is in. *)
Definition initial : State * Ctx.t := (idle, context).

(** [service.send(ev)]; one eventless transition is the most a step of this
    machine takes, the bound leaves room for one per state. *)
Definition transition (st : State * Ctx.t) (ev : Event)
  : option (completion (State * Ctx.t)) :=
  send states 5 st ev.

End createFormMachine.
End FormMachine.

(** ** [interpretedFormMachine.js]: the machine *)

Module InterpretedMachine.

Inductive State := idle | editing | validating | submitting | success | failure.

Inductive Event :=
| OPEN
| CHANGE (name : jsstring) (value : val)
| SUBMIT
| done_invoke (data : val)
| error_platform (data : val).

Module Ctx.
Record t := mk {
  form : gmap (list N) val;
  errors : gmap (list N) (list N);
  submitting : bool;
  result : val;
  lastErrorMessage : val
}.
End Ctx.

Definition ev_data (ev : Event) : val :=
  match ev with
  | done_invoke data | error_platform data => data
  | _ => VUndefined
  end.

(** The value the loop that fills [initialForm] assigns for a field. *)
Definition initial_value (f : Field.t) : val :=
  if negb (is_undefined (Field.default f)) then Field.default f
  else if case_of (Field.type f) ["boolean"] then VBool false
  else if case_of (Field.type f) ["number"] then VNull
  else VStr [].

(** The loop that fills [initialForm]: the object it leaves. *)
Definition buildInitialForm (formJson : list Field.t) : Built :=
  fold_left (λ initialForm f, assign (Field.name f) (initial_value f) initialForm)
    formJson empty_object.

Section createFormMachine.
Variable StringToNumber : jsstring → float.
Variable NumberToString : float → jsstring.
(** [action.formJson] *)
Variable formJson : list Field.t.

(** [ctx.form] is a dictionary, given by its own properties. It is the
    initial form or a spread copy with more properties, so it has every name
    of a field but [__proto__] as a property of its own: the validator reads
    the prototype chain of the form only for a field named [__proto__], and
    stores no message for that name. *)
Definition initialForm : gmap (list N) val := built_own (buildInitialForm formJson).

Definition context : Ctx.t := Ctx.mk initialForm ∅ false VNull VNull.

(** [if (!ev || !ev.name) return {}] guards the two actions of [CHANGE]. *)
Definition assignField : Assign (Ctx:=Ctx.t) (Event:=Event) := λ ctx ev,
  match ev with
  | CHANGE name value =>
      if negb (truthy_string name) then Normal ctx
      else Normal (Ctx.mk (<[name := value]> (Ctx.form ctx)) (Ctx.errors ctx)
                     (Ctx.submitting ctx) (Ctx.result ctx)
                     (Ctx.lastErrorMessage ctx))
  | _ => Normal ctx
  end.

Definition clearFieldError : Assign (Ctx:=Ctx.t) (Event:=Event) := λ ctx ev,
  match ev with
  | CHANGE name value =>
      if negb (truthy_string name) then Normal ctx
      else
        let nextErrors := Ctx.errors ctx in
        let nextErrors := delete name nextErrors in
        Normal (Ctx.mk (Ctx.form ctx) nextErrors (Ctx.submitting ctx)
                  (Ctx.result ctx) (Ctx.lastErrorMessage ctx))
  | _ => Normal ctx
  end.

Definition validateAssign : Assign (Ctx:=Ctx.t) (Event:=Event) := λ ctx ev,
  let errs :=
    Interpreted.validateFormValues StringToNumber NumberToString (Ctx.form ctx)
      formJson in
  Normal (Ctx.mk (Ctx.form ctx) errs (Ctx.submitting ctx) (Ctx.result ctx)
            (Ctx.lastErrorMessage ctx)).

Definition markSubmitting : Assign (Ctx:=Ctx.t) (Event:=Event) := λ ctx ev,
  Normal (Ctx.mk (Ctx.form ctx) (Ctx.errors ctx) true (Ctx.result ctx)
            (Ctx.lastErrorMessage ctx)).

Definition clearSubmitting : Assign (Ctx:=Ctx.t) (Event:=Event) := λ ctx ev,
  Normal (Ctx.mk (Ctx.form ctx) (Ctx.errors ctx) false (Ctx.result ctx)
            (Ctx.lastErrorMessage ctx)).

Definition assignResult : Assign (Ctx:=Ctx.t) (Event:=Event) := λ ctx ev,
  Normal (Ctx.mk (Ctx.form ctx) (Ctx.errors ctx) (Ctx.submitting ctx) (ev_data ev)
            VNull).

(** [ev.data && ev.data.message ? ev.data.message : String(ev.data)] *)
Definition assignSubmitError : Assign (Ctx:=Ctx.t) (Event:=Event) := λ ctx ev,
  let data := ev_data ev in
  Normal (Ctx.mk (Ctx.form ctx) (Ctx.errors ctx) (Ctx.submitting ctx) (Ctx.result ctx)
            (if truthy data && truthy (opt_chain data (js "message"))
             then opt_chain data (js "message")
             else VStr (ToString NumberToString data))).

Definition clearResult : Assign (Ctx:=Ctx.t) (Event:=Event) := λ ctx ev,
  Normal (Ctx.mk (Ctx.form ctx) (Ctx.errors ctx) (Ctx.submitting ctx) VNull VNull).

(** [Object.keys(ctx.errors || {}).length === 0] *)
Definition noErrors (ctx : Ctx.t) (ev : Event) : bool :=
  bool_decide (size (dom (Ctx.errors ctx)) = 0%nat).

Definition goto (s : State) (acts : list Assign) : Transition State Ctx.t Event :=
  {| cond := None; target := Some s; actions := acts |}.

Definition states (s : State) : StateNode State Ctx.t Event :=
  match s with
  | idle =>
      {| entry := [];
         on := λ ev, match ev with OPEN => [goto editing []] | _ => [] end;
         always := [] |}
  | editing =>
      {| entry := [clearResult];
         on := λ ev, match ev with
                     | CHANGE _ _ =>
                         [{| cond := None; target := None;
                             actions := [assignField; clearFieldError] |}]
                     | SUBMIT => [goto validating [validateAssign]]
                     | _ => []
                     end;
         always := [] |}
  | validating =>
      {| entry := [];
         on := λ _, [];
         always := [ {| cond := Some noErrors; target := Some submitting;
                        actions := [markSubmitting] |};
                     goto editing [] ] |}
  | submitting =>
      {| entry := [];
         on := λ ev, match ev with
                     | done_invoke _ => [goto success [assignResult; clearSubmitting]]
                     | error_platform _ =>
                         [goto failure [assignSubmitError; clearSubmitting]]
                     | _ => []
                     end;
         always := [] |}
  | success =>
      {| entry := [];
         on := λ ev, match ev with OPEN => [goto editing []] | _ => [] end;
         always := [] |}
  | failure =>
      {| entry := [];
         on := λ ev, match ev with
                     | CHANGE _ _ =>
                         [{| cond := None; target := None;
                             actions := [assignField; clearFieldError] |}]
                     | SUBMIT => [goto validating [validateAssign]]
                     | _ => []
                     end;
         always := [] |}
  end.

Definition initial : State * Ctx.t := (idle, context).

(** [service.send(ev)], with room for one eventless transition per state. *)
Definition transition (st : State * Ctx.t) (ev : Event)
  : option (completion (State * Ctx.t)) :=
  send states 6 st ev.

End createFormMachine.
End InterpretedMachine.

(** ** The websocket session machine of the server: its guard *)

Module Server.

Record Context := {
  formId : val;
  formData : gmap (list N) val;
  errors : gmap (list N) val;
  serverErrors : gmap (list N) val;
  isSubmitting : bool;
  result : val
}.

(** [s.replace('/', '')]: the first [/] goes, wherever it is. *)
Fixpoint remove_first_slash (s : jsstring) : jsstring :=
  match s with
  | [] => []
  | c :: rest => if c =? 47 then rest else c :: remove_first_slash rest
  end.

(** [err.instancePath.replace('/', '') || err.params.missingProperty], as the
    key of [ctx.errors[field]]. *)
Definition error_key (err : Validators.AjvError) : jsstring :=
  if truthy_string (remove_first_slash (Validators.instancePath err))
  then remove_first_slash (Validators.instancePath err)
  else tpl_str (Validators.missingProperty err).

Section Session.
(** [validators[ctx.formId]], the validator compiled for the action of the
    session: whether the data is valid, and [validator.errors]. *)
Variable validator : gmap (list N) val → bool * list Validators.AjvError.

(** The guard gets the context object of the state and assigns to its
    [errors] member: it returns its verdict and the context it leaves. *)
Definition isValid (ctx : Context) : bool * Context :=
  let '(valid, errs) := validator (formData ctx) in
  if negb valid then
    let errors :=
      fold_left
        (λ errors err,
           <[error_key err := from_option VStr VUndefined (Validators.message err)]>
             errors)
        errs ∅ in
    (valid, {| formId := formId ctx; formData := formData ctx; errors := errors;
               serverErrors := serverErrors ctx; isSubmitting := isSubmitting ctx;
               result := result ctx |})
  else (valid, ctx).

End Session.
End Server.

(** ** The shared module: the UI schema for JSON Forms *)

Module SharedLayout.

(** A control of the layout; [options] is missing or an object. *)
Record Element := {
  element_type : jsstring;
  scope : jsstring;
  options : option (gmap (list N) val)
}.

Record Layout := {
  layout_type : jsstring;
  elements : list Element
}.

(** The function mapped over [formJson]. *)
Definition element_of (field : Field.t) : Element :=
  let element :=
    {| element_type := js "Control";
       scope := js "#/properties/" ++ Field.name field;
       options := None |} in
  let element :=
    match Field.placeholder field with
    | Some p =>
        if truthy_string p
        then {| element_type := element_type element; scope := scope element;
                options := Some {[ js "placeholder" := VStr p ]} |}
        else element
    | None => element
    end in
  if bool_decide (Field.type field = js "textarea")
  then {| element_type := element_type element; scope := scope element;
          options := Some (<[js "multi" := VBool true]>
                             (default ∅ (options element))) |}
  else element.

Definition formJsonToUiSchema (formJson : list Field.t) : Layout :=
  {| layout_type := js "VerticalLayout"; elements := element_of <$> formJson |}.

End SharedLayout.

(** ** The REST endpoints of the server *)

Module ServerRest.

(** The loop of the endpoints over [validator.errors], the one the guard of
    the session machine runs too: [errors[field] = err.message]. The
    validators are compiled from the registry, so the keys are names of
    fields of the registry, none of them [__proto__]: the assignment adds or
    replaces a property. *)
Definition error_map (errs : list Validators.AjvError) : gmap (list N) val :=
  fold_left
    (λ errors err,
       <[Server.error_key err
         := from_option VStr VUndefined (Validators.message err)]> errors)
    errs ∅.

(** What the promise of [action.handler] settles to; a rejection carries an
    error object. *)
Inductive settled :=
| resolved (result : val)
| rejected (err : list (jsstring * val)).

(** An entry of the registry [actions]. *)
Record Action := {
  action_formJson : list Field.t;
  handler : gmap (list N) val → settled
}.

(** The replies of [POST /api/actions/:id/validate]. A handler that throws
    rejects its promise, and the server replies with the error, status 500. *)
Inductive ValidateReply :=
| validate_404                                   (* [{ error: 'Action not found' }] *)
| validate_200 (valid : bool) (errors : option (gmap (list N) val))
| validate_uncaught (e : exn).

(** The replies of [POST /api/actions/:id/submit]. *)
Inductive SubmitReply :=
| submit_404                                     (* [{ error: 'Action not found' }] *)
| submit_400 (errors : gmap (list N) val)         (* [{ success: false, errors }] *)
| submit_200 (data : val)                         (* [{ success: true, data }] *)
| submit_500 (error : val)                        (* [{ success: false, error }] *)
| submit_uncaught (e : exn).

(** [registry[id]] for a registry given by its own keys: an entry of the
    registry, or the member [Object.prototype] has under that name, or
    [undefined]. *)
Inductive found (A : Type) :=
| entry (a : A)
| member_of_prototype (member : val)
| nothing.
Arguments entry {A} a.
Arguments member_of_prototype {A} member.
Arguments nothing {A}.

Definition registry_get {A} (registry : gmap (list N) A) (id : jsstring) : found A :=
  match registry !! id with
  | Some a => entry a
  | None =>
      match inherited id with
      | Some member => member_of_prototype member
      | None => nothing
      end
  end.

(** [validator(req.body)] when [validator] is the member [Object.prototype]
    has under [id], called as a plain function of a module, [this] being
    [undefined]: [Object(body)] is the body and [toString] gives
    [[object Undefined]]; [__proto__] is an object and no function, and each
    of the other members throws a [TypeError] when it converts [this] to an
    object. *)
Definition call_member (id : jsstring) (body : gmap (list N) val) : completion val :=
  if bool_decide (id = js "constructor") then Normal (VObj (map_to_list body))
  else if bool_decide (id = js "toString") then Normal (VStr (js "[object Undefined]"))
  else Throw TypeError.

Section Endpoints.
(** The registry and the validators compiled from it when the server
    starts. *)
Variable actions : gmap (list N) Action.
Variable validators :
  gmap (list N) (gmap (list N) val → bool * list Validators.AjvError).

Definition post_validate (id : jsstring) (body : gmap (list N) val)
  : ValidateReply :=
  match registry_get validators id with
  | nothing => validate_404
  | entry validator =>
      let '(valid, errs) := validator body in
      if (valid : bool) then validate_200 true None
      else validate_200 false (Some (error_map errs))
  | member_of_prototype _ =>
      match call_member id body with
      | Throw e => validate_uncaught e
      | Normal valid =>
          if truthy valid then validate_200 true None
          else validate_uncaught TypeError   (* [validator.errors] is not iterable *)
      end
  end.

(** [action.handler(req.body)] sits in the [try]: for a member of
    [Object.prototype] taken as the action, [action.handler] is [undefined],
    the call throws and the [catch] replies with the message of the
    error. *)
Definition post_submit (id : jsstring) (body : gmap (list N) val) : SubmitReply :=
  match registry_get actions id, registry_get validators id with
  | nothing, _ | _, nothing => submit_404
  | action, validator =>
      let verdict :=
        match validator with
        | entry validator =>
            let '(valid, errs) := validator body in
            if negb valid then Normal (Some (error_map errs)) else Normal None
        | _ =>
            valid ← call_member id body;
            if truthy valid then Normal None
            else Throw TypeError       (* [validator.errors] is not iterable *)
        end in
      match verdict with
      | Throw e => submit_uncaught e
      | Normal (Some errors) => submit_400 errors
      | Normal None =>
          match action with
          | entry action =>
              match handler action body with
              | resolved result => submit_200 result
              | rejected err => submit_500 (get_prop (js "message") err)
              end
          | _ => submit_500 (VStr (js "action.handler is not a function"))
          end
      end
  end.

End Endpoints.
End ServerRest.

(** ** The client machine of [App.jsx] *)

Module ClientMachine.

Inductive State := loading | editing | submitting | success | error.

(** [done_load] and [error_load] come from the service [loadSchema] invoked
    in [loading], [done_submit] and [error_submit] from [submitForm] invoked
    in [submitting]. *)
Inductive Event :=
| CHANGE (data errors : val)
| SUBMIT
| RESET
| NEW
| RETRY
| done_load (data : val)
| error_load (data : val)
| done_submit (data : val)
| error_submit (data : val).

Module Ctx.
Record t := mk {
  actionId : val;
  jsonSchema : val;
  uiSchema : val;
  formData : val;
  errors : val;
  serverErrors : val;
  isSubmitting : bool;
  result : val
}.
End Ctx.

Definition ev_data (ev : Event) : val :=
  match ev with
  | CHANGE data _ => data
  | done_load data | error_load data | done_submit data | error_submit data => data
  | _ => VUndefined
  end.

Definition ev_errors (ev : Event) : val :=
  match ev with CHANGE _ errors => errors | _ => VUndefined end.

(** [v.k]: a [TypeError] on [undefined] and [null]; a primitive, an array
    and a function have none of the properties read here ([jsonSchema],
    [uiSchema], [data]). *)
Definition member (v : val) (k : jsstring) : completion val :=
  match v with
  | VUndefined | VNull => Throw TypeError
  | VObj props => Normal (get_prop k props)
  | _ => Normal VUndefined
  end.

Definition context (actionId : val) : Ctx.t :=
  Ctx.mk actionId VNull VNull (VObj []) (VObj []) (VObj []) false VNull.

Definition setSchemas : Assign (Ctx:=Ctx.t) (Event:=Event) := λ ctx ev,
  jsonSchema ← member (ev_data ev) (js "jsonSchema");
  uiSchema ← member (ev_data ev) (js "uiSchema");
  Normal (Ctx.mk (Ctx.actionId ctx) jsonSchema uiSchema (VObj []) (Ctx.errors ctx)
            (Ctx.serverErrors ctx) (Ctx.isSubmitting ctx) (Ctx.result ctx)).

Definition updateFormData : Assign (Ctx:=Ctx.t) (Event:=Event) := λ ctx ev,
  Normal (Ctx.mk (Ctx.actionId ctx) (Ctx.jsonSchema ctx) (Ctx.uiSchema ctx)
            (ev_data ev) (or_else (ev_errors ev) (VObj []))
            (Ctx.serverErrors ctx) (Ctx.isSubmitting ctx) (Ctx.result ctx)).

Definition setSubmitting : Assign (Ctx:=Ctx.t) (Event:=Event) := λ ctx ev,
  Normal (Ctx.mk (Ctx.actionId ctx) (Ctx.jsonSchema ctx) (Ctx.uiSchema ctx)
            (Ctx.formData ctx) (Ctx.errors ctx) (Ctx.serverErrors ctx) true
            (Ctx.result ctx)).

Definition clearSubmitting : Assign (Ctx:=Ctx.t) (Event:=Event) := λ ctx ev,
  Normal (Ctx.mk (Ctx.actionId ctx) (Ctx.jsonSchema ctx) (Ctx.uiSchema ctx)
            (Ctx.formData ctx) (Ctx.errors ctx) (Ctx.serverErrors ctx) false
            (Ctx.result ctx)).

Definition setResult : Assign (Ctx:=Ctx.t) (Event:=Event) := λ ctx ev,
  data ← member (ev_data ev) (js "data");
  Normal (Ctx.mk (Ctx.actionId ctx) (Ctx.jsonSchema ctx) (Ctx.uiSchema ctx)
            (Ctx.formData ctx) (Ctx.errors ctx) (Ctx.serverErrors ctx)
            (Ctx.isSubmitting ctx) data).

Definition setServerErrors : Assign (Ctx:=Ctx.t) (Event:=Event) := λ ctx ev,
  Normal (Ctx.mk (Ctx.actionId ctx) (Ctx.jsonSchema ctx) (Ctx.uiSchema ctx)
            (Ctx.formData ctx) (Ctx.errors ctx)
            (or_else (opt_chain (ev_data ev) (js "errors"))
               (VObj [(js "_form", VStr (js "Submission failed"))]))
            (Ctx.isSubmitting ctx) (Ctx.result ctx)).

Definition setLoadError : Assign (Ctx:=Ctx.t) (Event:=Event) := λ ctx ev,
  Normal (Ctx.mk (Ctx.actionId ctx) (Ctx.jsonSchema ctx) (Ctx.uiSchema ctx)
            (Ctx.formData ctx) (Ctx.errors ctx)
            (VObj [(js "_form",
                    or_else (opt_chain (ev_data ev) (js "message"))
                      (VStr (js "Failed to load form")))])
            (Ctx.isSubmitting ctx) (Ctx.result ctx)).

Definition resetForm : Assign (Ctx:=Ctx.t) (Event:=Event) := λ ctx ev,
  Normal (Ctx.mk (Ctx.actionId ctx) (Ctx.jsonSchema ctx) (Ctx.uiSchema ctx)
            (VObj []) (VObj []) (VObj []) (Ctx.isSubmitting ctx) VNull).

Definition goto (s : State) (acts : list Assign) : Transition State Ctx.t Event :=
  {| cond := None; target := Some s; actions := acts |}.

Definition states (s : State) : StateNode State Ctx.t Event :=
  match s with
  | loading =>
      {| entry := [];
         on := λ ev, match ev with
                     | done_load _ => [goto editing [setSchemas]]
                     | error_load _ => [goto error [setLoadError]]
                     | _ => []
                     end;
         always := [] |}
  | editing =>
      {| entry := [];
         on := λ ev, match ev with
                     | CHANGE _ _ =>
                         [{| cond := None; target := None;
                             actions := [updateFormData] |}]
                     | SUBMIT => [goto submitting []]
                     | _ => []
                     end;
         always := [] |}
  | submitting =>
      {| entry := [setSubmitting];
         on := λ ev, match ev with
                     | done_submit _ => [goto success [setResult; clearSubmitting]]
                     | error_submit _ =>
                         [goto editing [setServerErrors; clearSubmitting]]
                     | _ => []
                     end;
         always := [] |}
  | success =>
      {| entry := [];
         on := λ ev, match ev with
                     | RESET => [goto editing [resetForm]]
                     | NEW => [goto loading []]
                     | _ => []
                     end;
         always := [] |}
  | error =>
      {| entry := [];
         on := λ ev, match ev with RETRY => [goto loading []] | _ => [] end;
         always := [] |}
  end.

Definition initial (actionId : val) : State * Ctx.t := (loading, context actionId).

(** [send(ev)]; the machine has no eventless transition. *)
Definition transition (st : State * Ctx.t) (ev : Event)
  : option (completion (State * Ctx.t)) :=
  send states 5 st ev.

End ClientMachine.

(** ** Sessions

    The states a service can be in: the one it starts in, and every state a
    call of [send] that returns leads to from one of them (a call that
    throws leaves the service where it was). *)

Inductive reachable {St Ev : Type}
    (step : St → Ev → option (completion St)) (init : St) : St → Prop :=
| reachable_init : reachable step init init
| reachable_step (st : St) (ev : Ev) (st' : St) :
    reachable step init st →
    step st ev = Some (Normal st') →
    reachable step init st'.

(** The events of a list sent one after the other; a call that throws is
    skipped, as the service stays where it was. *)
Fixpoint run {St Ev : Type} (step : St → Ev → option (completion St))
    (st : St) (evs : list Ev) : option St :=
  match evs with
  | [] => Some st
  | ev :: rest =>
      match step st ev with
      | Some (Normal st') => run step st' rest
      | Some (Throw _) => run step st rest
      | None => None
      end
  end.

(** ** Vocabulary of the properties *)

(** Both compilers run the same loop around their own [switch]. *)
Definition add_with (prop_of : Field.t → completion SchemaProp)
    (schema : JsonSchema) (f : Field.t) : completion JsonSchema :=
  prop ← prop_of f;
  Normal (push_required (Field.required f) (Field.name f)
            (set_property (Field.name f) prop schema)).

(** The invariant of a field definition the compilers rely on: a [select]
    field carries its [options]. *)
Definition has_options_if_select (f : Field.t) : Prop :=
  case_of (Field.type f) ["select"] = true → is_Some (Field.options f).

(** The kinds the [switch] of each compiler has a [case] for. *)
Definition shared_kinds : list string :=
  ["string"; "text"; "textarea"; "email"; "number"; "integer"; "select";
   "boolean"; "date"].
Definition validators_kinds : list string :=
  ["string"; "email"; "password"; "number"; "integer"; "select"; "boolean"].

(** The property the shared compiler gives a field: the [switch], then the
    annotations. *)
Definition shared_prop_of (f : Field.t) : completion SchemaProp :=
  prop ← Shared.prop_of_type f; Normal (Shared.annotate f prop).

(** A free-form string property: of type string, with no constraint. *)
Definition constraint_keys : list string :=
  ["format"; "minLength"; "maxLength"; "pattern"; "minimum"; "maximum"; "enum";
   "oneOf"].

Definition free_form_string (prop : SchemaProp) : Prop :=
  prop !! js "type" = Some (VStr (js "string"))
  ∧ ∀ k, k ∈ constraint_keys → prop !! js k = None.

(** The [type] the [switch] of the shared compiler and of the compiler of
    the validators gives a field of kind [t]. *)
Definition json_type_of (t : jsstring) : jsstring :=
  if case_of t ["number"; "integer"] then t
  else if case_of t ["boolean"] then js "boolean"
  else js "string".

(** The fields of a list that have a given name. *)
Definition named (k : jsstring) (formJson : list Field.t) : list Field.t :=
  filter (λ f, Field.name f = k) formJson.

(** The names of the required fields, in the order of the list. *)
Definition required_names (formJson : list Field.t) : list jsstring :=
  Field.name <$> filter (λ f, Field.required f = true) formJson.

(** The [type] the [switch] of the compiler of [interpretedFormMachine.js]
    gives a field of kind [t]. *)
Definition interpreted_json_type_of (t : jsstring) : jsstring :=
  if case_of t ["number"; "integer"] then js "number"
  else if case_of t ["boolean"] then js "boolean"
  else js "string".

(** The property that compiler gives a field: the [switch], then the
    title. *)
Definition interpreted_prop_of (field : Field.t) : SchemaProp :=
  set_str (truthy_str (Field.label field)) "title" (Field.label field)
    (Interpreted.prop_of_type field).

(** Two fields that agree on what [validateFormValues] reads of a field. *)
Definition same_checked (f g : Field.t) : Prop :=
  Field.name f = Field.name g ∧ Field.type f = Field.type g
  ∧ Field.label f = Field.label g ∧ Field.required f = Field.required g
  ∧ Field.minLength f = Field.minLength g ∧ Field.minimum f = Field.minimum g
  ∧ Field.maximum f = Field.maximum g ∧ Field.format f = Field.format g.

(** What holds of every state a session of the machine of
    [formMachineFactory.js] can be in, for the validator [validate] of its
    action: it is not the transient state, the flag [submitting] is set
    exactly in the state [submitting], [serverError] is null, and in
    [submitting] the errors are empty and the form is one the validator
    accepts. *)
Definition factory_invariant
    (validate : gmap (list N) val → completion (gmap (list N) (list N)))
    (st : FormMachine.State * FormMachine.Ctx.t) : Prop :=
  fst st ≠ FormMachine.validating
  ∧ (FormMachine.Ctx.submitting (snd st) = true ↔ fst st = FormMachine.submitting)
  ∧ FormMachine.Ctx.serverError (snd st) = VNull
  ∧ (fst st = FormMachine.submitting →
     FormMachine.Ctx.errors (snd st) = ∅
     ∧ validate (FormMachine.Ctx.form (snd st)) = Normal ∅).

(** The same for the machine of [interpretedFormMachine.js]; there the
    result is set in [success] only, and an error message in [failure] and
    in [submitting] only. *)
Definition interpreted_invariant
    (validate : gmap (list N) val → gmap (list N) (list N))
    (st : InterpretedMachine.State * InterpretedMachine.Ctx.t) : Prop :=
  fst st ≠ InterpretedMachine.validating
  ∧ (InterpretedMachine.Ctx.submitting (snd st) = true
     ↔ fst st = InterpretedMachine.submitting)
  ∧ (fst st = InterpretedMachine.submitting →
     InterpretedMachine.Ctx.errors (snd st) = ∅
     ∧ validate (InterpretedMachine.Ctx.form (snd st)) = ∅)
  ∧ (is_null (InterpretedMachine.Ctx.result (snd st)) = false →
     fst st = InterpretedMachine.success)
  ∧ (is_null (InterpretedMachine.Ctx.lastErrorMessage (snd st)) = false →
     fst st = InterpretedMachine.failure ∨ fst st = InterpretedMachine.submitting).

(** The same for the client machine of [App.jsx]. *)
Definition client_invariant (actionId : val)
    (st : ClientMachine.State * ClientMachine.Ctx.t) : Prop :=
  (ClientMachine.Ctx.isSubmitting (snd st) = true ↔ fst st = ClientMachine.submitting)
  ∧ ClientMachine.Ctx.actionId (snd st) = actionId.

(** A key the AJV adapter can store a message under: not the empty string,
    which [if (field && ...)] passes over, and no member of
    [Object.prototype], under which [!errors[field]] finds the member. *)
Definition recordable (k : jsstring) : bool :=
  truthy_string k && bool_decide (inherited k = None).

(** The errors of a list that the adapter files under a key. *)
Definition filed_at (k : jsstring) (errs : list Validators.AjvError)
  : list Validators.AjvError :=
  filter (λ err, Validators.error_field err = Some k) errs.

(** The errors of a list that the server files under a key. *)
Definition filed_under (k : jsstring) (errs : list Validators.AjvError)
  : list Validators.AjvError :=
  filter (λ err, Server.error_key err = k) errs.

(** ** A runtime for the examples

    The theorems take the two conversions of the runtime as parameters. The
    examples run them on whole numbers, for which the two functions below
    are the conversions of ECMAScript: [sample_NumberToString] on the whole
    numbers of magnitude below 10^21, the infinities and [NaN], and
    [sample_StringToNumber] on the texts that are blank or a run of decimal
    digits with an optional sign, blanks around them allowed, which it
    rounds to the nearest number as [Number] does. Outside of these they are
    stand-ins: a fraction is printed without its fractional part, and a text
    in another notation of numbers (a fraction, an exponent, a hexadecimal
    literal, [Infinity]) is read as [NaN]. No example uses them there. *)

Definition sample_NumberToString (x : float) : jsstring :=
  match Prim2SF x with
  | S754_zero _ => js "0"
  | S754_infinity false => js "Infinity"
  | S754_infinity true => js "-Infinity"
  | S754_nan => js "NaN"
  | S754_finite s m e => js (pretty (cond_Zopp s (Z.shiftl (Z.pos m) e)))
  end.

Definition digit_value (c : N) : option Z :=
  if (48 <=? c) && (c <=? 57) then Some (Z.of_N (c - 48)) else None.

(** The value of a run of decimal digits, at least one. *)
Definition digits_value (t : jsstring) : option Z :=
  match t with
  | [] => None
  | _ => foldl (λ acc c, n ← acc; d ← digit_value c; Some (10 * n + d)%Z)
           (Some 0%Z) t
  end.

(** The number nearest to a whole number, ties to even. *)
Definition float_of_Z (n : Z) : float :=
  SF2Prim (binary_normalize FloatOps.prec FloatOps.emax n 0 false).

Definition sample_StringToNumber (s : jsstring) : float :=
  match trim s with
  | [] => 0%float
  | c :: rest =>
      if c =? 45 then                                     (* [-] *)
        from_option (λ n, PrimFloat.opp (float_of_Z n)) PrimFloat.nan
          (digits_value rest)
      else if c =? 43 then                                (* [+] *)
        from_option float_of_Z PrimFloat.nan (digits_value rest)
      else from_option float_of_Z PrimFloat.nan (digits_value (c :: rest))
  end.

(** A validator that knows the [required] keyword only: one error for each
    required property the data lacks, with the message of AJV. *)
Definition required_only (schema : JsonSchema) (data : gmap (list N) val)
  : bool * option (list Validators.AjvError) :=
  let errs :=
    (λ k, {| Validators.instancePath := [];
             Validators.keyword := js "required";
             Validators.missingProperty := Some k;
             Validators.limit := None;
             Validators.format := None;
             Validators.message :=
               Some (js "must have required property '" ++ k ++ js "'") |})
      <$> filter (λ k, is_undefined (get data k) = true) (schema_required schema) in
  match errs with
  | [] => (true, None)
  | _ => (false, Some errs)
  end.

(** [enum: []], which AJV refuses. *)
Definition has_empty_enum (prop : SchemaProp) : bool :=
  match prop !! js "enum" with
  | Some (VArr []) => true
  | _ => false
  end.

(** A compile that throws on a schema with an empty [enum], as
    [ajv.compile] does, and otherwise gives the validator above. *)
Definition sample_ajv (schema : JsonSchema) : completion Validators.Validate :=
  if existsb (λ kv, has_empty_enum kv.2) (map_to_list (properties schema))
  then Throw Error
  else Normal (required_only schema).

(** ** Fields and sessions of the examples *)

(** [{ name: 'username', type: 'string', label: 'Username', required: true,
       minLength: 3 }] *)
Definition username_field : Field.t :=
  Field.mk (js "username") (js "string") (Some (js "Username")) true
    (Some 3%float) None None None None None None VUndefined None None.

(** [{ name: 'age', type: 'integer', label: 'Age', minimum: 18, maximum: 120 }] *)
Definition age_field : Field.t :=
  Field.mk (js "age") (js "integer") (Some (js "Age")) false
    None None (Some 18%float) (Some 120%float) None None None VUndefined None None.

(** [{ name: 'email', type: 'string', format: 'email', label: 'Email',
       minLength: 10 }] *)
Definition email_field : Field.t :=
  Field.mk (js "email") (js "string") (Some (js "Email")) false
    (Some 10%float) None None None None (Some (js "email")) None VUndefined None None.

(** [{ name: 'age', type: 'number', minimum: 10, maximum: 5 }] *)
Definition crossed_bounds_field : Field.t :=
  Field.mk (js "age") (js "number") None false
    None None (Some 10%float) (Some 5%float) None None None VUndefined None None.

Abbreviation sample_validate :=
  (Interpreted.validateFormValues sample_StringToNumber sample_NumberToString).

(** [{ name: 'role', type: 'select', options: [{ value: 'user', label: 'User' },
       { value: 'admin', label: 'Admin' }], default: 'user' }] *)
Definition role_field : Field.t :=
  Field.mk (js "role") (js "select") (Some (js "Role")) true
    None None None None None None
    (Some [ {| opt_value := VStr (js "user"); opt_label := js "User" |};
            {| opt_value := VStr (js "admin"); opt_label := js "Admin" |} ])
    (VStr (js "user")) None None.

(** [{ name: 'role', type: 'select', label: 'Role' }] *)
Definition role_field_without_options : Field.t :=
  Field.mk (js "role") (js "select") (Some (js "Role")) false
    None None None None None None None VUndefined None None.

(** [{ name: 'shade', type: 'color' }] *)
Definition color_field : Field.t := plain_field "shade" "color".

(** [{ name: '__proto__', type: 'color' }] *)
Definition proto_color_field : Field.t := plain_field "__proto__" "color".

(** [{ name: '__proto__', type: 'boolean' }] and
    [{ name: '__proto__', type: 'string', default: null }] *)
Definition proto_flag_field : Field.t := plain_field "__proto__" "boolean".
Definition proto_null_field : Field.t :=
  Field.mk (js "__proto__") (js "string") None false None None None None None None
    None VNull None None.

(** [{ name: 'constructor', type: 'string', required: true }] and
    [{ name: 'nickname', type: 'string', required: true }] *)
Definition constructor_field : Field.t :=
  Field.mk (js "constructor") (js "string") None true None None None None None None
    None VUndefined None None.

(** [{ name: 'nick', type: 'string', minLength: 0 }] *)
Definition zero_minLength_field : Field.t :=
  Field.mk (js "nick") (js "string") None false
    (Some 0%float) None None None None None None VUndefined None None.

(** [{ name: 'contact', type: 'email', minLength: 6, maxLength: 80 }] *)
Definition bounded_email_field : Field.t :=
  Field.mk (js "contact") (js "email") None false
    (Some 6%float) (Some 80%float) None None None None None VUndefined None None.

(** [{ name: 'subscribe', type: 'boolean', label: 'Subscribe to newsletter' }] *)
Definition subscribe_field : Field.t :=
  Field.mk (js "subscribe") (js "boolean") (Some (js "Subscribe to newsletter"))
    false None None None None None None None VUndefined None None.

(** The [formJson] of [createUser] in the registry of the server. *)
Definition createUser_formJson : list Field.t :=
  [ Field.mk (js "username") (js "string") (Some (js "Username")) true
      (Some 3%float) None None None None None None VUndefined None None;
    Field.mk (js "email") (js "email") (Some (js "Email")) true
      None None None None None None None VUndefined None None;
    role_field;
    age_field;
    Field.mk (js "bio") (js "textarea") (Some (js "Bio")) false
      None (Some 500%float) None None None None None VUndefined None None ].

(** [validators['createUser']]: the schema the server compiles for the
    action, given to the sample validator. *)
Definition sample_validator (data : gmap (list N) val)
  : bool * list Validators.AjvError :=
  match Shared.formJsonToJsonSchema createUser_formJson (js "Create User") with
  | Normal schema =>
      let '(valid, errs) := required_only schema data in (valid, default [] errs)
  | Throw _ => (false, [])
  end.

(** A session of [createUser] that has typed nothing and has no error. *)
Definition empty_session : Server.Context :=
  {| Server.formId := VStr (js "createUser");
     Server.formData := ∅;
     Server.errors := ∅;
     Server.serverErrors := ∅;
     Server.isSubmitting := false;
     Server.result := VNull |}.

(** [{ name: 'username', type: 'boolean' }]: a second field named
    [username]. *)
Definition username_again_field : Field.t := plain_field "username" "boolean".

(** [{ name: 'bio', type: 'textarea', label: 'Bio', placeholder: 'About you' }] *)
Definition bio_field : Field.t :=
  Field.mk (js "bio") (js "textarea") (Some (js "Bio")) false
    None None None None None None None VUndefined (Some (js "About you")) None.

(** [{ name: 'bio', type: 'textarea', label: 'Bio', maxLength: 500 }] and the
    same field with other bounds [validateFormValues] does not read. *)
Definition long_bio_field : Field.t :=
  Field.mk (js "bio") (js "textarea") (Some (js "Bio")) false
    None (Some 500%float) None None None None None VUndefined None None.
Definition short_bio_field : Field.t :=
  Field.mk (js "bio") (js "textarea") (Some (js "Bio")) false
    None (Some 2%float) None None (Some (js "^[a-z]+$")) None None VUndefined None
    None.

(** A validator that reports, for any data, that [/email] is too short and
    then that it is no address: two errors for one field. *)
Definition two_errors (data : gmap (list N) val)
  : bool * option (list Validators.AjvError) :=
  (false,
   Some [ {| Validators.instancePath := js "/email";
             Validators.keyword := js "minLength";
             Validators.missingProperty := None;
             Validators.limit := Some 10%float;
             Validators.format := None;
             Validators.message :=
               Some (js "must NOT have fewer than 10 characters") |};
          {| Validators.instancePath := js "/email";
             Validators.keyword := js "format";
             Validators.missingProperty := None;
             Validators.limit := None;
             Validators.format := Some (js "email");
             Validators.message := Some (js "must match format 'email'") |} ]).
Definition two_errors_ajv (schema : JsonSchema) : completion Validators.Validate :=
  Normal two_errors.

(** A session of the factory machine for an action with the field
    [username], under the sample validator: opened, filled in, submitted,
    and answered with [{ id: 'user_1' }]. *)
Definition session_open : FormMachine.State * FormMachine.Ctx.t :=
  (FormMachine.editing,
   FormMachine.Ctx.mk {[ js "username" := VStr [] ]} ∅ false VNull VNull).
Definition session_filled : FormMachine.State * FormMachine.Ctx.t :=
  (FormMachine.editing,
   FormMachine.Ctx.mk {[ js "username" := VStr (js "abcd") ]} ∅ false VNull VNull).
Definition session_submitting : FormMachine.State * FormMachine.Ctx.t :=
  (FormMachine.submitting,
   FormMachine.Ctx.mk {[ js "username" := VStr (js "abcd") ]} ∅ true VNull VNull).
Definition session_success : FormMachine.State * FormMachine.Ctx.t :=
  (FormMachine.success,
   FormMachine.Ctx.mk {[ js "username" := VStr (js "abcd") ]} ∅ false
     (VObj [(js "id", VStr (js "user_1"))]) VNull).

Abbreviation sample_transition :=
  (FormMachine.transition sample_NumberToString sample_ajv [username_field]).

(** A session of the machine of [interpretedFormMachine.js] for the same
    action: submitted with [username] filled in, and rejected. *)
Definition interpreted_session_submitting
  : InterpretedMachine.State * InterpretedMachine.Ctx.t :=
  (InterpretedMachine.submitting,
   InterpretedMachine.Ctx.mk {[ js "username" := VStr (js "fail") ]} ∅ true VNull
     VNull).
Definition interpreted_session_failure
  : InterpretedMachine.State * InterpretedMachine.Ctx.t :=
  (InterpretedMachine.failure,
   InterpretedMachine.Ctx.mk {[ js "username" := VStr (js "fail") ]} ∅ false VNull
     (VStr (js "Server rejected username"))).

Abbreviation sample_interpreted_transition :=
  (InterpretedMachine.transition sample_StringToNumber sample_NumberToString
     [username_field]).

(** A registry with the action [createUser], whose handler stands for the
    insertion into the database, and its validator. *)
Definition sample_actions : gmap (list N) ServerRest.Action :=
  {[ js "createUser" :=
       {| ServerRest.action_formJson := createUser_formJson;
          ServerRest.handler :=
            λ data, ServerRest.resolved (VObj [(js "id", VStr (js "user_1"))]) |} ]}.
Definition sample_validators
  : gmap (list N) (gmap (list N) val → bool * list Validators.AjvError) :=
  {[ js "createUser" := sample_validator ]}.

(** Sessions of the client machine of [App.jsx]: one that shows the errors
    of a rejected submission, and the same one submitting again. *)
Definition client_session_rejected : ClientMachine.State * ClientMachine.Ctx.t :=
  (ClientMachine.editing,
   ClientMachine.Ctx.mk (VStr (js "createUser")) (VObj []) (VObj []) (VObj [])
     (VObj []) (VObj [(js "username", VStr (js "must have required property 'username'"))])
     false VNull).
Definition client_session_submitting : ClientMachine.State * ClientMachine.Ctx.t :=
  (ClientMachine.submitting,
   ClientMachine.Ctx.mk (VStr (js "createUser")) (VObj []) (VObj []) (VObj [])
     (VObj []) (VObj [(js "username", VStr (js "must have required property 'username'"))])
     true VNull).

(** The body of the reply 500 of [POST /api/actions/:id/submit]:
    [{ success: false, error: 'connection lost' }]. *)
Definition reply_500_body : val :=
  VObj [(js "success", VBool false); (js "error", VStr (js "connection lost"))].

(** * Properties *)

(** ** The runtime on examples *)

Example emailRegex_ok : regex_test emailRegex (js "jsmith@example.com") = true.
Proof. vm_compute. reflexivity. Qed.

Example emailRegex_bad : regex_test emailRegex (js "bad-email") = false.
Proof. vm_compute. reflexivity. Qed.

Example emailRegex_two_ats : regex_test emailRegex (js "a@b@c.d") = false.
Proof. vm_compute. reflexivity. Qed.

Example emailRegex_dotted_domain : regex_test emailRegex (js "a@b.c.d") = true.
Proof. vm_compute. reflexivity. Qed.

Example trim_spaces : trim (js "  ab c ") = js "ab c".
Proof. vm_compute. reflexivity. Qed.

Example sample_NumberToString_18 : sample_NumberToString 18 = js "18".
Proof. vm_compute. reflexivity. Qed.

Example sample_StringToNumber_42 :
  PrimFloat.eqb (sample_StringToNumber (js " 42 ")) 42 = true.
Proof. vm_compute. reflexivity. Qed.

Example sample_StringToNumber_signed :
  PrimFloat.eqb (sample_StringToNumber (js "-7")) (-7) = true
  ∧ PrimFloat.eqb (sample_StringToNumber (js "+7")) 7 = true
  ∧ PrimFloat.is_nan (sample_StringToNumber (js "-")) = true
  ∧ PrimFloat.is_nan (sample_StringToNumber (js "abc")) = true.
Proof. repeat split; vm_compute; reflexivity. Qed.

(** 2^53 + 1 is no number: the text is read as 2^53. *)
Example sample_StringToNumber_rounds :
  PrimFloat.eqb (sample_StringToNumber (js "9007199254740993")) 9007199254740992
  = true.
Proof. vm_compute. reflexivity. Qed.

(** ** Reading and writing a dictionary *)

(** A key an object lacks is read from [Object.prototype]. *)
Example get_inherited :
  get ∅ (js "username") = VUndefined
  ∧ get ∅ (js "toString") = native_function "toString"
  ∧ get ∅ (js "__proto__") = VObj Object_prototype
  ∧ get {[ js "toString" := VNull ]} (js "toString") = VNull.
Proof. repeat split; vm_compute; reflexivity. Qed.

(** [obj['__proto__'] = v] makes no property. *)
Example set_key_proto :
  set_key (js "__proto__") (VStr (js "x")) (∅ : gmap (list N) val) = ∅
  ∧ set_key (js "toString") (VStr (js "x")) (∅ : gmap (list N) val)
    = {[ js "toString" := VStr (js "x") ]}.
Proof. repeat split; vm_compute; reflexivity. Qed.

(** ** Trimming *)




(** ** Dictionaries *)

Lemma lookup_set_key_eq {A} (k : jsstring) (v : A) (obj : gmap (list N) A) :
  k ≠ proto_key → set_key k v obj !! k = Some v.
Proof.
  intros Hk. unfold set_key. rewrite bool_decide_eq_false_2 by done.
  apply lookup_insert_eq.
Qed.

Lemma lookup_set_key_ne {A} (k k' : jsstring) (v : A) (obj : gmap (list N) A) :
  k ≠ k' → set_key k v obj !! k' = obj !! k'.
Proof.
  intros Hk. unfold set_key. destruct (bool_decide _); [done|].
  by apply lookup_insert_ne.
Qed.

(** No assignment gives the object a property [__proto__]. *)
Lemma lookup_set_key_proto {A} (k : jsstring) (v : A) (obj : gmap (list N) A) :
  set_key k v obj !! proto_key = obj !! proto_key.
Proof.
  unfold set_key. destruct (bool_decide (k = proto_key)) eqn:Hk; [done|].
  apply bool_decide_eq_false in Hk. by apply lookup_insert_ne.
Qed.

Lemma set_key_set_key {A} (k : jsstring) (v w : A) (obj : gmap (list N) A) :
  set_key k v (set_key k w obj) = set_key k v obj.
Proof. unfold set_key. destruct (bool_decide _); [done|]. apply insert_insert_eq. Qed.


Lemma set_key_nonempty {A} (k : jsstring) (v : A) (obj : gmap (list N) A) :
  k ≠ proto_key → set_key k v obj ≠ ∅.
Proof.
  intros Hk. unfold set_key. rewrite bool_decide_eq_false_2 by done.
  apply insert_non_empty.
Qed.

Lemma inherited_proto_key : inherited proto_key = Some (VObj Object_prototype).
Proof. reflexivity. Qed.


Lemma not_inherited_not_proto (k : jsstring) : inherited k = None → k ≠ proto_key.
Proof. intros Hk ->. done. Qed.

(** ** The hand-written validator *)

Module InterpretedFacts.
Import Interpreted.
Section Facts.
Variable StringToNumber : jsstring → float.
Variable NumberToString : float → jsstring.

Abbreviation validate_field := (validate_field StringToNumber NumberToString).
Abbreviation validateFormValues := (validateFormValues StringToNumber NumberToString).

(** A turn of the loop leaves, for its field, the message of the first rule
    violated in [overwrite_order]: a later check overwrites the message of an
    earlier one. *)
Lemma validate_field_by_order formValues errors field :
  validate_field formValues errors field
  = match outcome_by_order StringToNumber NumberToString overwrite_order
            formValues field with
    | Some m => set_key (Field.name field) m errors
    | None => errors
    end.
Proof.
  unfold Interpreted.validate_field, outcome_by_order, first_violation,
    overwrite_order, violates, numeric.
  cbn [find].
  destruct (Field.required field && missing _); [done|].
  destruct (present _); cbn [andb]; [|done].
  destruct (case_of (Field.type field) _); cbn [andb negb].
  - destruct (PrimFloat.is_nan _); [done|].
    destruct (below_minimum _ _), (above_maximum _ _); cbn [fmap option_fmap option_map];
      rewrite ?set_key_set_key; done.
  - destruct (too_short _ _ _), (bad_email _ _ _); cbn [fmap option_fmap option_map];
      rewrite ?set_key_set_key; done.
Qed.

(** A turn of the loop writes at most the entry of its own field, and never
    removes one. *)
Lemma validate_field_other formValues errors field k :
  k ≠ Field.name field →
  validate_field formValues errors field !! k = errors !! k.
Proof.
  intros Hk. rewrite validate_field_by_order.
  destruct (outcome_by_order _ _ _ _ _); [|done].
  by apply lookup_set_key_ne.
Qed.


(** It writes no entry [__proto__]. *)
Lemma validate_field_proto formValues errors field :
  validate_field formValues errors field !! proto_key = errors !! proto_key.
Proof.
  rewrite validate_field_by_order.
  destruct (outcome_by_order _ _ _ _ _); [|done].
  apply lookup_set_key_proto.
Qed.


Lemma fold_validate_other formValues formJson errors k :
  k ∉ Field.name <$> formJson →
  fold_left (validate_field formValues) formJson errors !! k = errors !! k.
Proof.
  revert errors. induction formJson as [|f rest IH]; intros errors Hk; simpl.
  - done.
  - rewrite fmap_cons, not_elem_of_cons in Hk. destruct Hk as [Hne Hk].
    rewrite IH, validate_field_other; done.
Qed.

Lemma fold_validate_proto formValues formJson errors :
  fold_left (validate_field formValues) formJson errors !! proto_key
  = errors !! proto_key.
Proof.
  revert errors. induction formJson as [|f rest IH]; intros errors; simpl.
  - done.
  - rewrite IH. apply validate_field_proto.
Qed.



(** The two orders differ only on a number below its minimum and above its
    maximum. *)
Lemma orders_agree field value :
  violates StringToNumber NumberToString field value RMinimum
  && violates StringToNumber NumberToString field value RMaximum = false →
  first_violation StringToNumber NumberToString evaluation_order field value
  = first_violation StringToNumber NumberToString overwrite_order field value.
Proof.
  unfold first_violation, evaluation_order, overwrite_order. cbn [find].
  intros H. repeat case_match; try done; simplify_eq/=.
Qed.

Lemma fold_validate_lookup formValues formJson errors field :
  NoDup (Field.name <$> formJson) →
  field ∈ formJson →
  Field.name field ≠ proto_key →
  errors !! Field.name field = None →
  fold_left (validate_field formValues) formJson errors !! Field.name field
  = outcome_by_order StringToNumber NumberToString overwrite_order
      formValues field.
Proof.
  revert errors. induction formJson as [|f rest IH]; intros errors Hnd Hin Hk Hnone.
  - by apply elem_of_nil in Hin.
  - rewrite fmap_cons in Hnd. apply NoDup_cons in Hnd as [Hf Hnd].
    apply elem_of_cons in Hin as [-> | Hin]; simpl.
    + rewrite fold_validate_other by done.
      rewrite validate_field_by_order.
      destruct (outcome_by_order _ _ _ _ f) as [m|] eqn:Hm.
      * by apply lookup_set_key_eq.
      * done.
    + apply IH; [done..|].
      rewrite validate_field_other; [done|].
      intros Heq. apply Hf. rewrite <- Heq.
      apply list_elem_of_fmap. eauto.
Qed.

End Facts.
End InterpretedFacts.

(** *** Examples of the validator *)

Example scenario_A :
  sample_validate {[ js "username" := VStr (js "ab") ]} [username_field]
  = {[ js "username" := js "Username must have at least 3 characters" ]}.
Proof. vm_compute. reflexivity. Qed.

Example scenario_D_below :
  sample_validate {[ js "age" := VNum 15 ]} [age_field]
  = {[ js "age" := js "Age must be " ++ [8805] ++ js " 18" ]}.
Proof. vm_compute. reflexivity. Qed.

Example scenario_D_above :
  sample_validate {[ js "age" := VNum 200 ]} [age_field]
  = {[ js "age" := js "Age must be " ++ [8804] ++ js " 120" ]}.
Proof. vm_compute. reflexivity. Qed.

Example scenario_D_within :
  sample_validate {[ js "age" := VNum 30 ]} [age_field] = ∅.
Proof. vm_compute. reflexivity. Qed.

(** Too short and not an address: the message of the format stays. *)
Example short_and_not_email :
  sample_validate {[ js "email" := VStr (js "ab") ]} [email_field]
  = {[ js "email" := js "Email must be a valid email" ]}.
Proof. vm_compute. reflexivity. Qed.

(** Below the minimum and above the maximum: the message of the maximum
    stays. *)
Example crossed_bounds :
  sample_validate {[ js "age" := VNum 7 ]} [crossed_bounds_field]
  = {[ js "age" := js "age must be " ++ [8804] ++ js " 5" ]}.
Proof. vm_compute. reflexivity. Qed.

(** A field named [constructor] whose key is missing: the value read is the
    function [Object], which is not missing, and whose text is shorter than
    100 characters. *)
Example constructor_is_read_from_the_prototype :
  sample_validate ∅ [constructor_field] = ∅
  ∧ sample_validate ∅
      [Field.mk (js "constructor") (js "string") None false (Some 100%float)
         None None None None None None VUndefined None None]
    = {[ js "constructor" := js "constructor must have at least 100 characters" ]}.
Proof. split; vm_compute; reflexivity. Qed.

(** A required field named [__proto__]: its message is assigned to
    [errors['__proto__']], which stores nothing. *)
Example proto_message_is_lost :
  sample_validate {[ js "__proto__" := VStr [] ]}
    [Field.mk (js "__proto__") (js "string") None true None None None None None
       None None VUndefined None None]
  = ∅.
Proof. vm_compute. reflexivity. Qed.

(** ** The schema compilers *)

Section CompilerLoop.
Variable prop_of : Field.t → completion SchemaProp.

Lemma add_with_normal schema f prop :
  prop_of f = Normal prop →
  add_with prop_of schema f
  = Normal (push_required (Field.required f) (Field.name f)
              (set_property (Field.name f) prop schema)).
Proof. unfold add_with. intros ->. done. Qed.

Lemma add_with_throw schema f e :
  prop_of f = Throw e → add_with prop_of schema f = Throw e.
Proof. unfold add_with. intros ->. done. Qed.

Lemma loop_total formJson schema :
  Forall (λ f, ∃ prop, prop_of f = Normal prop) formJson →
  ∃ schema', for_of formJson (add_with prop_of) schema = Normal schema'.
Proof.
  intros Hall. revert schema.
  induction Hall as [|f rest [prop Hf] _ IH]; intros schema; simpl.
  - eauto.
  - rewrite (add_with_normal _ _ _ Hf). simpl. apply IH.
Qed.

Lemma loop_other formJson schema schema' k :
  for_of formJson (add_with prop_of) schema = Normal schema' →
  k ∉ Field.name <$> formJson →
  properties schema' !! k = properties schema !! k.
Proof.
  revert schema. induction formJson as [|f rest IH]; intros schema; simpl.
  - intros [= <-]. done.
  - destruct (prop_of f) as [prop|e] eqn:Hf.
    + rewrite (add_with_normal _ _ _ Hf). simpl.
      intros Hrun Hk. apply not_elem_of_cons in Hk as [Hne Hk].
      rewrite (IH _ Hrun Hk). simpl. by apply lookup_set_key_ne.
    + rewrite (add_with_throw _ _ _ Hf). done.
Qed.

Lemma loop_lookup formJson schema schema' f :
  for_of formJson (add_with prop_of) schema = Normal schema' →
  NoDup (Field.name <$> formJson) →
  f ∈ formJson →
  Field.name f ≠ proto_key →
  ∃ prop, prop_of f = Normal prop ∧ properties schema' !! Field.name f = Some prop.
Proof.
  revert schema. induction formJson as [|g rest IH]; intros schema; simpl.
  - intros _ _ Hin. by apply elem_of_nil in Hin.
  - destruct (prop_of g) as [prop|e] eqn:Hg.
    + rewrite (add_with_normal _ _ _ Hg). simpl.
      intros Hrun Hnd Hin Hk. apply NoDup_cons in Hnd as [Hg' Hnd].
      apply elem_of_cons in Hin as [-> | Hin].
      * exists prop. split; [done|].
        rewrite (loop_other _ _ _ _ Hrun Hg'). simpl. by apply lookup_set_key_eq.
      * eapply IH; eauto.
    + rewrite (add_with_throw _ _ _ Hg). done.
Qed.

(** The loop stops at the first field whose property cannot be built. *)
Lemma loop_throw formJson schema f e :
  f ∈ formJson → prop_of f = Throw e →
  ∃ e', for_of formJson (add_with prop_of) schema = Throw e'.
Proof.
  revert schema. induction formJson as [|g rest IH]; intros schema Hin Hf; simpl.
  - by apply elem_of_nil in Hin.
  - destruct (prop_of g) as [prop|e'] eqn:Hg.
    + rewrite (add_with_normal _ _ _ Hg). simpl.
      apply elem_of_cons in Hin as [-> | Hin]; [congruence|].
      apply IH; done.
    + rewrite (add_with_throw _ _ _ Hg). eauto.
Qed.

(** What the loop throws, a field of the list threw. *)
Lemma loop_thrown formJson schema e :
  for_of formJson (add_with prop_of) schema = Throw e →
  ∃ f, f ∈ formJson ∧ prop_of f = Throw e.
Proof.
  revert schema. induction formJson as [|g rest IH]; intros schema; simpl.
  - done.
  - destruct (prop_of g) as [prop|e'] eqn:Hg.
    + rewrite (add_with_normal _ _ _ Hg). simpl. intros Hrun.
      destruct (IH _ Hrun) as (f & Hin & Hf). exists f.
      split; [by apply list_elem_of_further | done].
    + rewrite (add_with_throw _ _ _ Hg). intros [= ->]. exists g.
      split; [apply list_elem_of_here | done].
Qed.

End CompilerLoop.

Lemma for_of_ext {A S} (xs : list A) (body1 body2 : S → A → completion S) acc :
  (∀ s x, body1 s x = body2 s x) →
  for_of xs body1 acc = for_of xs body2 acc.
Proof.
  intros Hext. revert acc. induction xs as [|x rest IH]; intros acc; simpl.
  - done.
  - rewrite Hext. destruct (body2 acc x); simpl; [apply IH | done].
Qed.

Lemma shared_compile_loop formJson title :
  Shared.formJsonToJsonSchema formJson title
  = for_of formJson (add_with shared_prop_of)
      {| schema_title := None; schema_type := js "object";
         properties := ∅; properties_proto := None; schema_required := [] |}.
Proof.
  unfold Shared.formJsonToJsonSchema. apply for_of_ext. intros s f.
  unfold Shared.add_field, add_with, shared_prop_of.
  destruct (Shared.prop_of_type f); done.
Qed.

Lemma validators_compile_loop formJson :
  Validators.formJsonToValidationSchema formJson
  = for_of formJson (add_with Validators.prop_of_field)
      {| schema_title := None; schema_type := js "object";
         properties := ∅; properties_proto := None; schema_required := [] |}.
Proof. reflexivity. Qed.

Lemma options_map_total {B} options (fn : FieldOption → B) :
  is_Some options → ∃ l, options_map options fn = Normal l.
Proof. intros [os ->]. simpl. eauto. Qed.

Lemma shared_prop_of_type_total f :
  has_options_if_select f → ∃ prop, Shared.prop_of_type f = Normal prop.
Proof.
  intros Hwf. unfold Shared.prop_of_type.
  destruct (case_of _ ["string"; "text"; "textarea"]); [eauto|].
  destruct (case_of _ ["email"]); [eauto|].
  destruct (case_of _ ["number"; "integer"]); [eauto|].
  destruct (case_of _ ["select"]) eqn:Hsel.
  - destruct (Hwf Hsel) as [os ->]. simpl. eauto.
  - destruct (case_of _ ["boolean"]); [eauto|].
    destruct (case_of _ ["date"]); eauto.
Qed.

Lemma shared_prop_of_total f :
  has_options_if_select f → ∃ prop, shared_prop_of f = Normal prop.
Proof.
  intros Hwf. destruct (shared_prop_of_type_total f Hwf) as [prop Hp].
  unfold shared_prop_of. rewrite Hp. simpl. eauto.
Qed.

Lemma validators_prop_of_field_total f :
  has_options_if_select f → ∃ prop, Validators.prop_of_field f = Normal prop.
Proof.
  intros Hwf. unfold Validators.prop_of_field.
  destruct (case_of _ ["string"; "email"; "password"]); [eauto|].
  destruct (case_of _ ["number"; "integer"]); [eauto|].
  destruct (case_of _ ["select"]) eqn:Hsel.
  - destruct (Hwf Hsel) as [os ->]. simpl. eauto.
  - destruct (case_of _ ["boolean"]); eauto.
Qed.

Lemma case_of_false_sub t cases cases' :
  case_of t cases = false → cases' ⊆ cases → case_of t cases' = false.
Proof.
  unfold case_of. rewrite !bool_decide_eq_false. intros Hn Hsub Hin.
  apply Hn. apply list_elem_of_fmap in Hin as (c & -> & Hc).
  apply list_elem_of_fmap. eauto.
Qed.

Ltac kinds_sub :=
  intros ? ?; repeat match goal with
    | H : _ ∈ _ :: _ |- _ => apply elem_of_cons in H as [-> | H]
    | H : _ ∈ [] |- _ => by apply elem_of_nil in H
    end; set_solver.

(** An unrecognized kind falls to the [default:] branch. *)
Lemma shared_unknown_kind f :
  case_of (Field.type f) shared_kinds = false →
  Shared.prop_of_type f = Normal {[ js "type" := VStr (js "string") ]}.
Proof.
  intros Hk. unfold Shared.prop_of_type.
  rewrite (case_of_false_sub _ _ ["string"; "text"; "textarea"] Hk) by kinds_sub.
  rewrite (case_of_false_sub _ _ ["email"] Hk) by kinds_sub.
  rewrite (case_of_false_sub _ _ ["number"; "integer"] Hk) by kinds_sub.
  rewrite (case_of_false_sub _ _ ["select"] Hk) by kinds_sub.
  rewrite (case_of_false_sub _ _ ["boolean"] Hk) by kinds_sub.
  rewrite (case_of_false_sub _ _ ["date"] Hk) by kinds_sub.
  by rewrite insert_empty.
Qed.

Lemma validators_unknown_kind f :
  case_of (Field.type f) validators_kinds = false →
  Validators.prop_of_field f
  = Normal (<[js "type" := VStr (js "string")]>
              {[ js "title" := from_option VStr VUndefined (Field.label f) ]}).
Proof.
  intros Hk. unfold Validators.prop_of_field.
  rewrite (case_of_false_sub _ _ ["string"; "email"; "password"] Hk) by kinds_sub.
  rewrite (case_of_false_sub _ _ ["number"; "integer"] Hk) by kinds_sub.
  rewrite (case_of_false_sub _ _ ["select"] Hk) by kinds_sub.
  rewrite (case_of_false_sub _ _ ["boolean"] Hk) by kinds_sub.
  done.
Qed.

Ltac other_key := let H := fresh in intros H; vm_compute in H; discriminate H.

Ltac each_key H :=
  repeat (apply elem_of_cons in H as [-> | H]); [..| by apply elem_of_nil in H].

(** The annotations leave the type and the constraints of a property alone. *)
Lemma annotate_frame (f : Field.t) (prop : SchemaProp) (k : string) :
  k ∈ "type" :: constraint_keys →
  Shared.annotate f prop !! js k = prop !! js k.
Proof.
  intros Hk. unfold Shared.annotate, set_str.
  each_key Hk;
    repeat case_match; rewrite ?lookup_insert_ne by other_key; done.
Qed.

Lemma shared_unknown_kind_free_form (f : Field.t) (prop : SchemaProp) :
  case_of (Field.type f) shared_kinds = false →
  shared_prop_of f = Normal prop → free_form_string prop.
Proof.
  intros Hk. unfold shared_prop_of. rewrite (shared_unknown_kind f Hk). simpl.
  intros [= <-]. split.
  - rewrite (annotate_frame f _ "type") by apply list_elem_of_here.
    apply lookup_singleton_eq.
  - intros k Hin. rewrite annotate_frame by (by apply list_elem_of_further).
    apply lookup_singleton_ne. unfold constraint_keys in Hin.
    each_key Hin; other_key.
Qed.

Lemma validators_unknown_kind_free_form (f : Field.t) (prop : SchemaProp) :
  case_of (Field.type f) validators_kinds = false →
  Validators.prop_of_field f = Normal prop → free_form_string prop.
Proof.
  intros Hk. rewrite (validators_unknown_kind f Hk). intros [= <-]. split.
  - apply lookup_insert_eq.
  - intros k Hin. unfold constraint_keys in Hin.
    each_key Hin;
      (rewrite lookup_insert_ne by other_key; apply lookup_singleton_ne; other_key).
Qed.

(** What the compilers do right. On every list of fields whose [select]
    fields carry their options, the shared compiler and the compiler of the
    validators both return a schema; when the names of the fields are
    distinct, a field whose kind neither [switch] has a [case] for, and
    whose name is not [__proto__], gets a property of type string with no
    constraint. *)
Lemma compile_total_given_options
    (formJson : list Field.t) (title : jsstring) :
  Forall has_options_if_select formJson →
  (∃ schema,
     Shared.formJsonToJsonSchema formJson title = Normal schema
     ∧ (NoDup (Field.name <$> formJson) →
        ∀ f, f ∈ formJson → Field.name f ≠ proto_key →
             case_of (Field.type f) shared_kinds = false →
             ∃ prop, properties schema !! Field.name f = Some prop
                     ∧ free_form_string prop))
  ∧ (∃ schema,
       Validators.formJsonToValidationSchema formJson = Normal schema
       ∧ (NoDup (Field.name <$> formJson) →
          ∀ f, f ∈ formJson → Field.name f ≠ proto_key →
               case_of (Field.type f) validators_kinds = false →
               ∃ prop, properties schema !! Field.name f = Some prop
                       ∧ free_form_string prop)).
Proof.
  intros Hwf. split.
  - rewrite shared_compile_loop.
    destruct (loop_total shared_prop_of formJson
                {| schema_title := None; schema_type := js "object";
                   properties := ∅; properties_proto := None;
                   schema_required := [] |}) as [schema Hrun].
    { eapply Forall_impl; [exact Hwf|]. apply shared_prop_of_total. }
    exists schema. split; [done|]. intros Hnd f Hin Hne Hk.
    destruct (loop_lookup _ _ _ _ f Hrun Hnd Hin Hne) as (prop & Hp & Hl).
    exists prop. split; [done|]. by eapply shared_unknown_kind_free_form.
  - rewrite validators_compile_loop.
    destruct (loop_total Validators.prop_of_field formJson
                {| schema_title := None; schema_type := js "object";
                   properties := ∅; properties_proto := None;
                   schema_required := [] |}) as [schema Hrun].
    { eapply Forall_impl; [exact Hwf|]. apply validators_prop_of_field_total. }
    exists schema. split; [done|]. intros Hnd f Hin Hne Hk.
    destruct (loop_lookup _ _ _ _ f Hrun Hnd Hin Hne) as (prop & Hp & Hl).
    exists prop. split; [done|]. by eapply validators_unknown_kind_free_form.
Qed.

(** A field of unknown kind is compiled to a plain string. *)
Example compile_unknown_kind :
  properties <$> (Shared.formJsonToJsonSchema [color_field] (js "Form"))
  = Normal {[ js "shade" := {[ js "type" := VStr (js "string") ]} ]}.
Proof. vm_compute. reflexivity. Qed.

(** C3 at the failing inputs. A [select] field without options makes
    [field.options.map] throw a [TypeError] in the shared compiler and in the
    compiler of the validators, where the compiler of
    [interpretedFormMachine.js] tests [options] first and compiles the field
    to an empty [enum]. A field of unknown kind named [__proto__] is compiled
    to the free-form string property, which the assignment
    [properties[name] = prop] then makes the prototype of [properties]: the
    properties of the schema have no entry for the field. *)
Theorem C3_compile_fails_on_select_without_options :
  Shared.formJsonToJsonSchema [role_field_without_options] (js "Form")
  = Throw TypeError
  ∧ Validators.formJsonToValidationSchema [role_field_without_options]
    = Throw TypeError
  ∧ properties (fst (Interpreted.formJsonToJsonSchema [role_field_without_options]))
    = {[ js "role" := {[ js "type" := VStr (js "string");
                         js "enum" := VArr [];
                         js "title" := VStr (js "Role") ]} ]}
  ∧ properties <$> Shared.formJsonToJsonSchema [proto_color_field] (js "Form")
    = Normal ∅
  ∧ properties <$> Validators.formJsonToValidationSchema [proto_color_field]
    = Normal ∅
  ∧ properties_proto <$> Shared.formJsonToJsonSchema [proto_color_field] (js "Form")
    = Normal (Some {[ js "type" := VStr (js "string") ]}).
Proof. repeat split; vm_compute; reflexivity. Qed.

(** *** Constraints *)

(** What the [switch] of the shared compiler does with the constraints of a
    [string], [text] or [textarea] field: each is copied when it is truthy. *)
Lemma shared_string_constraints (f : Field.t) :
  case_of (Field.type f) ["string"; "text"; "textarea"] = true →
  ∃ prop : SchemaProp,
    Shared.prop_of_type f = Normal prop
    ∧ prop !! js "minLength"
      = (if truthy_num (Field.minLength f) then VNum <$> Field.minLength f else None)
    ∧ prop !! js "maxLength"
      = (if truthy_num (Field.maxLength f) then VNum <$> Field.maxLength f else None)
    ∧ prop !! js "pattern"
      = (if truthy_str (Field.pattern f) then VStr <$> Field.pattern f else None).
Proof.
  intros Hk. unfold Shared.prop_of_type. rewrite Hk. eexists. split; [done|].
  unfold set_num, set_str.
  destruct (Field.minLength f) as [x|], (Field.maxLength f) as [y|],
    (Field.pattern f) as [p|]; simpl;
    repeat case_match;
    rewrite ?lookup_insert_eq, ?lookup_insert_ne, ?lookup_empty by other_key;
    repeat (first [rewrite lookup_insert_eq
                  | rewrite lookup_insert_ne by other_key
                  | rewrite lookup_empty]);
    done.
Qed.

(** For a [number] or [integer] field the bounds are copied whenever they
    are present, zero included. *)
Lemma shared_numeric_constraints (f : Field.t) :
  case_of (Field.type f) ["string"; "text"; "textarea"] = false →
  case_of (Field.type f) ["email"] = false →
  case_of (Field.type f) ["number"; "integer"] = true →
  ∃ prop : SchemaProp,
    Shared.prop_of_type f = Normal prop
    ∧ prop !! js "minimum" = VNum <$> Field.minimum f
    ∧ prop !! js "maximum" = VNum <$> Field.maximum f.
Proof.
  intros H1 H2 H3. unfold Shared.prop_of_type. rewrite H1, H2, H3.
  eexists. split; [done|].
  unfold set_num, defined.
  destruct (Field.minimum f) as [x|], (Field.maximum f) as [y|]; simpl;
    repeat (first [rewrite lookup_insert_eq
                  | rewrite lookup_insert_ne by other_key
                  | rewrite lookup_empty]);
    done.
Qed.

(** C4 at the failing input. A string field with [minLength: 0] compiles to
    a property without [minLength], in both compilers: [if (f.minLength)]
    takes 0 for absent. *)
Theorem C4_zero_minLength_is_dropped :
  Field.minLength zero_minLength_field = Some 0%float
  ∧ properties <$> Shared.formJsonToJsonSchema [zero_minLength_field] (js "Form")
    = Normal {[ js "nick" := {[ js "type" := VStr (js "string") ]} ]}
  ∧ properties <$> Validators.formJsonToValidationSchema [zero_minLength_field]
    = Normal {[ js "nick" := {[ js "type" := VStr (js "string");
                               js "title" := VUndefined ]} ]}.
Proof. repeat split; vm_compute; reflexivity. Qed.

(** The shared compiler copies no length bound of an [email] field. *)
Example shared_email_drops_lengths :
  properties <$> Shared.formJsonToJsonSchema [bounded_email_field] (js "Form")
  = Normal {[ js "contact" := {[ js "type" := VStr (js "string");
                                js "format" := VStr (js "email") ]} ]}.
Proof. vm_compute. reflexivity. Qed.

Example validators_email_keeps_lengths :
  properties <$> Validators.formJsonToValidationSchema [bounded_email_field]
  = Normal {[ js "contact" := {[ js "type" := VStr (js "string");
                                js "title" := VUndefined;
                                js "minLength" := VNum 6;
                                js "maxLength" := VNum 80 ]} ]}.
Proof. vm_compute. reflexivity. Qed.

(** ** The form machine *)

Module FormMachineFacts.
Import FormMachine.
Section Facts.
Variable NumberToString : float → jsstring.
Variable ajv_compile : JsonSchema → completion Validators.Validate.
Variable formJson : list Field.t.

Abbreviation transition := (transition NumberToString ajv_compile formJson).
Abbreviation states := (states NumberToString ajv_compile formJson).
Abbreviation validate :=
  (λ form, Validators.validateWithAJV NumberToString ajv_compile form formJson).

(** The guard reads the stored errors, and nothing else. *)
Lemma isValid_iff_no_errors (ctx : Ctx.t) (ev : Event) :
  isValid ctx ev = true ↔ Ctx.errors ctx = ∅.
Proof.
  unfold isValid. rewrite bool_decide_eq_true, size_dom.
  apply map_size_empty_iff.
Qed.

(** [SUBMIT] in [editing], for any number of eventless transitions allowed
    beyond the first. *)
Lemma send_submit (fuel : nat) (ctx : Ctx.t) (outcome : gmap (list N) (list N)) :
  validate (Ctx.form ctx) = Normal outcome →
  send states (S fuel) (editing, ctx) SUBMIT
  = Some (Normal
      (if isValid (Ctx.mk (Ctx.form ctx) outcome (Ctx.submitting ctx)
                     (Ctx.result ctx) (Ctx.serverError ctx)) SUBMIT
       then (submitting,
             Ctx.mk (Ctx.form ctx) outcome true (Ctx.result ctx)
               (Ctx.serverError ctx))
       else (editing,
             Ctx.mk (Ctx.form ctx) outcome (Ctx.submitting ctx) (Ctx.result ctx)
               VNull))).
Proof.
  intros Hv. unfold send. cbn [on states fst snd find enabled cond goto].
  unfold take. cbn [actions target goto entry states app snd fst default].
  unfold run_actions. cbn [for_of]. unfold runValidation at 1.
  rewrite Hv. cbn.
  destruct (isValid _ SUBMIT) eqn:Hg.
  - unfold take. cbn. destruct fuel; reflexivity.
  - unfold take. cbn. destruct fuel; reflexivity.
Qed.

(** When the validation throws, the call of [send] throws the same. *)
Lemma send_submit_throw (fuel : nat) (ctx : Ctx.t) (e : exn) :
  validate (Ctx.form ctx) = Throw e →
  send states fuel (editing, ctx) SUBMIT = Some (Throw e).
Proof.
  intros Hv. unfold send. cbn [on states fst snd find enabled cond goto].
  unfold take. cbn [actions target goto entry states app snd fst default].
  unfold run_actions. cbn [for_of]. unfold runValidation at 1.
  rewrite Hv. reflexivity.
Qed.

(** C7. In [submitting] a [CHANGE] event is not handled: the state and the
    whole context stay as they are. *)
Theorem C7_change_ignored_while_submitting
    (ctx : Ctx.t) (name : jsstring) (value : val) :
  on (states submitting) (CHANGE name value) = []
  ∧ transition (submitting, ctx) (CHANGE name value)
    = Some (Normal (submitting, ctx)).
Proof. split; reflexivity. Qed.


(** The actions of the rejection store the message of the payload. *)
Lemma rejection_actions_store_message (ctx : Ctx.t) (data : val) :
  run_actions [assignServerError; clearSubmitting] ctx
    (error_platform data)
  = Normal (Ctx.mk (Ctx.form ctx) (Ctx.errors ctx) false (Ctx.result ctx)
              (or_else (opt_chain data (js "message"))
                 (VStr (js "Submission failed")))).
Proof. reflexivity. Qed.

(** C1 on the code. When the handler rejects in [submitting], the machine
    goes to [editing] with [submitting = false], and the entry action
    [clearServerError] of [editing], which runs after the actions of the
    transition, leaves [serverError] null whatever the payload was. *)
Theorem C1_rejection_leaves_serverError_null (ctx : Ctx.t) (data : val) :
  transition (submitting, ctx) (error_platform data)
  = Some (Normal (editing,
      Ctx.mk (Ctx.form ctx) (Ctx.errors ctx) false (Ctx.result ctx) VNull)).
Proof.
  unfold FormMachine.transition, send.
  cbn [on states fst snd find enabled cond goto].
  unfold take. cbn [actions target goto entry states app].
  reflexivity.
Qed.

End Facts.
End FormMachineFacts.

Example submit_without_username :
  FormMachine.transition sample_NumberToString sample_ajv [username_field]
    (FormMachine.editing,
     FormMachine.Ctx.mk ∅ ∅ false VNull VNull) FormMachine.SUBMIT
  = Some (Normal (FormMachine.editing,
      FormMachine.Ctx.mk ∅ {[ js "username" := js "username is required" ]}
        false VNull VNull)).
Proof. vm_compute. reflexivity. Qed.

Example submit_with_username :
  FormMachine.transition sample_NumberToString sample_ajv [username_field]
    (FormMachine.editing,
     FormMachine.Ctx.mk {[ js "username" := VStr (js "abcd") ]} ∅ false VNull VNull)
    FormMachine.SUBMIT
  = Some (Normal (FormMachine.submitting,
      FormMachine.Ctx.mk {[ js "username" := VStr (js "abcd") ]} ∅ true VNull
        VNull)).
Proof. vm_compute. reflexivity. Qed.

(** Scenario B: the handler resolves with [{ id: 'user_1' }]. *)
Example scenario_B :
  FormMachine.transition sample_NumberToString sample_ajv [username_field]
    (FormMachine.submitting,
     FormMachine.Ctx.mk {[ js "username" := VStr (js "abcd") ]} ∅ true VNull VNull)
    (FormMachine.done_invoke (VObj [(js "id", VStr (js "user_1"))]))
  = Some (Normal (FormMachine.success,
      FormMachine.Ctx.mk {[ js "username" := VStr (js "abcd") ]} ∅ false
        (VObj [(js "id", VStr (js "user_1"))]) VNull)).
Proof. vm_compute. reflexivity. Qed.

(** Scenario C on the code: the handler rejects with
    [{ message: 'duplicate username' }]; the transition stores the message
    and the entry of [editing] clears it. *)
Example scenario_C :
  run_actions [FormMachine.assignServerError; FormMachine.clearSubmitting]
    (FormMachine.Ctx.mk {[ js "username" := VStr (js "abcd") ]} ∅ true VNull VNull)
    (FormMachine.error_platform
       (VObj [(js "message", VStr (js "duplicate username"))]))
  = Normal (FormMachine.Ctx.mk {[ js "username" := VStr (js "abcd") ]} ∅ false
              VNull (VStr (js "duplicate username")))
  ∧ FormMachine.transition sample_NumberToString sample_ajv [username_field]
      (FormMachine.submitting,
       FormMachine.Ctx.mk {[ js "username" := VStr (js "abcd") ]} ∅ true VNull
         VNull)
      (FormMachine.error_platform
         (VObj [(js "message", VStr (js "duplicate username"))]))
    = Some (Normal (FormMachine.editing,
        FormMachine.Ctx.mk {[ js "username" := VStr (js "abcd") ]} ∅ false VNull
          VNull)).
Proof. split; vm_compute; reflexivity. Qed.

(** ** Initial values *)

Section InitialValues.
(** The value a loop assigns for a field. *)
Variable value_of : Field.t → val.

Abbreviation build :=
  (fold_left (λ (obj : Built) (f : Field.t), assign (Field.name f) (value_of f) obj)).

Lemma assign_other (k k' : jsstring) (v : val) (obj : Built) :
  k ≠ k' → built_own (assign k v obj) !! k' = built_own obj !! k'.
Proof.
  intros Hk. unfold assign. destruct (_ && _); simpl; [done|].
  by apply lookup_insert_ne.
Qed.

Lemma assign_eq (k : jsstring) (v : val) (obj : Built) :
  k ≠ proto_key → built_own (assign k v obj) !! k = Some v.
Proof.
  intros Hk. unfold assign. rewrite (bool_decide_eq_false_2 (k = proto_key)) by done.
  simpl. apply lookup_insert_eq.
Qed.

Lemma build_other (formJson : list Field.t) (obj : Built) (k : jsstring) :
  k ∉ Field.name <$> formJson →
  built_own (build formJson obj) !! k = built_own obj !! k.
Proof.
  revert obj. induction formJson as [|f rest IH]; intros obj Hk; simpl.
  - done.
  - apply not_elem_of_cons in Hk as [Hne Hk]. rewrite IH by done.
    by apply assign_other.
Qed.

(** A name other than [__proto__] holds the value of the last field of the
    name. *)
Lemma build_last (formJson : list Field.t) (obj : Built) (k : jsstring) :
  k ≠ proto_key →
  built_own (build formJson obj) !! k
  = match last (filter (λ f, Field.name f = k) formJson) with
    | Some f => Some (value_of f)
    | None => built_own obj !! k
    end.
Proof.
  intros Hk. revert obj. induction formJson as [|f rest IH]; intros obj; simpl.
  - done.
  - rewrite IH. rewrite filter_cons.
    destruct (decide (Field.name f = k)) as [Hf|Hf].
    + rewrite last_cons. destruct (last (filter _ rest)); [done|].
      rewrite Hf. by apply assign_eq.
    + destruct (last (filter _ rest)); [done|]. by apply assign_other.
Qed.

(** With distinct names the object gets no property [__proto__]: the one
    field of that name meets the setter of [Object.prototype]. *)
Lemma build_proto (formJson : list Field.t) (obj : Built) :
  NoDup (Field.name <$> formJson) →
  built_own obj !! proto_key = None → built_proto obj = None →
  built_own (build formJson obj) !! proto_key = None.
Proof.
  revert obj. induction formJson as [|f rest IH]; intros obj Hnd Hown Hproto; simpl.
  - done.
  - rewrite fmap_cons in Hnd. apply NoDup_cons in Hnd as [Hf Hnd].
    destruct (decide (Field.name f = proto_key)) as [Hk|Hk].
    + rewrite build_other by (by rewrite <- Hk).
      unfold assign. rewrite Hk.
      rewrite (bool_decide_eq_true_2 (proto_key = proto_key)) by done.
      rewrite (bool_decide_eq_true_2 _ Hown), Hproto. simpl. exact Hown.
    + apply IH; [done| |].
      * by rewrite assign_other.
      * unfold assign. rewrite (bool_decide_eq_false_2 _ Hk). simpl. exact Hproto.
Qed.

Lemma build_lookup (formJson : list Field.t) (k : jsstring) :
  k ≠ proto_key ∨ NoDup (Field.name <$> formJson) →
  built_own (build formJson empty_object) !! k
  = if bool_decide (k = proto_key) then None
    else value_of <$> last (named k formJson).
Proof.
  intros Hk. destruct (decide (k = proto_key)) as [->|Hne].
  - rewrite bool_decide_eq_true_2 by done.
    destruct Hk as [Hk|Hnd]; [done|]. by apply build_proto.
  - rewrite bool_decide_eq_false_2 by done. rewrite build_last by done.
    unfold named. destruct (last (filter _ formJson)); [done|]. apply lookup_empty.
Qed.

End InitialValues.

(** C10 on the code. The form of the initial context has an entry for every
    field but one named [__proto__]: the entry is the default of the field
    when it has one, and otherwise [false] for a [boolean] field and the
    empty string for a field of any other type, the last field of a name
    deciding. For a field named [__proto__] the assignment
    [values[field.name] = ...] stores nothing: in a list of fields with
    distinct names the form has no entry for it. *)
Theorem C10_field_named_proto_is_left_absent
    (formJson : list Field.t) (k : jsstring) :
  k ≠ proto_key ∨ NoDup (Field.name <$> formJson) →
  FormMachine.Ctx.form (snd (FormMachine.initial formJson)) !! k
  = if bool_decide (k = proto_key) then None
    else FormMachine.initial_value <$> last (named k formJson).
Proof.
  intros Hk.
  cbn [FormMachine.initial FormMachine.context snd FormMachine.Ctx.form].
  unfold FormMachine.initialForm, FormMachine.buildInitialValues.
  by apply build_lookup.
Qed.

(** The list [[subscribe, { name: '__proto__', type: 'boolean' }]]: no entry
    for the second field. *)
Lemma C10_field_named_proto_is_left_absent_witness :
  FormMachine.Ctx.form (snd (FormMachine.initial [subscribe_field; proto_flag_field]))
    !! proto_key = None
  ∧ FormMachine.Ctx.form (snd (FormMachine.initial [subscribe_field; proto_flag_field]))
    = {[ js "subscribe" := VBool false ]}.
Proof.
  split.
  - apply (C10_field_named_proto_is_left_absent
             [subscribe_field; proto_flag_field] proto_key).
    right. apply (bool_decide_unpack _). vm_compute. exact I.
  - vm_compute. reflexivity.
Defined.

Example initial_values_of_example :
  built_own
    (FormMachine.buildInitialValues [username_field; role_field; subscribe_field])
  = {[ js "username" := VStr [];
       js "role" := VStr (js "user");
       js "subscribe" := VBool false ]}.
Proof. vm_compute. reflexivity. Qed.

(** A field named [__proto__] whose default is [null] takes the prototype
    away; a second field of that name then finds no setter and becomes a
    property. *)
Example initial_values_without_prototype :
  FormMachine.buildInitialValues [proto_null_field; proto_flag_field]
  = {| built_own := {[ proto_key := VBool false ]}; built_proto := Some VNull |}.
Proof. vm_compute. reflexivity. Qed.

(** ** The guards named [isValid] *)

(** In [formMachineFactory.js] the guard is a function of the stored errors:
    contexts with the same errors get the same verdict, whatever the form
    holds, and no validator is involved. *)
Lemma factory_isValid_reads_errors_only
    (ctx1 ctx2 : FormMachine.Ctx.t) (ev1 ev2 : FormMachine.Event) :
  FormMachine.Ctx.errors ctx1 = FormMachine.Ctx.errors ctx2 →
  FormMachine.isValid ctx1 ev1 = FormMachine.isValid ctx2 ev2.
Proof. unfold FormMachine.isValid. intros ->. done. Qed.

(** The guard of the server returns what the validator says of the form
    data, whatever the stored errors are. *)
Lemma server_isValid_reinvokes_validator
    (validator : gmap (list N) val → bool * list Validators.AjvError)
    (ctx : Server.Context) :
  fst (Server.isValid validator ctx) = fst (validator (Server.formData ctx)).
Proof.
  unfold Server.isValid. destruct (validator _) as [[] errs]; done.
Qed.

(** On invalid data it replaces the stored errors by the errors of this
    run. *)
Lemma server_isValid_overwrites_errors
    (validator : gmap (list N) val → bool * list Validators.AjvError)
    (ctx : Server.Context) (errs : list Validators.AjvError) :
  validator (Server.formData ctx) = (false, errs) →
  Server.errors (snd (Server.isValid validator ctx))
  = fold_left
      (λ errors err,
         <[Server.error_key err
           := from_option VStr VUndefined (Validators.message err)]> errors)
      errs ∅.
Proof. unfold Server.isValid. intros ->. done. Qed.

(** C8, amended. The guard of [formMachineFactory.js] is a function of the
    stored errors, true exactly when there are none. The guard of the
    server runs the validator on the form data and returns its verdict; on
    valid data it leaves the context as it is, and on invalid data it
    replaces the errors of the context by the map of the errors of this run
    and leaves every other member as it is. *)
Theorem C8_factory_guard_reads_server_guard_validates
    (fctx : FormMachine.Ctx.t) (ev : FormMachine.Event)
    (validator : gmap (list N) val → bool * list Validators.AjvError)
    (ctx : Server.Context) :
  (FormMachine.isValid fctx ev = true ↔ FormMachine.Ctx.errors fctx = ∅)
  ∧ fst (Server.isValid validator ctx) = fst (validator (Server.formData ctx))
  ∧ snd (Server.isValid validator ctx)
    = if fst (validator (Server.formData ctx)) then ctx
      else {| Server.formId := Server.formId ctx;
              Server.formData := Server.formData ctx;
              Server.errors :=
                ServerRest.error_map (snd (validator (Server.formData ctx)));
              Server.serverErrors := Server.serverErrors ctx;
              Server.isSubmitting := Server.isSubmitting ctx;
              Server.result := Server.result ctx |}.
Proof.
  split; [|split].
  - unfold FormMachine.isValid. rewrite bool_decide_eq_true, size_dom.
    apply map_size_empty_iff.
  - apply server_isValid_reinvokes_validator.
  - unfold Server.isValid. destruct (validator _) as [[] errs]; done.
Qed.

(** C8, as stated, fails on the server. Evaluating its guard [isValid] on a
    session of [createUser] without errors whose form is empty says no and
    leaves a context whose errors have an entry for each required field: the
    guard runs the validator and writes to the context. *)
Lemma C8_counterexample :
  Server.errors empty_session = ∅
  ∧ Server.isValid sample_validator empty_session
    = (false,
       {| Server.formId := VStr (js "createUser");
          Server.formData := ∅;
          Server.errors :=
            {[ js "username" := VStr (js "must have required property 'username'");
               js "email" := VStr (js "must have required property 'email'");
               js "role" := VStr (js "must have required property 'role'") ]};
          Server.serverErrors := ∅;
          Server.isSubmitting := false;
          Server.result := VNull |})
  ∧ Server.errors (snd (Server.isValid sample_validator empty_session))
    ≠ Server.errors empty_session.
Proof.
  split; [reflexivity|]. split; [vm_compute; reflexivity|].
  intros H. apply (f_equal (λ m, m !! js "username")) in H.
  vm_compute in H. discriminate H.
Qed.

(** ** The machine of [interpretedFormMachine.js] *)

Module InterpretedMachineFacts.
Import InterpretedMachine.
Section Facts.
Variable StringToNumber : jsstring → float.
Variable NumberToString : float → jsstring.
Variable formJson : list Field.t.

Abbreviation transition := (transition StringToNumber NumberToString formJson).
Abbreviation states := (states StringToNumber NumberToString formJson).
Abbreviation validate :=
  (λ form,
     Interpreted.validateFormValues StringToNumber NumberToString form formJson).

Lemma noErrors_iff (ctx : Ctx.t) (ev : Event) :
  noErrors ctx ev = true ↔ Ctx.errors ctx = ∅.
Proof.
  unfold noErrors. rewrite bool_decide_eq_true, size_dom.
  apply map_size_empty_iff.
Qed.


Lemma interpreted_change_ignored_while_submitting
    (ctx : Ctx.t) (name : jsstring) (value : val) :
  transition (submitting, ctx) (CHANGE name value) = Some (Normal (submitting, ctx)).
Proof. reflexivity. Qed.

(** [CHANGE] in [editing]: as in the factory machine for a name that is not
    the empty string; with the empty name the two actions return early and
    the context stays as it is. *)
Lemma interpreted_change (ctx : Ctx.t) (name : jsstring) (value : val) :
  transition (editing, ctx) (CHANGE name value)
  = Some (Normal (editing,
      if truthy_string name
      then Ctx.mk (<[name := value]> (Ctx.form ctx)) (delete name (Ctx.errors ctx))
             (Ctx.submitting ctx) (Ctx.result ctx) (Ctx.lastErrorMessage ctx)
      else ctx)).
Proof.
  unfold InterpretedMachine.transition, send, take. cbn.
  destruct name; reflexivity.
Qed.

(** A rejection leads to the state [failure], with the message kept. *)
Lemma interpreted_rejection (ctx : Ctx.t) (msg : jsstring) :
  truthy_string msg = true →
  transition (submitting, ctx) (error_platform (VObj [(js "message", VStr msg)]))
  = Some (Normal (failure,
      Ctx.mk (Ctx.form ctx) (Ctx.errors ctx) false (Ctx.result ctx) (VStr msg))).
Proof.
  intros Hm. destruct msg as [|c msg]; [done|]. reflexivity.
Qed.

End Facts.
End InterpretedMachineFacts.

(** ** The AJV adapter *)

(** The members of [Object.prototype] are functions, and [__proto__] is an
    object: as conditions they hold. *)
Lemma inherited_truthy (k : jsstring) (v : val) :
  inherited k = Some v → truthy v = true.
Proof.
  unfold inherited. destruct (bool_decide (k = proto_key)); [by intros [= <-]|].
  intros Hk. apply elem_of_list_to_map_2 in Hk.
  unfold Object_prototype in Hk.
  repeat (apply elem_of_cons in Hk as [[= _ ->] | Hk]; [done|]).
  by apply elem_of_nil in Hk.
Qed.

Module ValidatorsFacts.
Import Validators.
Section Facts.
Variable NumberToString : float → jsstring.
Variable ajv_compile : JsonSchema → completion Validate.

Abbreviation validateWithAJV := (validateWithAJV NumberToString ajv_compile).
Abbreviation record_error := (record_error NumberToString).
Abbreviation formatErrorMessage := (formatErrorMessage NumberToString).

(** The outcome, once the schema is compiled and the validator has run. *)
Lemma validateWithAJV_runs (formValues : gmap (list N) val)
    (formJson : list Field.t) (schema : JsonSchema) (validate : Validate)
    (valid : bool) (errors : option (list AjvError)) :
  formJsonToValidationSchema formJson = Normal schema →
  ajv_compile schema = Normal validate →
  validate formValues = (valid, errors) →
  validateWithAJV formValues formJson
  = Normal (if valid then ∅
            else fold_left (record_error formJson) (default [] errors) ∅).
Proof.
  intros Hs Hc Hv. unfold Validators.validateWithAJV. rewrite Hs. simpl.
  rewrite Hc. simpl. rewrite Hv. by destruct valid.
Qed.

(** The adapter has no rule of its own: data the validator accepts has an
    empty outcome. *)
Lemma validateWithAJV_accepts (formValues : gmap (list N) val)
    (formJson : list Field.t) (schema : JsonSchema) (validate : Validate)
    (errors : option (list AjvError)) :
  formJsonToValidationSchema formJson = Normal schema →
  ajv_compile schema = Normal validate →
  validate formValues = (true, errors) →
  validateWithAJV formValues formJson = Normal ∅.
Proof. intros Hs Hc Hv. by rewrite (validateWithAJV_runs _ _ _ _ _ _ Hs Hc Hv). Qed.

(** It throws what the compilation of the schema throws, and nothing else. *)
Lemma validateWithAJV_throws (formValues : gmap (list N) val)
    (formJson : list Field.t) (e : exn) :
  validateWithAJV formValues formJson = Throw e
  ↔ formJsonToValidationSchema formJson = Throw e
    ∨ ∃ schema, formJsonToValidationSchema formJson = Normal schema
                ∧ ajv_compile schema = Throw e.
Proof.
  unfold Validators.validateWithAJV.
  destruct (formJsonToValidationSchema formJson) as [schema|e'] eqn:Hs; simpl.
  - destruct (ajv_compile schema) as [validate|e'] eqn:Hc; simpl.
    + destruct (validate formValues) as [[] errors]; split; try done;
        intros [H|(schema' & [= <-] & H)]; congruence.
    + split; [intros [= ->]; eauto|].
      intros [H|(schema' & [= <-] & H)]; congruence.
  - split; [intros [= ->]; eauto|].
    intros [H|(schema' & H & _)]; congruence.
Qed.

Lemma app_truthy (s t : jsstring) :
  truthy_string t = true → truthy_string (s ++ t) = true.
Proof. destruct s, t; done. Qed.

(** Every message is a non-empty string. *)
Lemma formatErrorMessage_truthy (err : AjvError) (formJson : list Field.t) :
  truthy_string (formatErrorMessage err formJson) = true.
Proof.
  unfold Validators.formatErrorMessage.
  repeat case_match; try done;
    repeat (apply app_truthy; try done).
Qed.

(** A turn of the loop touches the entry of its own key only. *)
Lemma record_error_other (formJson : list Field.t)
    (errors : gmap (list N) (list N)) (err : AjvError) (k : jsstring) :
  error_field err ≠ Some k →
  record_error formJson errors err !! k = errors !! k.
Proof.
  intros Hk. unfold Validators.record_error.
  destruct (error_field err) as [field|]; [|done].
  destruct (_ && _); [|done]. apply lookup_set_key_ne. congruence.
Qed.

(** An entry, once written, stays as it is. *)
Lemma record_error_keeps (formJson : list Field.t)
    (errors : gmap (list N) (list N)) (err : AjvError) (k m : jsstring) :
  errors !! k = Some m → truthy_string m = true →
  record_error formJson errors err !! k = Some m.
Proof.
  intros Hk Hm.
  destruct (decide (error_field err = Some k)) as [He|He].
  - unfold Validators.record_error, has_entry. rewrite He, Hk, Hm. simpl.
    by rewrite andb_false_r.
  - by rewrite record_error_other.
Qed.

Lemma fold_record_error_keeps (formJson : list Field.t) (errs : list AjvError)
    (errors : gmap (list N) (list N)) (k m : jsstring) :
  errors !! k = Some m → truthy_string m = true →
  fold_left (record_error formJson) errs errors !! k = Some m.
Proof.
  revert errors. induction errs as [|err rest IH]; intros errors Hk Hm; simpl.
  - done.
  - apply IH; [|done]. by apply record_error_keeps.
Qed.

(** The first error of a key that can be recorded writes its entry. *)
Lemma record_error_fresh (formJson : list Field.t)
    (errors : gmap (list N) (list N)) (err : AjvError) (k : jsstring) :
  errors !! k = None → error_field err = Some k → recordable k = true →
  record_error formJson errors err !! k = Some (formatErrorMessage err formJson).
Proof.
  intros Hnone Hk Hrec. apply andb_true_iff in Hrec as [Hkt Hinh].
  apply bool_decide_eq_true in Hinh.
  unfold Validators.record_error, has_entry. rewrite Hk, Hkt, Hnone, Hinh. simpl.
  apply lookup_set_key_eq. by apply not_inherited_not_proto.
Qed.

(** No error writes an entry under a key that cannot be recorded. *)
Lemma record_error_unrecordable (formJson : list Field.t)
    (errors : gmap (list N) (list N)) (err : AjvError) (k : jsstring) :
  errors !! k = None → recordable k = false →
  record_error formJson errors err !! k = None.
Proof.
  intros Hnone Hrec.
  destruct (decide (error_field err = Some k)) as [He|He];
    [|by rewrite record_error_other].
  unfold Validators.record_error, has_entry. rewrite He, Hnone.
  apply andb_false_iff in Hrec as [Hkt|Hinh].
  - by rewrite Hkt.
  - apply bool_decide_eq_false in Hinh.
    destruct (inherited k) as [v|] eqn:Hv; [|done].
    simpl. rewrite (inherited_truthy k v Hv). simpl. by rewrite andb_false_r.
Qed.

(** The entry of a key is the message of the first error filed under it,
    when the key can be recorded, and there is none otherwise. *)
Lemma fold_record_error_lookup (formJson : list Field.t)
    (errs : list AjvError) (errors : gmap (list N) (list N)) (k : jsstring) :
  errors !! k = None →
  fold_left (record_error formJson) errs errors !! k
  = if recordable k
    then (λ err, formatErrorMessage err formJson) <$> head (filed_at k errs)
    else None.
Proof.
  intros Hnone. revert errors Hnone.
  induction errs as [|e rest IH]; intros errors Hnone; simpl.
  - rewrite Hnone. by destruct (recordable k).
  - destruct (recordable k) eqn:Hrec.
    + unfold filed_at. rewrite filter_cons.
      destruct (decide (error_field e = Some k)) as [He|He].
      * simpl. apply fold_record_error_keeps; [|apply formatErrorMessage_truthy].
        by apply record_error_fresh.
      * apply IH. by rewrite record_error_other.
    + apply IH. by apply record_error_unrecordable.
Qed.

End Facts.
End ValidatorsFacts.

(** ** The two validators and the two machines, side by side *)










(** ** The compiler of [interpretedFormMachine.js] *)

(** It has no failure path: a [select] without options compiles to an empty
    [enum]. *)
Example interpreted_select_without_options :
  properties (fst (Interpreted.formJsonToJsonSchema [role_field_without_options]))
  = {[ js "role" := {[ js "type" := VStr (js "string");
                       js "enum" := VArr [];
                       js "title" := VStr (js "Role") ]} ]}.
Proof. vm_compute. reflexivity. Qed.

(** It tests [minLength] for truthiness as the other two do. *)
Example interpreted_zero_minLength :
  properties (fst (Interpreted.formJsonToJsonSchema [zero_minLength_field]))
  = {[ js "nick" := {[ js "type" := VStr (js "string") ]} ]}.
Proof. vm_compute. reflexivity. Qed.

Example interpreted_schema_of_role :
  Interpreted.formJsonToJsonSchema [role_field]
  = ({| schema_title := Some (js "Create User");
        schema_type := js "object";
        properties :=
          {[ js "role" := {[ js "type" := VStr (js "string");
                             js "enum" := VArr [VStr (js "user"); VStr (js "admin")];
                             js "default" := VStr (js "user");
                             js "title" := VStr (js "Role") ]} ]};
        properties_proto := None;
        schema_required := [js "role"] |},
     {| Interpreted.ui_own :=
          {[ js "role" :=
               {[ js "ui:options" :=
                    VObj [(js "enumOptions",
                           VArr [VObj [(js "value", VStr (js "user"));
                                       (js "label", VStr (js "User"))];
                                 VObj [(js "value", VStr (js "admin"));
                                       (js "label", VStr (js "Admin"))]])] ]} ]};
        Interpreted.ui_proto := None |}).
Proof. vm_compute. reflexivity. Qed.

(** * Further properties *)

(** ** The loop of the compilers *)

Section CompilerLoopFacts.
Variable prop_of : Field.t → completion SchemaProp.

Lemma loop_frame formJson schema schema' :
  for_of formJson (add_with prop_of) schema = Normal schema' →
  schema_required schema'
  = schema_required schema
    ++ (Field.name <$> filter (λ f, Field.required f = true) formJson)
  ∧ schema_type schema' = schema_type schema
  ∧ schema_title schema' = schema_title schema.
Proof.
  revert schema. induction formJson as [|f rest IH]; intros schema; simpl.
  - intros [= <-]. by rewrite app_nil_r.
  - destruct (prop_of f) as [prop|e] eqn:Hf.
    + rewrite (add_with_normal _ _ _ _ Hf). simpl. intros Hrun.
      destruct (IH _ Hrun) as (Hreq & Hty & Hti). simpl in *.
      rewrite Hreq, Hty, Hti. split; [|done].
      rewrite filter_cons.
      destruct (decide (Field.required f = true)) as [E|E].
      * rewrite E. by rewrite fmap_cons, <- app_assoc.
      * apply not_true_is_false in E. rewrite E. done.
    + rewrite (add_with_throw _ _ _ _ Hf). done.
Qed.

(** The property of a name other than [__proto__] is the one of the last
    field of that name. *)
Lemma loop_last_wins formJson schema schema' k :
  for_of formJson (add_with prop_of) schema = Normal schema' →
  k ≠ proto_key →
  match last (named k formJson) with
  | Some f => ∃ prop, prop_of f = Normal prop ∧ properties schema' !! k = Some prop
  | None => properties schema' !! k = properties schema !! k
  end.
Proof.
  intros Hrun Hproto. revert schema Hrun.
  induction formJson as [|f rest IH]; intros schema; simpl.
  - intros [= <-]. done.
  - destruct (prop_of f) as [prop|e] eqn:Hf.
    + rewrite (add_with_normal _ _ _ _ Hf). simpl. intros Hrun.
      specialize (IH _ Hrun). unfold named in *. rewrite filter_cons.
      destruct (decide (Field.name f = k)) as [Hk|Hk].
      * rewrite last_cons.
        destruct (last (filter _ rest)) as [g|]; [done|].
        exists prop. split; [done|]. rewrite IH. simpl. rewrite <- Hk.
        apply lookup_set_key_eq. by rewrite Hk.
      * destruct (last (filter _ rest)) as [g|]; [done|].
        rewrite IH. simpl. by apply lookup_set_key_ne.
    + rewrite (add_with_throw _ _ _ _ Hf). done.
Qed.

(** No field gives the object a property [__proto__] of its own. *)
Lemma loop_proto_key formJson schema schema' :
  for_of formJson (add_with prop_of) schema = Normal schema' →
  properties schema' !! proto_key = properties schema !! proto_key.
Proof.
  revert schema. induction formJson as [|f rest IH]; intros schema; simpl.
  - intros [= <-]. done.
  - destruct (prop_of f) as [prop|e] eqn:Hf.
    + rewrite (add_with_normal _ _ _ _ Hf). simpl. intros Hrun.
      rewrite (IH _ Hrun). simpl. apply lookup_set_key_proto.
    + rewrite (add_with_throw _ _ _ _ Hf). done.
Qed.

(** The last field named [__proto__] gives the object its prototype. *)
Lemma loop_prototype formJson schema schema' :
  for_of formJson (add_with prop_of) schema = Normal schema' →
  match last (named proto_key formJson) with
  | Some f => ∃ prop, prop_of f = Normal prop ∧ properties_proto schema' = Some prop
  | None => properties_proto schema' = properties_proto schema
  end.
Proof.
  revert schema. induction formJson as [|f rest IH]; intros schema; simpl.
  - intros [= <-]. done.
  - destruct (prop_of f) as [prop|e] eqn:Hf.
    + rewrite (add_with_normal _ _ _ _ Hf). simpl. intros Hrun.
      specialize (IH _ Hrun). unfold named in *. rewrite filter_cons.
      destruct (decide (Field.name f = proto_key)) as [Hk|Hk].
      * rewrite last_cons.
        destruct (last (filter _ rest)) as [g|]; [done|].
        exists prop. split; [done|]. rewrite IH. simpl.
        by rewrite (bool_decide_eq_true_2 _ Hk).
      * destruct (last (filter _ rest)) as [g|]; [done|].
        rewrite IH. simpl. by rewrite (bool_decide_eq_false_2 _ Hk).
    + rewrite (add_with_throw _ _ _ _ Hf). done.
Qed.

(** The loop throws [e] exactly when some field throws [e], given that
    the fields throw nothing else. *)
Lemma loop_throws_iff formJson schema e :
  (∀ f e', prop_of f = Throw e' → e' = e) →
  for_of formJson (add_with prop_of) schema = Throw e
  ↔ Exists (λ f, prop_of f = Throw e) formJson.
Proof.
  intros Honly. rewrite Exists_exists. split.
  - apply loop_thrown.
  - intros (f & Hin & Hf).
    destruct (loop_throw prop_of formJson schema f e Hin Hf) as [e' He'].
    destruct (loop_thrown _ _ _ _ He') as (g & _ & Hg).
    by rewrite <- (Honly g e' Hg).
Qed.

End CompilerLoopFacts.

(** ** When the compilers throw *)

Lemma case_of_singleton t c : case_of t [c] = true ↔ t = js c.
Proof.
  unfold case_of. rewrite bool_decide_eq_true. simpl.
  apply list_elem_of_singleton.
Qed.

Lemma case_of_disjoint t cases cases' :
  case_of t cases = true →
  forallb (λ c, negb (case_of (js c) cases')) cases = true →
  case_of t cases' = false.
Proof.
  unfold case_of at 1. rewrite bool_decide_eq_true, forallb_forall.
  intros Hin Hall. apply list_elem_of_fmap in Hin as (c & -> & Hc).
  apply negb_true_iff, Hall, list_elem_of_In, Hc.
Qed.

Lemma shared_prop_of_throws (f : Field.t) :
  shared_prop_of f = Throw TypeError
  ↔ Field.type f = js "select" ∧ Field.options f = None.
Proof.
  split.
  - intros Hthrow.
    destruct (case_of (Field.type f) ["select"]) eqn:Hsel.
    + apply case_of_singleton in Hsel. split; [done|].
      destruct (Field.options f) as [os|] eqn:Hos; [|done].
      destruct (shared_prop_of_total f) as [prop Hp]; [|congruence].
      intros _. rewrite Hos. eauto.
    + destruct (shared_prop_of_total f) as [prop Hp]; [|congruence].
      intros Ht. congruence.
  - intros [Ht Ho]. unfold shared_prop_of, Shared.prop_of_type.
    rewrite Ht, Ho. reflexivity.
Qed.

Lemma validators_prop_of_field_throws (f : Field.t) :
  Validators.prop_of_field f = Throw TypeError
  ↔ Field.type f = js "select" ∧ Field.options f = None.
Proof.
  split.
  - intros Hthrow.
    destruct (case_of (Field.type f) ["select"]) eqn:Hsel.
    + apply case_of_singleton in Hsel. split; [done|].
      destruct (Field.options f) as [os|] eqn:Hos; [|done].
      destruct (validators_prop_of_field_total f) as [prop Hp]; [|congruence].
      intros _. rewrite Hos. eauto.
    + destruct (validators_prop_of_field_total f) as [prop Hp]; [|congruence].
      intros Ht. congruence.
  - intros [Ht Ho]. unfold Validators.prop_of_field.
    rewrite Ht, Ho. reflexivity.
Qed.

Lemma options_map_throws {B} options (fn : FieldOption → B) (e : exn) :
  options_map options fn = Throw e → e = TypeError.
Proof. destruct options; simpl; congruence. Qed.

(** A missing [options] is all the two [switch]es can fail on. *)
Lemma shared_prop_of_throws_only (f : Field.t) (e : exn) :
  shared_prop_of f = Throw e → e = TypeError.
Proof.
  unfold shared_prop_of, Shared.prop_of_type.
  destruct (case_of _ ["string"; "text"; "textarea"]); [done|].
  destruct (case_of _ ["email"]); [done|].
  destruct (case_of _ ["number"; "integer"]); [done|].
  destruct (case_of _ ["select"]).
  - destruct (Field.options f); simpl; congruence.
  - destruct (case_of _ ["boolean"]); [done|].
    destruct (case_of _ ["date"]); done.
Qed.

Lemma validators_prop_of_field_throws_only (f : Field.t) (e : exn) :
  Validators.prop_of_field f = Throw e → e = TypeError.
Proof.
  unfold Validators.prop_of_field.
  destruct (case_of _ ["string"; "email"; "password"]); [done|].
  destruct (case_of _ ["number"; "integer"]); [done|].
  destruct (case_of _ ["select"]).
  - destruct (Field.options f); simpl; congruence.
  - destruct (case_of _ ["boolean"]); done.
Qed.

Lemma exists_thrower (prop_of : Field.t → completion SchemaProp) formJson :
  (∀ f, prop_of f = Throw TypeError
        ↔ Field.type f = js "select" ∧ Field.options f = None) →
  Exists (λ f, prop_of f = Throw TypeError) formJson
  ↔ Exists (λ f, Field.type f = js "select" ∧ Field.options f = None) formJson.
Proof.
  intros Hiff. rewrite !Exists_exists.
  split; intros (f & Hin & Hf); exists f; (split; [done|]); by apply Hiff.
Qed.

(** X1. Each of the two compilers throws a [TypeError] exactly on the field
    lists that have a [select] field without [options]; on every other list
    it returns. *)
Theorem compilers_throw_iff_select_without_options
    (formJson : list Field.t) (title : jsstring) :
  (Shared.formJsonToJsonSchema formJson title = Throw TypeError
   ↔ Exists (λ f, Field.type f = js "select" ∧ Field.options f = None) formJson)
  ∧ (Validators.formJsonToValidationSchema formJson = Throw TypeError
     ↔ Exists (λ f, Field.type f = js "select" ∧ Field.options f = None) formJson).
Proof.
  split.
  - rewrite shared_compile_loop.
    rewrite <- (exists_thrower shared_prop_of) by apply shared_prop_of_throws.
    apply loop_throws_iff, shared_prop_of_throws_only.
  - rewrite validators_compile_loop.
    rewrite <- (exists_thrower Validators.prop_of_field)
      by apply validators_prop_of_field_throws.
    apply loop_throws_iff, validators_prop_of_field_throws_only.
Qed.

(** ** What the compiled schema holds *)

Lemma set_num_frame (c : bool) (k : string) (v : option float)
    (prop : SchemaProp) (k' : jsstring) :
  js k ≠ k' → set_num c k v prop !! k' = prop !! k'.
Proof.
  intros Hk. unfold set_num. destruct v, c; rewrite ?lookup_insert_ne; done.
Qed.

Lemma set_str_frame (c : bool) (k : string) (v : option jsstring)
    (prop : SchemaProp) (k' : jsstring) :
  js k ≠ k' → set_str c k v prop !! k' = prop !! k'.
Proof.
  intros Hk. unfold set_str. destruct v, c; rewrite ?lookup_insert_ne; done.
Qed.

Ltac lookup_type :=
  repeat first
    [ rewrite set_num_frame by other_key
    | rewrite set_str_frame by other_key
    | rewrite lookup_insert_eq
    | rewrite lookup_insert_ne by other_key ].

Ltac disjoint_kinds H :=
  match goal with
  | |- context [case_of ?t ?l] =>
      rewrite (case_of_disjoint t _ l H) by (vm_compute; reflexivity)
  end.

Lemma shared_prop_type (f : Field.t) (prop : SchemaProp) :
  shared_prop_of f = Normal prop →
  prop !! js "type" = Some (VStr (json_type_of (Field.type f))).
Proof.
  unfold shared_prop_of, Shared.prop_of_type, json_type_of.
  destruct (case_of _ ["string"; "text"; "textarea"]) eqn:H1.
  { intros [= <-]. rewrite (annotate_frame f _ "type") by apply list_elem_of_here.
    repeat disjoint_kinds H1. by lookup_type. }
  destruct (case_of _ ["email"]) eqn:H2.
  { intros [= <-]. rewrite (annotate_frame f _ "type") by apply list_elem_of_here.
    repeat disjoint_kinds H2. by lookup_type. }
  destruct (case_of _ ["number"; "integer"]) eqn:H3.
  { intros [= <-]. rewrite (annotate_frame f _ "type") by apply list_elem_of_here.
    by lookup_type. }
  destruct (case_of _ ["select"]) eqn:H4.
  { destruct (Field.options f) as [os|]; simpl; [|done].
    intros [= <-]. rewrite (annotate_frame f _ "type") by apply list_elem_of_here.
    repeat disjoint_kinds H4. by lookup_type. }
  destruct (case_of _ ["boolean"]) eqn:H5.
  { intros [= <-]. rewrite (annotate_frame f _ "type") by apply list_elem_of_here.
    by lookup_type. }
  destruct (case_of _ ["date"]) eqn:H6;
    intros [= <-]; rewrite (annotate_frame f _ "type") by apply list_elem_of_here;
    by lookup_type.
Qed.

Lemma validators_prop_type (f : Field.t) (prop : SchemaProp) :
  Validators.prop_of_field f = Normal prop →
  prop !! js "type" = Some (VStr (json_type_of (Field.type f))).
Proof.
  unfold Validators.prop_of_field, json_type_of.
  destruct (case_of _ ["string"; "email"; "password"]) eqn:H1.
  { intros [= <-]. repeat disjoint_kinds H1. by lookup_type. }
  destruct (case_of _ ["number"; "integer"]) eqn:H3.
  { intros [= <-]. by lookup_type. }
  destruct (case_of _ ["select"]) eqn:H4.
  { destruct (Field.options f) as [os|]; simpl; [|done].
    intros [= <-]. repeat disjoint_kinds H4. by lookup_type. }
  destruct (case_of _ ["boolean"]) eqn:H5; intros [= <-]; by lookup_type.
Qed.

Lemma last_named_elem (k : jsstring) (formJson : list Field.t) (f : Field.t) :
  last (named k formJson) = Some f → f ∈ formJson ∧ Field.name f = k.
Proof.
  intros Hl. apply last_Some_elem_of in Hl.
  apply list_elem_of_filter in Hl. tauto.
Qed.

(** X2. When the two compilers return, the [required] list of each schema
    holds the names of the required fields in the order of the field list,
    and the schema is of type [object]. *)
Theorem compiled_required_in_field_order
    (formJson : list Field.t) (title : jsstring) (shared validators : JsonSchema) :
  Shared.formJsonToJsonSchema formJson title = Normal shared →
  Validators.formJsonToValidationSchema formJson = Normal validators →
  schema_required shared = required_names formJson
  ∧ schema_required validators = required_names formJson
  ∧ schema_type shared = js "object"
  ∧ schema_type validators = js "object".
Proof.
  rewrite shared_compile_loop, validators_compile_loop. intros Hs Hv.
  apply loop_frame in Hs as (Hs1 & Hs2 & _).
  apply loop_frame in Hv as (Hv1 & Hv2 & _).
  done.
Qed.

(** X3. When the two compilers return, the properties of each schema are
    keyed by the names of the fields other than [__proto__], and a name that
    several fields share gets the property of the last of them. The object
    has no property [__proto__] of its own: the property of the last field
    of that name becomes its prototype, and without such a field the
    prototype stays [Object.prototype]. *)
Theorem compiled_property_of_last_field
    (formJson : list Field.t) (title : jsstring) (shared validators : JsonSchema)
    (k : jsstring) :
  Shared.formJsonToJsonSchema formJson title = Normal shared →
  Validators.formJsonToValidationSchema formJson = Normal validators →
  if bool_decide (k = proto_key)
  then
    properties shared !! k = None ∧ properties validators !! k = None
    ∧ match last (named k formJson) with
      | Some f =>
          (∃ prop, Shared.prop_of_type f = Normal prop
                   ∧ properties_proto shared = Some (Shared.annotate f prop))
          ∧ (∃ prop, Validators.prop_of_field f = Normal prop
                     ∧ properties_proto validators = Some prop)
      | None => properties_proto shared = None ∧ properties_proto validators = None
      end
  else
    match last (named k formJson) with
    | Some f =>
        (∃ prop, Shared.prop_of_type f = Normal prop
                 ∧ properties shared !! k = Some (Shared.annotate f prop))
        ∧ (∃ prop, Validators.prop_of_field f = Normal prop
                   ∧ properties validators !! k = Some prop)
    | None => properties shared !! k = None ∧ properties validators !! k = None
    end.
Proof.
  rewrite shared_compile_loop, validators_compile_loop. intros Hs Hv.
  destruct (bool_decide (k = proto_key)) eqn:Hk.
  - apply bool_decide_eq_true in Hk as ->.
    rewrite (loop_proto_key _ _ _ _ Hs), (loop_proto_key _ _ _ _ Hv).
    split; [done|]. split; [done|].
    apply loop_prototype in Hs. apply loop_prototype in Hv.
    destruct (last (named proto_key formJson)) as [f|]; [|done].
    split; [|done]. destruct Hs as (prop & Hp & Hl).
    unfold shared_prop_of in Hp.
    destruct (Shared.prop_of_type f) as [prop0|] eqn:Hp0; [|done].
    injection Hp as <-. eauto.
  - apply bool_decide_eq_false in Hk.
    apply (loop_last_wins _ _ _ _ k) in Hs; [|done].
    apply (loop_last_wins _ _ _ _ k) in Hv; [|done].
    destruct (last (named k formJson)) as [f|]; [|done].
    split; [|done]. destruct Hs as (prop & Hp & Hl).
    unfold shared_prop_of in Hp.
    destruct (Shared.prop_of_type f) as [prop0|] eqn:Hp0; [|done].
    injection Hp as <-. eauto.
Qed.

(** X4. Every property of a compiled schema comes from a field of that name
    and has a [type]: the kind of the field for [number] and [integer],
    [boolean] for [boolean], [string] for every other kind. The two
    compilers agree on it. *)
Theorem compiled_properties_are_typed
    (formJson : list Field.t) (title : jsstring) (shared validators : JsonSchema)
    (k : jsstring) :
  Shared.formJsonToJsonSchema formJson title = Normal shared →
  Validators.formJsonToValidationSchema formJson = Normal validators →
  is_Some (properties shared !! k) →
  ∃ f sprop vprop,
    f ∈ formJson ∧ Field.name f = k
    ∧ properties shared !! k = Some sprop
    ∧ properties validators !! k = Some vprop
    ∧ sprop !! js "type" = Some (VStr (json_type_of (Field.type f)))
    ∧ vprop !! js "type" = Some (VStr (json_type_of (Field.type f)))
    ∧ json_type_of (Field.type f)
      ∈ [js "string"; js "number"; js "integer"; js "boolean"].
Proof.
  rewrite shared_compile_loop, validators_compile_loop. intros Hs Hv Hsome.
  assert (Hproto : k ≠ proto_key).
  { intros ->. rewrite (loop_proto_key _ _ _ _ Hs) in Hsome. simpl in Hsome.
    rewrite lookup_empty in Hsome. by destruct Hsome. }
  apply (loop_last_wins _ _ _ _ k) in Hs; [|done].
  apply (loop_last_wins _ _ _ _ k) in Hv; [|done].
  destruct (last (named k formJson)) as [f|] eqn:Hlast.
  - destruct Hs as (sprop & Hsp & Hsl). destruct Hv as (vprop & Hvp & Hvl).
    apply last_named_elem in Hlast as [Hin Hk].
    exists f, sprop, vprop. repeat split; try done.
    + by apply shared_prop_type.
    + by apply validators_prop_type.
    + unfold json_type_of.
      destruct (case_of _ ["number"; "integer"]) eqn:Hn.
      * unfold case_of in Hn. apply bool_decide_eq_true in Hn. simpl in Hn.
        apply elem_of_cons in Hn as [-> | Hn]; [set_solver|].
        apply list_elem_of_singleton in Hn as ->. set_solver.
      * destruct (case_of _ ["boolean"]); set_solver.
  - rewrite Hs in Hsome. simpl in Hsome. rewrite lookup_empty in Hsome.
    by destruct Hsome.
Qed.

Lemma compiled_required_in_field_order_witness :
  ∃ shared validators,
    Shared.formJsonToJsonSchema createUser_formJson (js "Create User")
    = Normal shared
    ∧ Validators.formJsonToValidationSchema createUser_formJson = Normal validators
    ∧ schema_required shared = [js "username"; js "email"; js "role"]
    ∧ schema_required validators = [js "username"; js "email"; js "role"].
Proof.
  destruct (Shared.formJsonToJsonSchema createUser_formJson (js "Create User"))
    as [s|e] eqn:Hs; [|vm_compute in Hs; discriminate Hs].
  destruct (Validators.formJsonToValidationSchema createUser_formJson)
    as [v|e] eqn:Hv; [|vm_compute in Hv; discriminate Hv].
  exists s, v. split; [done|]. split; [done|].
  destruct (compiled_required_in_field_order createUser_formJson
              (js "Create User") s v Hs Hv) as (H1 & H2 & _).
  split; [exact H1 | exact H2].
Defined.

(** Two fields named [username]: the schema has the property of the
    second. *)
Lemma compiled_property_of_last_field_witness :
  ∃ shared validators,
    Shared.formJsonToJsonSchema [username_field; username_again_field] (js "Form")
    = Normal shared
    ∧ Validators.formJsonToValidationSchema [username_field; username_again_field]
      = Normal validators
    ∧ (∃ prop, Shared.prop_of_type username_again_field = Normal prop
               ∧ properties shared !! js "username"
                 = Some (Shared.annotate username_again_field prop))
    ∧ (∃ prop, Validators.prop_of_field username_again_field = Normal prop
               ∧ properties validators !! js "username" = Some prop).
Proof.
  destruct (Shared.formJsonToJsonSchema [username_field; username_again_field]
              (js "Form")) as [s|e] eqn:Hs; [|vm_compute in Hs; discriminate Hs].
  destruct (Validators.formJsonToValidationSchema
              [username_field; username_again_field])
    as [v|e] eqn:Hv; [|vm_compute in Hv; discriminate Hv].
  exists s, v. split; [done|]. split; [done|].
  exact (compiled_property_of_last_field [username_field; username_again_field]
           (js "Form") s v (js "username") Hs Hv).
Defined.

Lemma compiled_properties_are_typed_witness :
  ∃ shared validators f sprop vprop,
    Shared.formJsonToJsonSchema createUser_formJson (js "Create User")
    = Normal shared
    ∧ Validators.formJsonToValidationSchema createUser_formJson = Normal validators
    ∧ f ∈ createUser_formJson ∧ Field.name f = js "age"
    ∧ properties shared !! js "age" = Some sprop
    ∧ properties validators !! js "age" = Some vprop
    ∧ sprop !! js "type" = Some (VStr (json_type_of (Field.type f)))
    ∧ vprop !! js "type" = Some (VStr (json_type_of (Field.type f)))
    ∧ json_type_of (Field.type f)
      ∈ [js "string"; js "number"; js "integer"; js "boolean"].
Proof.
  destruct (Shared.formJsonToJsonSchema createUser_formJson (js "Create User"))
    as [s|e] eqn:Hs; [|vm_compute in Hs; discriminate Hs].
  destruct (Validators.formJsonToValidationSchema createUser_formJson)
    as [v|e] eqn:Hv; [|vm_compute in Hv; discriminate Hv].
  exists s, v.
  destruct (compiled_properties_are_typed createUser_formJson (js "Create User")
              s v (js "age") Hs Hv) as (f & sprop & vprop & H).
  - vm_compute in Hs. injection Hs as <-. vm_compute. eauto.
  - exists f, sprop, vprop. split; [done|]. split; [done|]. exact H.
Defined.

(** ** The compiler of [interpretedFormMachine.js], generally *)

Lemma last_named_cons (k : jsstring) (f : Field.t) (rest : list Field.t) :
  last (named k (f :: rest))
  = match last (named k rest) with
    | Some g => Some g
    | None => if bool_decide (Field.name f = k) then Some f else None
    end.
Proof.
  unfold named. rewrite filter_cons.
  destruct (decide (Field.name f = k)) as [Hk|Hk].
  - rewrite last_cons, (bool_decide_eq_true_2 _ Hk). done.
  - rewrite (bool_decide_eq_false_2 _ Hk). by destruct (last _).
Qed.

Lemma interpreted_fold (formJson : list Field.t) (schema : JsonSchema)
    (uiSchema : Interpreted.UiSchema) (k : jsstring) :
  let r := fold_left Interpreted.add_field formJson (schema, uiSchema) in
  properties (fst r) !! k
  = match last (named k formJson) with
    | Some f => if bool_decide (k = proto_key) then properties schema !! k
                else Some (interpreted_prop_of f)
    | None => properties schema !! k
    end
  ∧ Interpreted.ui_own (snd r) !! k
    = match last (named k formJson) with
      | Some f => if bool_decide (k = proto_key)
                  then Interpreted.ui_own uiSchema !! k
                  else Some (Interpreted.ui_of_field f)
      | None => Interpreted.ui_own uiSchema !! k
      end
  ∧ properties_proto (fst r)
    = match last (named proto_key formJson) with
      | Some f => Some (interpreted_prop_of f)
      | None => properties_proto schema
      end
  ∧ Interpreted.ui_proto (snd r)
    = match last (named proto_key formJson) with
      | Some f => Some (Interpreted.ui_of_field f)
      | None => Interpreted.ui_proto uiSchema
      end
  ∧ schema_required (fst r) = schema_required schema ++ required_names formJson
  ∧ schema_title (fst r) = schema_title schema
  ∧ schema_type (fst r) = schema_type schema.
Proof.
  revert schema uiSchema. induction formJson as [|f rest IH]; intros schema uiSchema.
  - simpl. unfold required_names. simpl. by rewrite app_nil_r.
  - cbn [fold_left]. cbv zeta in IH |- *.
    unfold Interpreted.add_field at 2 4 6 8 10 12 14.
    match goal with
    | |- context [fold_left Interpreted.add_field rest (?s1, ?u1)] =>
        destruct (IH s1 u1) as (Hp & Hu & Hpp & Hup & Hr & Hti & Hty)
    end.
    rewrite Hp, Hu, Hpp, Hup, Hr, Hti, Hty. clear Hp Hu Hpp Hup Hr Hti Hty.
    rewrite !last_named_cons.
    cbn [properties properties_proto schema_required schema_title schema_type
         set_property push_required Interpreted.ui_own Interpreted.ui_proto].
    fold (interpreted_prop_of f).
    split; [|split; [|split; [|split; [|split; [|done]]]]].
    + destruct (last (named k rest)) as [g|].
      * destruct (bool_decide (k = proto_key)) eqn:Hk; [|done].
        apply bool_decide_eq_true in Hk as ->. apply lookup_set_key_proto.
      * destruct (decide (Field.name f = k)) as [Hk|Hk].
        -- rewrite (bool_decide_eq_true_2 _ Hk). subst k.
           destruct (decide (Field.name f = proto_key)) as [Hproto|Hproto].
           ++ rewrite (bool_decide_eq_true_2 _ Hproto), Hproto.
              apply lookup_set_key_proto.
           ++ rewrite (bool_decide_eq_false_2 _ Hproto).
              by apply lookup_set_key_eq.
        -- rewrite (bool_decide_eq_false_2 _ Hk). by apply lookup_set_key_ne.
    + destruct (last (named k rest)) as [g|].
      * destruct (bool_decide (k = proto_key)) eqn:Hk; [|done].
        apply bool_decide_eq_true in Hk as ->. apply lookup_set_key_proto.
      * destruct (decide (Field.name f = k)) as [Hk|Hk].
        -- rewrite (bool_decide_eq_true_2 _ Hk). subst k.
           destruct (decide (Field.name f = proto_key)) as [Hproto|Hproto].
           ++ rewrite (bool_decide_eq_true_2 _ Hproto), Hproto.
              apply lookup_set_key_proto.
           ++ rewrite (bool_decide_eq_false_2 _ Hproto).
              by apply lookup_set_key_eq.
        -- rewrite (bool_decide_eq_false_2 _ Hk). by apply lookup_set_key_ne.
    + destruct (last (named proto_key rest)); [done|].
      by destruct (bool_decide (Field.name f = proto_key)).
    + destruct (last (named proto_key rest)); [done|].
      by destruct (bool_decide (Field.name f = proto_key)).
    + unfold required_names. rewrite filter_cons.
      destruct (decide (Field.required f = true)) as [E|E].
      * rewrite E. by rewrite fmap_cons, <- app_assoc.
      * apply not_true_is_false in E. rewrite E. done.
Qed.

Lemma interpreted_prop_type (f : Field.t) :
  interpreted_prop_of f !! js "type"
  = Some (VStr (interpreted_json_type_of (Field.type f))).
Proof.
  unfold interpreted_prop_of, Interpreted.prop_of_type, interpreted_json_type_of,
    Interpreted.set_default.
  rewrite set_str_frame by other_key.
  destruct (case_of _ ["string"; "email"; "password"; "textarea"]) eqn:H1.
  { repeat disjoint_kinds H1. destruct (negb _); by lookup_type. }
  destruct (case_of _ ["number"; "integer"]) eqn:H2.
  { destruct (negb _); by lookup_type. }
  destruct (case_of _ ["select"; "radio"]) eqn:H3.
  { repeat disjoint_kinds H3. destruct (negb _); by lookup_type. }
  destruct (case_of _ ["boolean"]) eqn:H4; destruct (negb _); by lookup_type.
Qed.

(** X5. The compiler of [interpretedFormMachine.js] has a property and a
    UI entry for exactly the names of the fields other than [__proto__],
    each from the last field of the name; the property and the UI entry of
    the last field named [__proto__] become the prototypes of the two
    objects, which get no property of that name. It lists the required names
    in order and takes as title the label of the action the module defines,
    [Create User], whatever the list. Its properties have the type [string],
    [number] or [boolean]: an [integer] field is compiled to [number]. *)
Theorem interpreted_compiler_output (formJson : list Field.t) (k : jsstring) :
  let r := Interpreted.formJsonToJsonSchema formJson in
  (properties (fst r) !! k
   = if bool_decide (k = proto_key) then None
     else interpreted_prop_of <$> last (named k formJson))
  ∧ (Interpreted.ui_own (snd r) !! k
     = if bool_decide (k = proto_key) then None
       else Interpreted.ui_of_field <$> last (named k formJson))
  ∧ properties_proto (fst r) = interpreted_prop_of <$> last (named proto_key formJson)
  ∧ Interpreted.ui_proto (snd r)
    = Interpreted.ui_of_field <$> last (named proto_key formJson)
  ∧ (is_Some (properties (fst r) !! k)
     ↔ k ∈ Field.name <$> formJson ∧ k ≠ proto_key)
  ∧ schema_required (fst r) = required_names formJson
  ∧ schema_title (fst r) = Some (js "Create User")
  ∧ schema_type (fst r) = js "object"
  ∧ (∀ prop, properties (fst r) !! k = Some prop →
       ∃ t, t ∈ [js "string"; js "number"; js "boolean"]
            ∧ prop !! js "type" = Some (VStr t)).
Proof.
  cbv zeta. unfold Interpreted.formJsonToJsonSchema.
  match goal with
  | |- context [fold_left Interpreted.add_field formJson (?s0, ?u0)] =>
      destruct (interpreted_fold formJson s0 u0 k)
        as (Hp & Hu & Hpp & Hup & Hr & Hti & Hty)
  end.
  cbv zeta in Hp, Hu, Hpp, Hup, Hr, Hti, Hty.
  rewrite Hp, Hu, Hpp, Hup, Hr, Hti, Hty.
  cbn [properties properties_proto schema_required schema_title schema_type
       Interpreted.ui_own Interpreted.ui_proto].
  rewrite !lookup_empty.
  assert (Hmem : is_Some (last (named k formJson)) ↔ k ∈ Field.name <$> formJson).
  { split.
    - intros [f Hf]. apply last_named_elem in Hf as [Hin <-].
      apply list_elem_of_fmap. eauto.
    - intros Hin. apply list_elem_of_fmap in Hin as (f & -> & Hin).
      destruct (last (named (Field.name f) formJson)) eqn:Hl; [eauto|].
      apply last_None in Hl.
      assert (f ∈ named (Field.name f) formJson) as Hf
        by (apply list_elem_of_filter; done).
      rewrite Hl in Hf. by apply elem_of_nil in Hf. }
  assert (Hprop : match last (named k formJson) with
                  | Some f => if bool_decide (k = proto_key) then None
                              else Some (interpreted_prop_of f)
                  | None => None
                  end
                  = if bool_decide (k = proto_key) then None
                    else interpreted_prop_of <$> last (named k formJson)).
  { by destruct (last _), (bool_decide _). }
  rewrite Hprop.
  split; [done|]. split.
  { by destruct (last _), (bool_decide _). }
  split; [by destruct (last _)|]. split; [by destruct (last _)|].
  split; [|split; [done|split; [done|split; [done|]]]].
  - destruct (bool_decide (k = proto_key)) eqn:Hk.
    + apply bool_decide_eq_true in Hk. split; [by intros [? ?] | by intros [_ ?]].
    + apply bool_decide_eq_false in Hk. rewrite fmap_is_Some, Hmem. tauto.
  - intros prop Hlook. destruct (bool_decide (k = proto_key)); [done|].
    destruct (last _) as [f|]; [|done].
    injection Hlook as <-. exists (interpreted_json_type_of (Field.type f)).
    split; [|apply interpreted_prop_type].
    unfold interpreted_json_type_of. repeat case_match; set_solver.
Qed.

(** ** The UI schema *)

Lemma loop_has_property (prop_of : Field.t → completion SchemaProp)
    (formJson : list Field.t) (schema schema' : JsonSchema) (f : Field.t) :
  for_of formJson (add_with prop_of) schema = Normal schema' →
  f ∈ formJson →
  Field.name f ≠ proto_key →
  is_Some (properties schema' !! Field.name f).
Proof.
  intros Hrun Hin Hproto.
  apply (loop_last_wins _ _ _ _ (Field.name f)) in Hrun; [|done].
  unfold named in Hrun.
  destruct (last (filter _ formJson)) as [g|] eqn:Hl.
  - destruct Hrun as (prop & _ & ->). eauto.
  - apply last_None in Hl.
    assert (f ∈ filter (λ g, Field.name g = Field.name f) formJson) as Hf
      by (apply list_elem_of_filter; done).
    rewrite Hl in Hf. by apply elem_of_nil in Hf.
Qed.

(** X6. The UI schema has one control for each field, in the order of the
    fields; the control of a field points to [#/properties/] followed by its
    name, which is a property of the schema the shared compiler returns for
    the same list unless the name is [__proto__], a key that schema never
    has; it carries the placeholder of the field when that is a non-empty
    string, also for a [textarea], and [multi] exactly for a [textarea]. *)
Theorem ui_schema_controls_follow_fields
    (formJson : list Field.t) (title : jsstring) (schema : JsonSchema)
    (i : nat) (f : Field.t) :
  Shared.formJsonToJsonSchema formJson title = Normal schema →
  formJson !! i = Some f →
  let layout := SharedLayout.formJsonToUiSchema formJson in
  length (SharedLayout.elements layout) = length formJson
  ∧ ∃ el,
      SharedLayout.elements layout !! i = Some el
      ∧ SharedLayout.element_type el = js "Control"
      ∧ SharedLayout.scope el = js "#/properties/" ++ Field.name f
      ∧ (is_Some (properties schema !! Field.name f) ↔ Field.name f ≠ proto_key)
      ∧ (SharedLayout.options el ≫= (λ o, o !! js "placeholder"))
        = (if truthy_str (Field.placeholder f)
           then VStr <$> Field.placeholder f else None)
      ∧ (SharedLayout.options el ≫= (λ o, o !! js "multi"))
        = (if bool_decide (Field.type f = js "textarea")
           then Some (VBool true) else None).
Proof.
  intros Hrun Hi. cbv zeta. cbn [SharedLayout.formJsonToUiSchema SharedLayout.elements].
  split; [apply length_fmap|].
  exists (SharedLayout.element_of f). split.
  { rewrite list_lookup_fmap, Hi. done. }
  rewrite shared_compile_loop in Hrun.
  assert (Hin : f ∈ formJson) by (eapply list_elem_of_lookup_2; eauto).
  assert (Hprop : is_Some (properties schema !! Field.name f)
                  ↔ Field.name f ≠ proto_key).
  { split.
    - intros Hsome Hproto. rewrite Hproto, (loop_proto_key _ _ _ _ Hrun) in Hsome.
      simpl in Hsome. rewrite lookup_empty in Hsome. by destruct Hsome.
    - by apply (loop_has_property _ _ _ _ f Hrun Hin). }
  unfold SharedLayout.element_of.
  destruct (Field.placeholder f) as [p|]; simpl.
  - destruct p as [|c p]; simpl;
      destruct (bool_decide (Field.type f = js "textarea")); simpl;
      repeat split; try done; try (apply Hprop; fail);
      rewrite ?lookup_insert_eq, ?lookup_insert_ne, ?lookup_singleton_eq,
        ?lookup_singleton_ne, ?lookup_empty by other_key; done.
  - destruct (bool_decide (Field.type f = js "textarea")); simpl;
      repeat split; try done; try (apply Hprop; fail);
      rewrite ?lookup_insert_eq, ?lookup_insert_ne, ?lookup_empty by other_key;
      done.
Qed.

Lemma ui_schema_controls_follow_fields_witness :
  ∃ schema el,
    Shared.formJsonToJsonSchema [username_field; bio_field] (js "Form")
    = Normal schema
    ∧ SharedLayout.elements (SharedLayout.formJsonToUiSchema
                               [username_field; bio_field]) !! 1%nat = Some el
    ∧ SharedLayout.scope el = js "#/properties/bio"
    ∧ is_Some (properties schema !! js "bio")
    ∧ (SharedLayout.options el ≫= (λ o, o !! js "placeholder"))
      = Some (VStr (js "About you"))
    ∧ (SharedLayout.options el ≫= (λ o, o !! js "multi")) = Some (VBool true).
Proof.
  destruct (Shared.formJsonToJsonSchema [username_field; bio_field] (js "Form"))
    as [s|e] eqn:Hs; [|vm_compute in Hs; discriminate Hs].
  destruct (ui_schema_controls_follow_fields [username_field; bio_field]
              (js "Form") s 1 bio_field Hs eq_refl)
    as (_ & el & Hel & _ & Hscope & Hprop & Hph & Hmulti).
  exists s, el. split; [done|]. split; [done|]. split; [done|].
  split; [by apply Hprop|]. split; assumption.
Defined.

(** ** More on the hand-written validator *)

Module InterpretedMore.
Import Interpreted.
Section Facts.
Variable StringToNumber : jsstring → float.
Variable NumberToString : float → jsstring.

Abbreviation validate_field := (validate_field StringToNumber NumberToString).
Abbreviation validateFormValues := (validateFormValues StringToNumber NumberToString).
Abbreviation violates := (violates StringToNumber NumberToString).




(** X7. A field that is not required is passed over when the value read
    for it is [undefined], [null] or the empty string: the key is absent and
    the name is not one [Object.prototype] defines, or the key holds one of
    these values. When the names are distinct the field has no entry in the
    outcome, whatever its other constraints are. *)
Theorem optional_blank_field_is_skipped
    (formValues : gmap (list N) val) (formJson : list Field.t) (field : Field.t) :
  NoDup (Field.name <$> formJson) →
  field ∈ formJson →
  Field.required field = false →
  (formValues !! Field.name field = None ∧ inherited (Field.name field) = None)
  ∨ formValues !! Field.name field = Some VUndefined
  ∨ formValues !! Field.name field = Some VNull
  ∨ formValues !! Field.name field = Some (VStr []) →
  validateFormValues formValues formJson !! Field.name field = None.
Proof.
  intros Hnd Hin Hreq Hval. unfold Interpreted.validateFormValues.
  destruct (decide (Field.name field = proto_key)) as [Hk|Hk].
  { rewrite Hk, InterpretedFacts.fold_validate_proto. apply lookup_empty. }
  rewrite (InterpretedFacts.fold_validate_lookup StringToNumber NumberToString)
    by (done || apply lookup_empty).
  unfold outcome_by_order, first_violation, overwrite_order, Interpreted.violates.
  assert (Hp : present (get formValues (Field.name field)) = false).
  { unfold get. destruct Hval as [[-> ->] | [-> | [-> | ->]]]; done. }
  cbn [find]. rewrite Hreq, Hp. done.
Qed.

(** X9. [validateFormValues] reads of a field its name, type, label,
    [required], [minLength], [minimum], [maximum] and [format] only: lists
    whose fields agree on these, one by one, have the same outcome on every
    value map. In particular [maxLength], [pattern] and the [options] of a
    [select] are never checked. *)
Theorem unchecked_constraints_are_ignored
    (formValues : gmap (list N) val) (formJson formJson' : list Field.t) :
  Forall2 same_checked formJson formJson' →
  validateFormValues formValues formJson = validateFormValues formValues formJson'.
Proof.
  intros Hall. unfold Interpreted.validateFormValues.
  generalize (∅ : gmap (list N) (list N)) as errors.
  induction Hall as [|f g rest rest' Hfg _ IH]; intros errors; simpl; [done|].
  rewrite <- IH. f_equal.
  destruct Hfg as (Hn & Ht & Hl & Hr & Hml & Hmin & Hmax & Hfmt).
  unfold Interpreted.validate_field, msg_required, msg_number, msg_minimum,
    msg_maximum, msg_minLength, msg_email, label_or_name, below_minimum,
    above_maximum, too_short, bad_email.
  rewrite Hn, Ht, Hl, Hr, Hml, Hmin, Hmax, Hfmt. done.
Qed.

End Facts.
End InterpretedMore.

Lemma optional_blank_field_is_skipped_witness :
  sample_validate {[ js "age" := VStr [] ]} [username_field; age_field]
    !! Field.name age_field = None.
Proof.
  apply (InterpretedMore.optional_blank_field_is_skipped
           sample_StringToNumber sample_NumberToString
           {[ js "age" := VStr [] ]} [username_field; age_field] age_field).
  - apply (bool_decide_unpack _). vm_compute. exact I.
  - apply list_elem_of_further, list_elem_of_here.
  - reflexivity.
  - right. right. right. reflexivity.
Defined.

(** A biography of three letters, one a capital: it passes under a bound of
    500 as under a bound of 2 with a pattern of small letters. *)
Lemma unchecked_constraints_are_ignored_witness :
  sample_validate {[ js "bio" := VStr (js "Abc") ]} [long_bio_field]
  = sample_validate {[ js "bio" := VStr (js "Abc") ]} [short_bio_field].
Proof.
  apply (InterpretedMore.unchecked_constraints_are_ignored
           sample_StringToNumber sample_NumberToString
           {[ js "bio" := VStr (js "Abc") ]} [long_bio_field] [short_bio_field]).
  repeat constructor.
Defined.

(** ** More on the AJV adapter *)

Module ValidatorsMore.
Import Validators.
Section Facts.
Variable NumberToString : float → jsstring.
Variable ajv_compile : JsonSchema → completion Validate.

Abbreviation validateWithAJV := (validateWithAJV NumberToString ajv_compile).
Abbreviation record_error := (record_error NumberToString).
Abbreviation formatErrorMessage := (formatErrorMessage NumberToString).

Lemma fold_record_error_sound (formJson : list Field.t)
    (all errs : list AjvError) (errors : gmap (list N) (list N)) :
  (∀ e, e ∈ errs → e ∈ all) →
  (∀ k m, errors !! k = Some m →
     ∃ err, err ∈ all ∧ error_field err = Some k
            ∧ m = formatErrorMessage err formJson) →
  ∀ k m, fold_left (record_error formJson) errs errors !! k = Some m →
    ∃ err, err ∈ all ∧ error_field err = Some k
           ∧ m = formatErrorMessage err formJson.
Proof.
  revert errors. induction errs as [|e rest IH]; intros errors Hsub Hacc; simpl.
  - exact Hacc.
  - apply IH.
    + intros e' He'. apply Hsub. by apply list_elem_of_further.
    + intros k m. unfold Validators.record_error.
      destruct (error_field e) as [field|] eqn:Hf; [|apply Hacc].
      destruct (_ && _); [|apply Hacc].
      unfold set_key. destruct (bool_decide (field = proto_key)); [apply Hacc|].
      destruct (decide (field = k)) as [->|Hne].
      * rewrite lookup_insert_eq. intros [= <-]. exists e.
        split; [apply Hsub, list_elem_of_here | done].
      * rewrite lookup_insert_ne by done. apply Hacc.
Qed.

(** X11. Every entry of the outcome of [validateWithAJV] is the formatted
    message of an error the validator listed for that field, and there is
    no entry when the validator accepts the data. *)
Theorem outcome_entries_come_from_errors
    (formValues : gmap (list N) val) (formJson : list Field.t)
    (schema : JsonSchema) (validate : Validate)
    (valid : bool) (errors : option (list AjvError))
    (outcome : gmap (list N) (list N)) (k m : jsstring) :
  formJsonToValidationSchema formJson = Normal schema →
  ajv_compile schema = Normal validate →
  validate formValues = (valid, errors) →
  validateWithAJV formValues formJson = Normal outcome →
  outcome !! k = Some m →
  valid = false
  ∧ ∃ err, err ∈ default [] errors ∧ error_field err = Some k
           ∧ m = formatErrorMessage err formJson.
Proof.
  intros Hs Hc Ha.
  rewrite (ValidatorsFacts.validateWithAJV_runs _ _ _ _ _ _ _ _ Hs Hc Ha).
  destruct valid.
  - intros [= <-]. rewrite lookup_empty. done.
  - intros [= <-] Hk. split; [done|].
    eapply fold_record_error_sound; [| |exact Hk]; [done|].
    intros k' m'. rewrite lookup_empty. done.
Qed.

(** X10. When the schema is compiled and the validator rejects the data,
    the outcome of [validateWithAJV] has, under a name that is not empty and
    that [Object.prototype] does not define, the formatted message of the
    first error the validator lists for the name, a later error of the same
    name never replacing it, and no entry when no error is listed for the
    name. Under the empty name and under the names [Object.prototype]
    defines, [toString] or [__proto__] say, it never has an entry. *)
Theorem validateWithAJV_keeps_the_first_error
    (formValues : gmap (list N) val) (formJson : list Field.t)
    (schema : JsonSchema) (validate : Validate) (errs : list AjvError)
    (k : jsstring) :
  formJsonToValidationSchema formJson = Normal schema →
  ajv_compile schema = Normal validate →
  validate formValues = (false, Some errs) →
  ∃ outcome,
    validateWithAJV formValues formJson = Normal outcome
    ∧ outcome !! k
      = if recordable k
        then (λ err, formatErrorMessage err formJson) <$> head (filed_at k errs)
        else None.
Proof.
  intros Hs Hc Ha. eexists.
  split; [by apply (ValidatorsFacts.validateWithAJV_runs _ _ _ _ _ _ _ _ Hs Hc Ha)|].
  apply ValidatorsFacts.fold_record_error_lookup, lookup_empty.
Qed.

End Facts.
End ValidatorsMore.

(** Two errors for [email]: the message of the first, the length, is the
    entry. *)
Lemma validateWithAJV_keeps_the_first_error_witness :
  ∃ outcome,
    Validators.validateWithAJV sample_NumberToString two_errors_ajv
      {[ js "email" := VStr (js "ab") ]} [email_field] = Normal outcome
    ∧ outcome !! js "email" = Some (js "Email must have at least 10 characters").
Proof.
  destruct (Validators.formJsonToValidationSchema [email_field])
    as [schema|e] eqn:Hs; [|vm_compute in Hs; discriminate Hs].
  exact (ValidatorsMore.validateWithAJV_keeps_the_first_error
           sample_NumberToString two_errors_ajv
           {[ js "email" := VStr (js "ab") ]} [email_field] schema two_errors _
           (js "email") Hs eq_refl eq_refl).
Defined.

Lemma outcome_entries_come_from_errors_witness :
  ∃ schema err,
    Validators.formJsonToValidationSchema [username_field] = Normal schema
    ∧ err ∈ default [] (snd (required_only schema ∅))
    ∧ Validators.error_field err = Some (js "username")
    ∧ js "username is required"
      = Validators.formatErrorMessage sample_NumberToString err [username_field].
Proof.
  destruct (Validators.formJsonToValidationSchema [username_field])
    as [schema|e] eqn:Hs; [|vm_compute in Hs; discriminate Hs].
  pose proof Hs as Hs'. vm_compute in Hs'. injection Hs' as <-.
  match type of Hs with
  | _ = Normal ?s =>
      destruct (ValidatorsMore.outcome_entries_come_from_errors
                  sample_NumberToString sample_ajv ∅ [username_field] s
                  (required_only s) false (snd (required_only s ∅))
                  {[ js "username" := js "username is required" ]}
                  (js "username") (js "username is required") Hs)
        as (_ & err & Herr)
  end.
  - vm_compute. reflexivity.
  - vm_compute. reflexivity.
  - vm_compute. reflexivity.
  - vm_compute. reflexivity.
  - eexists _, err. split; [reflexivity|]. exact Herr.
Defined.

(** ** Sessions of the machine of [formMachineFactory.js] *)

(** The compiler of the validators throws a [TypeError], on a [select]
    field without [options], and nothing else. *)
Lemma validators_compile_throws (formJson : list Field.t) (e : exn) :
  Validators.formJsonToValidationSchema formJson = Throw e
  ↔ e = TypeError
    ∧ Exists (λ f, Field.type f = js "select" ∧ Field.options f = None) formJson.
Proof.
  rewrite validators_compile_loop.
  rewrite <- (exists_thrower Validators.prop_of_field)
    by apply validators_prop_of_field_throws.
  split.
  - intros Hrun. destruct (loop_thrown _ _ _ _ Hrun) as (f & _ & Hf).
    apply validators_prop_of_field_throws_only in Hf as ->.
    split; [done|].
    by apply (loop_throws_iff _ _ _ _ validators_prop_of_field_throws_only) in Hrun.
  - intros [-> Hex].
    by apply (loop_throws_iff _ _ _ _ validators_prop_of_field_throws_only).
Qed.

Module FormMachineMore.
Import FormMachine.
Section Facts.
Variable NumberToString : float → jsstring.
Variable ajv_compile : JsonSchema → completion Validators.Validate.
Variable formJson : list Field.t.

Abbreviation transition := (transition NumberToString ajv_compile formJson).
Abbreviation states := (states NumberToString ajv_compile formJson).
Abbreviation validate :=
  (λ form, Validators.validateWithAJV NumberToString ajv_compile form formJson).
Abbreviation initial := (initial formJson).

Lemma step_keeps_invariant (st st' : State * Ctx.t) (ev : Event) :
  factory_invariant validate st →
  transition st ev = Some (Normal st') →
  factory_invariant validate st'.
Proof.
  destruct st as [s ctx]. intros (Hv & Hflag & Hse & Hsub) Hstep.
  simpl in Hv, Hflag, Hse, Hsub.
  assert (Hns : s ≠ submitting → Ctx.submitting ctx = false).
  { intros Hne. destruct (Ctx.submitting ctx); [|done]. exfalso. by apply Hne, Hflag. }
  destruct s; try done;
    destruct ev;
    try (injection Hstep as <-; unfold factory_invariant; simpl;
         rewrite ?Hns by done;
         split_and?; try done; try (by apply Hsub); try (by apply Hflag);
         intros; done).
  destruct (validate (Ctx.form ctx)) as [outcome|e] eqn:Hval.
  - unfold FormMachine.transition in Hstep.
    rewrite (FormMachineFacts.send_submit NumberToString ajv_compile formJson
               4 ctx outcome Hval) in Hstep.
    injection Hstep as <-.
    destruct (isValid _ SUBMIT) eqn:Hg.
    + apply FormMachineFacts.isValid_iff_no_errors in Hg. simpl in Hg. subst.
      unfold factory_invariant. simpl. split_and?; done.
    + unfold factory_invariant. simpl. rewrite Hns by done.
      split_and?; done.
  - unfold FormMachine.transition in Hstep.
    rewrite (FormMachineFacts.send_submit_throw NumberToString ajv_compile
               formJson 5 ctx e Hval) in Hstep. done.
Qed.

Lemma reachable_invariant (st : State * Ctx.t) :
  reachable transition initial st → factory_invariant validate st.
Proof.
  induction 1 as [|st ev st' _ IH Hstep].
  - repeat split; simpl; done.
  - eapply step_keeps_invariant; eauto.
Qed.

(** [SUBMIT] in [editing] throws what the validation throws. *)
Lemma submit_throws_iff_validate_throws (ctx : Ctx.t) (e : exn) :
  transition (editing, ctx) SUBMIT = Some (Throw e)
  ↔ validate (Ctx.form ctx) = Throw e.
Proof.
  unfold FormMachine.transition. split.
  - intros Hstep. destruct (validate (Ctx.form ctx)) as [outcome|e'] eqn:Hval.
    + rewrite (FormMachineFacts.send_submit NumberToString ajv_compile formJson
                 4 ctx outcome Hval) in Hstep. done.
    + rewrite (FormMachineFacts.send_submit_throw NumberToString ajv_compile
                 formJson 5 ctx e' Hval) in Hstep. congruence.
  - apply FormMachineFacts.send_submit_throw.
Qed.

(** X12. [SUBMIT] in [editing] throws exactly when the validation cannot
    compile the schema of the action, whatever the form holds: a [TypeError]
    when the field list has a [select] field without [options], and
    otherwise what [ajv.compile] throws on the schema of the field list. *)
Theorem submit_throws_iff_compile_throws (ctx : Ctx.t) (e : exn) :
  transition (editing, ctx) SUBMIT = Some (Throw e)
  ↔ (e = TypeError
     ∧ Exists (λ f, Field.type f = js "select" ∧ Field.options f = None) formJson)
    ∨ (∃ schema, Validators.formJsonToValidationSchema formJson = Normal schema
                 ∧ ajv_compile schema = Throw e).
Proof.
  rewrite submit_throws_iff_validate_throws.
  rewrite ValidatorsFacts.validateWithAJV_throws.
  by rewrite validators_compile_throws.
Qed.

(** X13. A session never rests in the transient state [validating], and
    the flag [submitting] of its context is set exactly while it is in the
    state [submitting]. *)
Theorem submitting_flag_marks_the_state (st : State * Ctx.t) :
  reachable transition initial st →
  fst st ≠ validating
  ∧ (Ctx.submitting (snd st) = true ↔ fst st = submitting).
Proof.
  intros Hr. apply reachable_invariant in Hr as (Hv & Hflag & _). done.
Qed.

(** X14. In every state a session can be in, [serverError] is null: the
    message a rejection stores never outlives the step that stored it. *)
Theorem serverError_is_null_in_every_state (st : State * Ctx.t) :
  reachable transition initial st →
  Ctx.serverError (snd st) = VNull.
Proof.
  intros Hr. apply reachable_invariant in Hr as (_ & _ & Hse & _). done.
Qed.

(** X15. A session is in [submitting], where the submit function runs on
    the form, only with a form the validator accepts and with no errors
    stored. *)
Theorem submitting_only_with_accepted_form (st : State * Ctx.t) :
  reachable transition initial st →
  fst st = submitting →
  Ctx.errors (snd st) = ∅ ∧ validate (Ctx.form (snd st)) = Normal ∅.
Proof.
  intros Hr. apply reachable_invariant in Hr as (_ & _ & _ & Hsub). done.
Qed.

(** X16. [RESET] in [editing] takes a session back to the state it
    started in, context included; [OPEN] in [success] takes it to [editing]
    with the initial context. *)
Theorem reset_restores_the_initial_session (s : State) (ctx : Ctx.t) :
  reachable transition initial (s, ctx) →
  (s = editing → transition (s, ctx) RESET = Some (Normal initial))
  ∧ (s = success →
     transition (s, ctx) OPEN = Some (Normal (editing, snd initial))).
Proof.
  intros Hr. apply reachable_invariant in Hr as (_ & Hflag & _).
  simpl in Hflag.
  assert (Hns : s ≠ submitting → Ctx.submitting ctx = false).
  { intros Hne. destruct (Ctx.submitting ctx); [|done]. exfalso.
    by apply Hne, Hflag. }
  split; intros ->.
  - unfold FormMachine.transition, send, take. cbn. by rewrite Hns.
  - unfold FormMachine.transition, send, take. cbn. by rewrite Hns.
Qed.

(** X18. After a success, [CLOSE] and then [OPEN] bring a session to
    [editing] with the context it had in [success]: the values typed and
    the result of the submission are still there. *)
Theorem close_and_reopen_keeps_the_context (ctx : Ctx.t) :
  reachable transition initial (success, ctx) →
  run transition (success, ctx) [CLOSE; OPEN] = Some (editing, ctx).
Proof.
  intros Hr. apply reachable_invariant in Hr as (_ & _ & Hse & _).
  simpl in Hse. destruct ctx as [form errors sub result serverError].
  simpl in Hse. subst. reflexivity.
Qed.

End Facts.
End FormMachineMore.

(** [{ ...obj, ...{ k1: v1, ... } }] is the union of the two maps in which
    the properties of the literal win. *)
Lemma spread_union (obj : gmap (list N) val) (props : list (jsstring * val)) :
  FormMachine.spread obj (VObj props) = list_to_map props ∪ obj.
Proof.
  unfold FormMachine.spread. induction props as [|[k v] rest IH].
  - rewrite list_to_map_nil. symmetry. apply (left_id_L ∅ (∪)).
  - rewrite list_to_map_cons. cbn [foldr fst snd]. rewrite IH.
    by rewrite insert_union_l.
Qed.

(** X17. [PREFILL] is handled in [idle] only: there it opens the form with
    the data merged over the values, a key of the data replacing the value
    of the form and the other values staying; in every other state it
    changes nothing. *)
Theorem prefill_merges_data_over_the_form
    (NumberToString : float → jsstring)
    (ajv_compile : JsonSchema → completion Validators.Validate)
    (formJson : list Field.t)
    (ctx : FormMachine.Ctx.t) (data : list (jsstring * val)) :
  FormMachine.transition NumberToString ajv_compile formJson
    (FormMachine.idle, ctx) (FormMachine.PREFILL data)
  = Some (Normal (FormMachine.editing,
      FormMachine.Ctx.mk (list_to_map data ∪ FormMachine.Ctx.form ctx)
        (FormMachine.Ctx.errors ctx) (FormMachine.Ctx.submitting ctx)
        (FormMachine.Ctx.result ctx) VNull))
  ∧ (∀ s, s ≠ FormMachine.idle →
       FormMachine.transition NumberToString ajv_compile formJson
         (s, ctx) (FormMachine.PREFILL data) = Some (Normal (s, ctx))).
Proof.
  split.
  - rewrite <- spread_union. reflexivity.
  - intros s Hs. destruct s; done.
Qed.

Lemma reachable_session_success :
  reachable sample_transition (FormMachine.initial [username_field]) session_open
  ∧ reachable sample_transition (FormMachine.initial [username_field])
      session_submitting
  ∧ reachable sample_transition (FormMachine.initial [username_field])
      session_success.
Proof.
  assert (H1 : reachable sample_transition (FormMachine.initial [username_field])
                 session_open).
  { eapply (reachable_step _ _ _ FormMachine.OPEN); [apply reachable_init|].
    vm_compute. reflexivity. }
  assert (H2 : reachable sample_transition (FormMachine.initial [username_field])
                 session_filled).
  { eapply (reachable_step _ _ _
              (FormMachine.CHANGE (js "username") (VStr (js "abcd"))));
      [exact H1|]. vm_compute. reflexivity. }
  assert (H3 : reachable sample_transition (FormMachine.initial [username_field])
                 session_submitting).
  { eapply (reachable_step _ _ _ FormMachine.SUBMIT); [exact H2|].
    vm_compute. reflexivity. }
  split; [exact H1|]. split; [exact H3|].
  eapply (reachable_step _ _ _
            (FormMachine.done_invoke (VObj [(js "id", VStr (js "user_1"))])));
    [exact H3|]. vm_compute. reflexivity.
Qed.

Lemma submitting_flag_marks_the_state_witness :
  fst session_submitting ≠ FormMachine.validating
  ∧ (FormMachine.Ctx.submitting (snd session_submitting) = true
     ↔ fst session_submitting = FormMachine.submitting).
Proof.
  apply (FormMachineMore.submitting_flag_marks_the_state sample_NumberToString
           sample_ajv [username_field] session_submitting).
  apply reachable_session_success.
Defined.

Lemma serverError_is_null_in_every_state_witness :
  FormMachine.Ctx.serverError (snd session_success) = VNull.
Proof.
  apply (FormMachineMore.serverError_is_null_in_every_state sample_NumberToString
           sample_ajv [username_field] session_success).
  apply reachable_session_success.
Defined.

Lemma submitting_only_with_accepted_form_witness :
  FormMachine.Ctx.errors (snd session_submitting) = ∅
  ∧ Validators.validateWithAJV sample_NumberToString sample_ajv
      (FormMachine.Ctx.form (snd session_submitting)) [username_field]
    = Normal ∅.
Proof.
  apply (FormMachineMore.submitting_only_with_accepted_form sample_NumberToString
           sample_ajv [username_field] session_submitting).
  - apply reachable_session_success.
  - reflexivity.
Defined.

Lemma reset_restores_the_initial_session_witness :
  (FormMachine.editing = FormMachine.editing →
   sample_transition session_open FormMachine.RESET
   = Some (Normal (FormMachine.initial [username_field])))
  ∧ (FormMachine.editing = FormMachine.success →
     sample_transition session_open FormMachine.OPEN
     = Some (Normal (FormMachine.editing,
                     snd (FormMachine.initial [username_field])))).
Proof.
  apply (FormMachineMore.reset_restores_the_initial_session sample_NumberToString
           sample_ajv [username_field] FormMachine.editing (snd session_open)).
  apply reachable_session_success.
Defined.

Lemma close_and_reopen_keeps_the_context_witness :
  run sample_transition session_success [FormMachine.CLOSE; FormMachine.OPEN]
  = Some (FormMachine.editing, snd session_success).
Proof.
  apply (FormMachineMore.close_and_reopen_keeps_the_context sample_NumberToString
           sample_ajv [username_field] (snd session_success)).
  apply reachable_session_success.
Defined.

(** ** Sessions of the machine of [interpretedFormMachine.js] *)

Module InterpretedMachineMore.
Import InterpretedMachine.
Section Facts.
Variable StringToNumber : jsstring → float.
Variable NumberToString : float → jsstring.
Variable formJson : list Field.t.

Abbreviation transition := (transition StringToNumber NumberToString formJson).
Abbreviation validate :=
  (λ form,
     Interpreted.validateFormValues StringToNumber NumberToString form formJson).
Abbreviation initial := (initial formJson).

Lemma interpreted_step_keeps_invariant (st st' : State * Ctx.t) (ev : Event) :
  interpreted_invariant validate st →
  transition st ev = Some (Normal st') →
  interpreted_invariant validate st'.
Proof.
  destruct st as [s ctx]. unfold interpreted_invariant. simpl.
  intros (Hv & Hflag & Hsub & Hres & Hmsg) Hstep.
  assert (Hns : s ≠ submitting → Ctx.submitting ctx = false).
  { intros Hne. destruct (Ctx.submitting ctx); [|done]. exfalso.
    by apply Hne, Hflag. }
  destruct s; try done; destruct ev;
    try (injection Hstep as <-; simpl; rewrite ?Hns by done; naive_solver).
  - unfold InterpretedMachine.transition, send, take in Hstep. cbn in Hstep.
    destruct (truthy_string name); injection Hstep as <-; simpl;
      rewrite ?Hns by done; naive_solver.
  - unfold InterpretedMachine.transition, send, take in Hstep. cbn in Hstep.
    destruct (noErrors _ SUBMIT) eqn:Hg; cbn in Hstep; injection Hstep as <-; simpl.
    + apply InterpretedMachineFacts.noErrors_iff in Hg. simpl in Hg.
      rewrite Hg. naive_solver.
    + rewrite ?Hns by done. naive_solver.
  - unfold InterpretedMachine.transition, send, take in Hstep. cbn in Hstep.
    destruct (truthy_string name); injection Hstep as <-; simpl;
      rewrite ?Hns by done; naive_solver.
  - unfold InterpretedMachine.transition, send, take in Hstep. cbn in Hstep.
    destruct (noErrors _ SUBMIT) eqn:Hg; cbn in Hstep; injection Hstep as <-; simpl.
    + apply InterpretedMachineFacts.noErrors_iff in Hg. simpl in Hg.
      rewrite Hg. naive_solver.
    + rewrite ?Hns by done. naive_solver.
Qed.

Lemma interpreted_reachable_invariant (st : State * Ctx.t) :
  reachable transition initial st → interpreted_invariant validate st.
Proof.
  induction 1 as [|st ev st' _ IH Hstep].
  - unfold interpreted_invariant. simpl. naive_solver.
  - eapply interpreted_step_keeps_invariant; eauto.
Qed.

(** X19. A session of this machine is in [submitting], where the submit
    service runs on the form, only with a form on which
    [validateFormValues] finds nothing and with no errors stored; the flag
    [submitting] is set exactly in that state, and the session never rests
    in [validating]. *)
Theorem interpreted_submitting_only_with_valid_form (st : State * Ctx.t) :
  reachable transition initial st →
  fst st ≠ validating
  ∧ (Ctx.submitting (snd st) = true ↔ fst st = submitting)
  ∧ (fst st = submitting →
     Ctx.errors (snd st) = ∅ ∧ validate (Ctx.form (snd st)) = ∅).
Proof.
  intros Hr. apply interpreted_reachable_invariant in Hr as (Hv & Hflag & Hsub & _). done.
Qed.

(** X20. A result other than null is in the context only in the state
    [success], and an error message other than null only in [failure] and,
    from the submission before, in [submitting]: entering [editing] clears
    both. *)
Theorem interpreted_result_and_message_by_state (st : State * Ctx.t) :
  reachable transition initial st →
  (is_null (Ctx.result (snd st)) = false → fst st = success)
  ∧ (is_null (Ctx.lastErrorMessage (snd st)) = false →
     fst st = failure ∨ fst st = submitting).
Proof.
  intros Hr. apply interpreted_reachable_invariant in Hr as (_ & _ & _ & Hres & Hmsg). done.
Qed.

End Facts.
End InterpretedMachineMore.

Lemma reachable_interpreted_session :
  reachable sample_interpreted_transition
    (InterpretedMachine.initial [username_field]) interpreted_session_submitting
  ∧ reachable sample_interpreted_transition
      (InterpretedMachine.initial [username_field]) interpreted_session_failure.
Proof.
  assert (H1 : reachable sample_interpreted_transition
                 (InterpretedMachine.initial [username_field])
                 (InterpretedMachine.editing,
                  InterpretedMachine.Ctx.mk {[ js "username" := VStr [] ]} ∅ false
                    VNull VNull)).
  { eapply (reachable_step _ _ _ InterpretedMachine.OPEN); [apply reachable_init|].
    vm_compute. reflexivity. }
  assert (H2 : reachable sample_interpreted_transition
                 (InterpretedMachine.initial [username_field])
                 (InterpretedMachine.editing,
                  InterpretedMachine.Ctx.mk
                    {[ js "username" := VStr (js "fail") ]} ∅ false VNull VNull)).
  { eapply (reachable_step _ _ _
              (InterpretedMachine.CHANGE (js "username") (VStr (js "fail"))));
      [exact H1|]. vm_compute. reflexivity. }
  assert (H3 : reachable sample_interpreted_transition
                 (InterpretedMachine.initial [username_field])
                 interpreted_session_submitting).
  { eapply (reachable_step _ _ _ InterpretedMachine.SUBMIT); [exact H2|].
    vm_compute. reflexivity. }
  split; [exact H3|].
  eapply (reachable_step _ _ _
            (InterpretedMachine.error_platform
               (VObj [(js "message", VStr (js "Server rejected username"))])));
    [exact H3|]. vm_compute. reflexivity.
Qed.

Lemma interpreted_submitting_only_with_valid_form_witness :
  fst interpreted_session_submitting ≠ InterpretedMachine.validating
  ∧ (InterpretedMachine.Ctx.submitting (snd interpreted_session_submitting) = true
     ↔ fst interpreted_session_submitting = InterpretedMachine.submitting)
  ∧ (fst interpreted_session_submitting = InterpretedMachine.submitting →
     InterpretedMachine.Ctx.errors (snd interpreted_session_submitting) = ∅
     ∧ sample_validate
         (InterpretedMachine.Ctx.form (snd interpreted_session_submitting))
         [username_field] = ∅).
Proof.
  apply (InterpretedMachineMore.interpreted_submitting_only_with_valid_form
           sample_StringToNumber sample_NumberToString [username_field]
           interpreted_session_submitting).
  apply reachable_interpreted_session.
Defined.

Lemma interpreted_result_and_message_by_state_witness :
  (is_null (InterpretedMachine.Ctx.result (snd interpreted_session_failure)) = false →
   fst interpreted_session_failure = InterpretedMachine.success)
  ∧ (is_null (InterpretedMachine.Ctx.lastErrorMessage
                (snd interpreted_session_failure)) = false →
     fst interpreted_session_failure = InterpretedMachine.failure
     ∨ fst interpreted_session_failure = InterpretedMachine.submitting).
Proof.
  apply (InterpretedMachineMore.interpreted_result_and_message_by_state
           sample_StringToNumber sample_NumberToString [username_field]
           interpreted_session_failure).
  apply reachable_interpreted_session.
Defined.

(** ** The initial form of [interpretedFormMachine.js] *)



(** ** The endpoints of the server *)

Module ServerRestFacts.
Import ServerRest.

Lemma error_map_fold (errs : list Validators.AjvError)
    (errors : gmap (list N) val) (k : jsstring) :
  fold_left
    (λ errors err,
       <[Server.error_key err
         := from_option VStr VUndefined (Validators.message err)]> errors)
    errs errors !! k
  = match last (filed_under k errs) with
    | Some err => Some (from_option VStr VUndefined (Validators.message err))
    | None => errors !! k
    end.
Proof.
  revert errors. induction errs as [|err rest IH]; intros errors; simpl; [done|].
  rewrite IH. unfold filed_under. rewrite filter_cons.
  destruct (decide (Server.error_key err = k)) as [Hk|Hk].
  - rewrite last_cons. destruct (last (filter _ rest)); [done|].
    rewrite <- Hk. apply lookup_insert_eq.
  - destruct (last (filter _ rest)); [done|]. by rewrite lookup_insert_ne.
Qed.

(** X22. The map of errors the endpoints reply with (and the guard of the
    session machine stores) has a key exactly for the keys the errors of
    the validator are filed under, and holds the message of the last error
    of each key: a later error of a field overwrites an earlier one. *)
Theorem error_map_keeps_the_last_error
    (errs : list Validators.AjvError) (k : jsstring) :
  error_map errs !! k
  = (λ err, from_option VStr VUndefined (Validators.message err))
    <$> last (filed_under k errs).
Proof.
  unfold error_map. rewrite error_map_fold.
  destruct (last (filed_under k errs)); [done|]. apply lookup_empty.
Qed.

Section Facts.
Variable actions : gmap (list N) Action.
Variable validators :
  gmap (list N) (gmap (list N) val → bool * list Validators.AjvError).

(** X23. For an action of the registry the two endpoints agree: [submit]
    replies 404 exactly when [validate] does, it replies 400 exactly when
    [validate] reports the body invalid, with the same map of errors, and
    it runs the handler (replying 200 or 500) exactly when [validate]
    reports the body valid. *)
Theorem submit_agrees_with_validate
    (id : jsstring) (body : gmap (list N) val) (action : Action) :
  actions !! id = Some action →
  (post_submit actions validators id body = submit_404
   ↔ post_validate validators id body = validate_404)
  ∧ (∀ errors,
       post_submit actions validators id body = submit_400 errors
       ↔ post_validate validators id body = validate_200 false (Some errors))
  ∧ ((∃ data, post_submit actions validators id body = submit_200 data
              ∧ handler action body = resolved data)
     ∨ (∃ err, post_submit actions validators id body
               = submit_500 (get_prop (js "message") err)
               ∧ handler action body = rejected err)
     ↔ post_validate validators id body = validate_200 true None).
Proof.
  intros Ha. unfold post_submit, post_validate, registry_get. rewrite Ha.
  destruct (validators !! id) as [validator|].
  - destruct (validator body) as [[|] errs]; simpl.
    + destruct (handler action body) as [result|err]; naive_solver.
    + naive_solver.
  - destruct (inherited id) as [member|]; [|naive_solver].
    destruct (call_member id body) as [valid|e]; simpl; [|naive_solver].
    destruct (truthy valid); [|naive_solver].
    destruct (handler action body) as [result|err]; naive_solver.
Qed.

End Facts.
End ServerRestFacts.

(** An id that only [Object.prototype] defines is not replied to with 404:
    the member is taken for the validator and for the action. *)
Example endpoints_on_inherited_ids :
  ServerRest.post_validate sample_validators (js "constructor") ∅
  = ServerRest.validate_200 true None
  ∧ ServerRest.post_validate sample_validators (js "__proto__") ∅
    = ServerRest.validate_uncaught TypeError
  ∧ ServerRest.post_validate sample_validators (js "deleteUser") ∅
    = ServerRest.validate_404
  ∧ ServerRest.post_submit sample_actions sample_validators (js "constructor") ∅
    = ServerRest.submit_500 (VStr (js "action.handler is not a function"))
  ∧ ServerRest.post_submit sample_actions sample_validators (js "deleteUser") ∅
    = ServerRest.submit_404.
Proof. repeat split; vm_compute; reflexivity. Qed.

Lemma submit_agrees_with_validate_witness :
  (ServerRest.post_submit sample_actions sample_validators (js "createUser") ∅
   = ServerRest.submit_404
   ↔ ServerRest.post_validate sample_validators (js "createUser") ∅
     = ServerRest.validate_404)
  ∧ (∀ errors,
       ServerRest.post_submit sample_actions sample_validators (js "createUser") ∅
       = ServerRest.submit_400 errors
       ↔ ServerRest.post_validate sample_validators (js "createUser") ∅
         = ServerRest.validate_200 false (Some errors))
  ∧ ((∃ data,
        ServerRest.post_submit sample_actions sample_validators (js "createUser") ∅
        = ServerRest.submit_200 data
        ∧ ServerRest.resolved (VObj [(js "id", VStr (js "user_1"))])
          = ServerRest.resolved data)
     ∨ (∃ err,
          ServerRest.post_submit sample_actions sample_validators
            (js "createUser") ∅
          = ServerRest.submit_500 (get_prop (js "message") err)
          ∧ ServerRest.resolved (VObj [(js "id", VStr (js "user_1"))])
            = ServerRest.rejected err)
     ↔ ServerRest.post_validate sample_validators (js "createUser") ∅
       = ServerRest.validate_200 true None).
Proof.
  apply (ServerRestFacts.submit_agrees_with_validate sample_actions
           sample_validators (js "createUser") ∅
           {| ServerRest.action_formJson := createUser_formJson;
              ServerRest.handler :=
                λ data,
                  ServerRest.resolved (VObj [(js "id", VStr (js "user_1"))]) |}).
  vm_compute. reflexivity.
Defined.

(** ** The client machine of [App.jsx] *)

Module ClientMachineFacts.
Import ClientMachine.

Lemma member_throws (v : val) (k : jsstring) :
  member v k = Throw TypeError ↔ v = VUndefined ∨ v = VNull.
Proof. destruct v; simpl; naive_solver. Qed.

Lemma member_normal (v : val) (k : jsstring) :
  v ≠ VUndefined → v ≠ VNull → ∃ w, member v k = Normal w.
Proof. destruct v; simpl; naive_solver. Qed.

Lemma client_step_keeps_invariant (actionId : val)
    (st st' : State * Ctx.t) (ev : Event) :
  client_invariant actionId st →
  transition st ev = Some (Normal st') →
  client_invariant actionId st'.
Proof.
  destruct st as [s ctx]. unfold client_invariant. simpl.
  intros [Hflag Hid] Hstep.
  assert (Hns : s ≠ submitting → Ctx.isSubmitting ctx = false).
  { intros Hne. destruct (Ctx.isSubmitting ctx); [|done]. exfalso.
    by apply Hne, Hflag. }
  destruct s, ev;
    unfold transition, send, take in Hstep; cbn in Hstep; try discriminate Hstep;
    cbv [setSchemas setResult] in Hstep; cbn in Hstep;
    repeat match type of Hstep with
           | context [member ?v ?k] =>
               destruct (member v k); cbn in Hstep; try discriminate Hstep
           end;
    injection Hstep as <-; simpl; rewrite ?Hns by done; naive_solver.
Qed.

Lemma client_reachable_invariant (actionId : val) (st : State * Ctx.t) :
  reachable transition (initial actionId) st → client_invariant actionId st.
Proof.
  induction 1 as [|st ev st' _ IH Hstep].
  - unfold client_invariant. simpl. naive_solver.
  - eapply client_step_keeps_invariant; eauto.
Qed.

(** X24. In every state a session of the client machine reaches the flag
    [isSubmitting] is set exactly when the machine is in [submitting], and
    [actionId] is the action the machine was created for. *)
Theorem client_flag_and_action (actionId : val) (st : State * Ctx.t) :
  reachable transition (initial actionId) st →
  (Ctx.isSubmitting (snd st) = true ↔ fst st = submitting)
  ∧ Ctx.actionId (snd st) = actionId.
Proof. apply client_reachable_invariant. Qed.

(** The client machine submits without looking at the errors: in
    [editing] the event SUBMIT always leads to [submitting], whatever
    [errors] and [serverErrors] hold, and changes nothing of the context
    but the flag [isSubmitting]. *)
Lemma client_submit_is_unguarded (ctx : Ctx.t) :
  transition (editing, ctx) SUBMIT
  = Some (Normal (submitting,
                  Ctx.mk (Ctx.actionId ctx) (Ctx.jsonSchema ctx) (Ctx.uiSchema ctx)
                    (Ctx.formData ctx) (Ctx.errors ctx) (Ctx.serverErrors ctx)
                    true (Ctx.result ctx))).
Proof. reflexivity. Qed.

(** X25. Only a failed load, a failed submission and RESET write
    [serverErrors]: every other step leaves them as they are, so the errors
    of a rejected submission stay in the context while the user edits,
    submits again, and after the submission succeeded. *)
Theorem client_server_errors_stay
    (st st' : State * Ctx.t) (ev : Event) :
  transition st ev = Some (Normal st') →
  (∀ data, ev ≠ error_load data) →
  (∀ data, ev ≠ error_submit data) →
  ev ≠ RESET →
  Ctx.serverErrors (snd st') = Ctx.serverErrors (snd st).
Proof.
  destruct st as [s ctx]. intros Hstep Hl Hs Hr.
  destruct s, ev; try done; try (by edestruct Hl); try (by edestruct Hs);
    unfold transition, send, take in Hstep; cbn in Hstep; try discriminate Hstep;
    cbv [setSchemas setResult] in Hstep; cbn in Hstep;
    repeat match type of Hstep with
           | context [member ?v ?k] =>
               destruct (member v k); cbn in Hstep; try discriminate Hstep
           end;
    by injection Hstep as <-.
Qed.

(** X26. A rejection whose payload has no truthy member [errors] (the
    replies 404 and 500 of the server, which carry [error], and a network
    failure) is shown as the fixed text: the machine returns to [editing]
    with [serverErrors = { _form: 'Submission failed' }], whatever message
    the payload carries. *)
Theorem client_rejection_without_errors (ctx : Ctx.t) (data : val) :
  truthy (opt_chain data (js "errors")) = false →
  transition (submitting, ctx) (error_submit data)
  = Some (Normal (editing,
                  Ctx.mk (Ctx.actionId ctx) (Ctx.jsonSchema ctx) (Ctx.uiSchema ctx)
                    (Ctx.formData ctx) (Ctx.errors ctx)
                    (VObj [(js "_form", VStr (js "Submission failed"))])
                    false (Ctx.result ctx))).
Proof.
  intros H. unfold transition, send, take. cbn in H |- *.
  unfold or_else. by rewrite H.
Qed.

(** X27. The completion of a service with the payload [undefined] or [null]
    makes [send] throw a [TypeError], in [loading] and in [submitting]
    alike, and these are the only steps of the client machine that throw;
    in particular a rejection never does. *)
Theorem client_throws_iff_no_payload (st : State * Ctx.t) (ev : Event) :
  transition st ev = Some (Throw TypeError)
  ↔ (fst st = loading ∧ (ev = done_load VUndefined ∨ ev = done_load VNull))
    ∨ (fst st = submitting
       ∧ (ev = done_submit VUndefined ∨ ev = done_submit VNull)).
Proof.
  destruct st as [s ctx]. simpl. split.
  - intros Hstep.
    destruct s, ev;
      unfold transition, send, take in Hstep; cbn in Hstep;
      try discriminate Hstep;
      destruct data; cbv [setSchemas setResult] in Hstep; cbn in Hstep;
      try discriminate Hstep; naive_solver.
  - intros [[-> [->| ->]]|[-> [->| ->]]]; reflexivity.
Qed.

End ClientMachineFacts.

Lemma reachable_client_session :
  reachable ClientMachine.transition
    (ClientMachine.initial (VStr (js "createUser"))) client_session_rejected
  ∧ reachable ClientMachine.transition
      (ClientMachine.initial (VStr (js "createUser"))) client_session_submitting.
Proof.
  assert (H1 : reachable ClientMachine.transition
                 (ClientMachine.initial (VStr (js "createUser")))
                 (ClientMachine.editing,
                  ClientMachine.Ctx.mk (VStr (js "createUser")) (VObj []) (VObj [])
                    (VObj []) (VObj []) (VObj []) false VNull)).
  { eapply (reachable_step _ _ _
              (ClientMachine.done_load
                 (VObj [(js "jsonSchema", VObj []); (js "uiSchema", VObj [])])));
      [apply reachable_init|]. vm_compute. reflexivity. }
  assert (H2 : reachable ClientMachine.transition
                 (ClientMachine.initial (VStr (js "createUser")))
                 (ClientMachine.submitting,
                  ClientMachine.Ctx.mk (VStr (js "createUser")) (VObj []) (VObj [])
                    (VObj []) (VObj []) (VObj []) true VNull)).
  { eapply (reachable_step _ _ _ ClientMachine.SUBMIT); [exact H1|].
    vm_compute. reflexivity. }
  assert (H3 : reachable ClientMachine.transition
                 (ClientMachine.initial (VStr (js "createUser")))
                 client_session_rejected).
  { eapply (reachable_step _ _ _
              (ClientMachine.error_submit
                 (VObj [(js "success", VBool false);
                        (js "errors",
                         VObj [(js "username",
                                VStr (js "must have required property 'username'"))])])));
      [exact H2|]. vm_compute. reflexivity. }
  split; [exact H3|].
  eapply (reachable_step _ _ _ ClientMachine.SUBMIT); [exact H3|].
  vm_compute. reflexivity.
Qed.

Lemma client_flag_and_action_witness :
  (ClientMachine.Ctx.isSubmitting (snd client_session_submitting) = true
   ↔ fst client_session_submitting = ClientMachine.submitting)
  ∧ ClientMachine.Ctx.actionId (snd client_session_submitting)
    = VStr (js "createUser").
Proof.
  apply (ClientMachineFacts.client_flag_and_action (VStr (js "createUser"))
           client_session_submitting).
  apply reachable_client_session.
Defined.

Lemma client_server_errors_stay_witness :
  ClientMachine.Ctx.serverErrors (snd client_session_submitting)
  = ClientMachine.Ctx.serverErrors (snd client_session_rejected).
Proof.
  apply (ClientMachineFacts.client_server_errors_stay client_session_rejected
           client_session_submitting ClientMachine.SUBMIT).
  - vm_compute. reflexivity.
  - intros data. discriminate.
  - intros data. discriminate.
  - discriminate.
Defined.

Lemma client_rejection_without_errors_witness :
  ClientMachine.transition client_session_submitting
    (ClientMachine.error_submit reply_500_body)
  = Some (Normal (ClientMachine.editing,
                  ClientMachine.Ctx.mk (VStr (js "createUser")) (VObj []) (VObj [])
                    (VObj []) (VObj [])
                    (VObj [(js "_form", VStr (js "Submission failed"))])
                    false VNull)).
Proof.
  apply (ClientMachineFacts.client_rejection_without_errors
           (snd client_session_submitting) reply_500_body).
  vm_compute. reflexivity.
Defined.
